(** * FitPlan Pro workout backend: a shallow embedding of the route handlers

    The development follows the layout of [workout_backend/src]:

    - [models/*.py]            the rows of the relational store, one record
                               per mapped class, the column types, and the
                               store itself;
    - [database/connection.py] the session a handler works in (pending
                               writes, commit, roll-back on close);
    - [api/routes/workouts.py] [generate_workout], [create_custom_workout];
    - [api/routes/logs.py]     [log_workout], [log_exercise_sets],
                               [get_workout_logs];
    - [api/routes/exercises.py] [get_exercise_by_id];
    - [api/routes/progress.py] [get_progress_summary],
                               [get_exercise_progress].

    Conventions of the embedding.
    - A UUID and an integer key are integers ([Z]); an instant is the number
      of microseconds since the epoch, so [timedelta(days=d)] is
      [d * 86400000000]. The database session runs in UTC, so that a naive
      [datetime.utcnow()] bound into a query denotes the instant it was read
      at. In Python a [datetime] is aware or naive ([pydatetime]), and the
      two do not compare.
    - A nullable column or an [Optional] field is an [option]; Python's
      truthiness tests ([if x], [x or d]) are written out.
    - A [Decimal] is an exact rational ([Q]). A Python [float] is a binary64
      number ([float], the standard library's [spec_float] at precision 53),
      and [float(...)], [+], [-], [*], [/], [max] and [round(x, 2)] round as
      IEEE 754 and CPython do. What [sum] does to floats depends on the
      interpreter and is an argument of the handlers ([FloatSum]). Where a
      response field is a single [float(decimal)] with no arithmetic after
      it, the field keeps the decimal, which is what the float prints as.
    - An [Integer] column holds 32 bits and a [Numeric(p, s)] column rounds
      to [s] decimals; a row that does not fit is refused with [DataError]
      and nothing of its transaction is stored. Keys the server hands out
      are taken to fit.
    - A handler is a state-and-exception computation over a [Session]; what
      reaches the database is what was committed before the handler ended.
    - A request is what FastAPI hands to the handler: the items of a custom
      workout (dicts) hold integers or null under the four keys the handler
      reads, and [days] is an integer.
    - The sources of entropy and time the handlers read ([random.sample],
      [gen_random_uuid()], [datetime.utcnow()], [now()]) are explicit
      arguments. *)

From Stdlib Require Import ZArith QArith Qround Qabs Lia Lqa Ascii String SpecFloat.
From stdpp Require Import base list strings gmap sorting.

Local Open Scope Z_scope.

(** ** Python values *)

Definition UUID := Z.
Definition datetime := Z.

(** [timedelta(days=d)], in microseconds. *)
Definition timedelta_days (d : Z) : Z := d * 86400000000.

(** [str.lower()] on the ASCII range: the letters A-Z move to a-z, every
    other byte is kept (in particular the bytes of non-ASCII characters,
    none of which Python lowers to a letter that occurs in a valid goal). *)
Definition ascii_lower (c : ascii) : ascii :=
  let n := nat_of_ascii c in
  if ((65 <=? n) && (n <=? 90))%nat then ascii_of_nat (n + 32) else c.

Fixpoint lower (s : string) : string :=
  match s with
  | EmptyString => EmptyString
  | String c s' => String (ascii_lower c) (lower s')
  end.

(** Truthiness of an [Optional[int]]: [None] and [0] are falsy. *)
Definition truthy_int (x : option Z) : bool :=
  match x with
  | Some z => negb (z =? 0)
  | None => false
  end.

(** Truthiness of an [Optional[Decimal]]: [None] and zero are falsy. *)
Definition truthy_decimal (x : option Q) : bool :=
  match x with
  | Some q => negb (Qeq_bool q 0)
  | None => false
  end.

(** [x or 0] for an [Optional[int]]. *)
Definition or_zero (x : option Z) : Z :=
  if truthy_int x then default 0 x else 0.

(** A [datetime] object carries a time zone (aware) or not (naive). *)
Inductive pydatetime :=
  | aware (t : datetime)
  | naive (t : datetime).

(** ** Python floats *)

Definition float : Type := spec_float.

Definition prec : Z := 53.
Definition emax : Z := 1024.

Definition float_zero : float := S754_zero false.

(** The double nearest to a fraction [n / d], ties to even. *)
Definition float_of_fraction (negative : bool) (n d : positive) : float :=
  let '(m, e, l) := SFdiv_core_binary prec emax (Zpos n) 0 (Zpos d) 0 in
  binary_round_aux prec emax negative m e l.

(** [float(d)] for a [Decimal] or an [int]. *)
Definition float_of_Q (q : Q) : float :=
  match Qnum q with
  | Z0 => float_zero
  | Zpos n => float_of_fraction false n (Qden q)
  | Zneg n => float_of_fraction true n (Qden q)
  end.

Definition float_of_Z (z : Z) : float := float_of_Q (inject_Z z).

(** The absolute value of a finite float, exactly. *)
Definition float_magnitude (x : float) : Q :=
  match x with
  | S754_finite _ m (Zpos e) => inject_Z (Zpos (m * 2 ^ e))
  | S754_finite _ m Z0 => inject_Z (Zpos m)
  | S754_finite _ m (Zneg e) => Zpos m # 2 ^ e
  | _ => 0
  end.

(** The value of a finite float, exactly. *)
Definition float_value (x : float) : Q :=
  match x with
  | S754_finite true _ _ => (- float_magnitude x)%Q
  | _ => float_magnitude x
  end.

Definition float_add : float -> float -> float := SFadd prec emax.
Definition float_sub : float -> float -> float := SFsub prec emax.
Definition float_mul : float -> float -> float := SFmul prec emax.
Definition float_div : float -> float -> float := SFdiv prec emax.

(** The integer nearest to a rational, ties to the even one. *)
Definition round_half_even (q : Q) : Z :=
  let f := Qfloor q in
  match (q - inject_Z f ?= 1 # 2)%Q with
  | Lt => f
  | Gt => f + 1
  | Eq => if Z.even f then f else f + 1
  end.

(** [round(x, ndigits)]: the exact value of [x] is rounded to [ndigits]
    decimals, ties to even, and the decimal is converted back; the sign of
    [x] is kept when the result is zero. *)
Definition float_round (ndigits : positive) (x : float) : float :=
  match x with
  | S754_finite s _ _ =>
      match round_half_even (float_magnitude x * inject_Z (Zpos (10 ^ ndigits))) with
      | Zpos n => float_of_fraction s n (10 ^ ndigits)
      | _ => S754_zero s
      end
  | _ => x
  end.

(** [max(xs)] of a non-empty list: the first of the largest elements. *)
Definition float_max (x : float) (xs : list float) : float :=
  foldl (fun m y => if SFltb m y then y else m) x xs.

(** [sum(xs)] of floats. Up to CPython 3.11 the items are added from left
    to right; from 3.12 on the rounding errors are accumulated next to the
    sum (Neumaier) and added at the end. *)
Inductive FloatSum :=
  | left_to_right
  | compensated.

Definition compensated_step (acc : float * float) (x : float) : float * float :=
  let '(f, c) := acc in
  let t := float_add f x in
  (t, float_add c (if SFleb (SFabs x) (SFabs f)
                   then float_add (float_sub f t) x
                   else float_add (float_sub x t) f)).

(** The sum starts from the integer [0], to which the first item is added. *)
Definition float_sum (sum : FloatSum) (x : float) (xs : list float) : float :=
  let first := float_add float_zero x in
  match sum with
  | left_to_right => foldl float_add first xs
  | compensated =>
      let '(f, c) := foldl compensated_step (first, float_zero) xs in
      match c with
      | S754_finite _ _ _ => float_add f c
      | _ => f
      end
  end.

(** ** The exceptions a handler can end with *)

Inductive Exception :=
  | HTTPException (status_code : Z)
  | RequestValidationError
  | TypeError
  | ValueError
  | KeyError
  | DataError.

Definition HTTP_404_NOT_FOUND : Z := 404.
Definition HTTP_400_BAD_REQUEST : Z := 400.

(** The two failure classes of the error taxonomy. FastAPI answers a
    [RequestValidationError] with 422 before the handler is entered;
    [DataError] is what the database driver raises for a value that does not
    fit its column. *)
Definition NotFound : Exception := HTTPException HTTP_404_NOT_FOUND.
Definition InvalidArgument : Exception := HTTPException HTTP_400_BAD_REQUEST.

Inductive Outcome (A : Type) :=
  | Return (a : A)
  | Raise (e : Exception).
Arguments Return {A} a.
Arguments Raise {A} e.

(** Ordering two [datetime] objects: an aware and a naive one do not
    compare. *)
Definition datetime_ge (a b : pydatetime) : Outcome bool :=
  match a, b with
  | aware x, aware y | naive x, naive y => Return (bool_decide (y <= x))
  | _, _ => Raise TypeError
  end.

(** ** models/*.py *)

Module User.
Record t := mk {
  id : UUID;
  email : string;
  name : option string
}.
End User.

Module Equipment.
Record t := mk {
  id : Z;
  name : string
}.
End Equipment.

Module Exercise.
Record t := mk {
  id : Z;
  name : string;
  primary_muscle : option string;
  secondary_muscle : option string;
  equipment_id : option Z;
  calories_per_min : option Q
}.
End Exercise.

Module Workout.
Record t := mk {
  id : UUID;
  user_id : option UUID;
  goal : option string
}.
End Workout.

Module WorkoutExercise.
Record t := mk {
  id : Z;
  workout_id : option UUID;
  exercise_id : option Z;
  target_sets : option Z;
  target_reps : option Z;
  rest_seconds : option Z
}.
End WorkoutExercise.

Module WorkoutLog.
Record t := mk {
  id : UUID;
  workout_id : option UUID;
  performed_at : datetime;
  duration_minutes : Z
}.
End WorkoutLog.

Module ExerciseSet.
Record t := mk {
  id : Z;
  workout_log_id : option UUID;
  exercise_id : option Z;
  set_number : option Z;
  reps : option Z;
  weight_kg : option Q;
  rpe : option Q
}.
End ExerciseSet.

(** ** Column types *)

(** [Integer]: 32 bits, signed. *)
Definition int4 (z : Z) : bool := (-2147483648 <=? z) && (z <=? 2147483647).

Definition fits_integer (x : option Z) : bool :=
  match x with
  | Some z => int4 z
  | None => true
  end.

(** The integer nearest to a rational, ties away from zero. *)
Definition round_half_away (q : Q) : Z :=
  Z.sgn (Qnum q) * ((2 * Z.abs (Qnum q) + Zpos (Qden q)) / (2 * Zpos (Qden q))).

(** [Numeric(precision, scale)]: a value is rounded to [scale] decimals, and
    fits when the rounded value has at most [precision] digits. *)
Definition quantize (scale : positive) (q : Q) : Q :=
  round_half_away (q * inject_Z (Zpos (10 ^ scale))) # 10 ^ scale.

Definition fits_numeric (precision scale : positive) (q : Q) : bool :=
  Z.abs (Qnum (quantize scale q)) <? Zpos (10 ^ precision).

(** The tables, each in the order the store returns its rows. *)
Record Store := mkStore {
  users : list User.t;
  equipment : list Equipment.t;
  exercises : list Exercise.t;
  workouts : list Workout.t;
  workout_exercises : list WorkoutExercise.t;
  workout_logs : list WorkoutLog.t;
  exercise_sets : list ExerciseSet.t
}.

(** The primary keys the schema declares on the tables that the handlers
    look rows up in. *)
Record primary_keys (st : Store) : Prop := {
  pk_exercises : NoDup (Exercise.id <$> exercises st);
  pk_workout_logs : NoDup (WorkoutLog.id <$> workout_logs st)
}.

(** ** database/connection.py: the session *)

(** [SessionLocal()] opens a transaction on the store; [db.add] changes the
    session's view, [db.commit] makes the view durable, and [db.close()]
    (run by [get_db] whether the handler returned or raised) drops whatever
    was not committed. *)
Record Session := mkSession {
  committed : Store;
  working : Store
}.

Definition Handler (A : Type) : Type := Session -> Session * Outcome A.

#[global] Instance outcome_ret : MRet Outcome := fun A a => Return a.
#[global] Instance outcome_bind : MBind Outcome := fun A B k o =>
  match o with
  | Return a => k a
  | Raise e => Raise e
  end.

#[global] Instance handler_ret : MRet Handler := fun A a s => (s, Return a).
#[global] Instance handler_bind : MBind Handler := fun A B k m s =>
  match m s with
  | (s', Return a) => k a s'
  | (s', Raise e) => (s', Raise e)
  end.

Definition raise {A} (e : Exception) : Handler A := fun s => (s, Raise e).
Definition lift {A} (o : Outcome A) : Handler A := fun s => (s, o).

(** [db.query(...)]: read the session's view. *)
Definition query {A} (f : Store -> A) : Handler A :=
  fun s => (s, Return (f (working s))).

Definition update (f : Store -> Store) : Handler unit :=
  fun s => (mkSession (committed s) (f (working s)), Return tt).

Definition db_commit : Handler unit :=
  fun s => (mkSession (working s) (working s), Return tt).

(** A request from [get_db] to [db.close()]: the store afterwards and what
    the handler answered. *)
Definition run {A} (h : Handler A) (st : Store) : Store * Outcome A :=
  let (s, o) := h (mkSession st st) in (committed s, o).

(** The value an autoincrement key gets: one more than the largest in use. *)
Definition next_id (ids : list Z) : Z := 1 + foldr Z.max 0 ids.

(** The store with rows appended to one table. *)
Definition with_workout (st : Store) (w : Workout.t) : Store :=
  mkStore (users st) (equipment st) (exercises st) (workouts st ++ [w])
          (workout_exercises st) (workout_logs st) (exercise_sets st).

Definition with_workout_exercises (st : Store) (rows : list WorkoutExercise.t)
    : Store :=
  mkStore (users st) (equipment st) (exercises st) (workouts st)
          (workout_exercises st ++ rows) (workout_logs st) (exercise_sets st).

Definition with_exercise_sets (st : Store) (rows : list ExerciseSet.t) : Store :=
  mkStore (users st) (equipment st) (exercises st) (workouts st)
          (workout_exercises st) (workout_logs st) (exercise_sets st ++ rows).

(** [db.add(Workout(...))]; the key is the one the server generates. *)
Definition db_add_workout (w : Workout.t) : Handler unit :=
  update (fun st => with_workout st w).

(** [db.add(...)] and the INSERT it leads to. The INSERT is sent by the flush
    that [db.commit()] starts, and the server refuses it with [DataError] when
    a value does not fit its column; a refused flush ends the transaction,
    so that nothing of it is stored. Between a [db.add] and that flush a
    handler only builds and adds the further rows of the same loop, so the
    refusal is raised where the row is added. The keys of a row
    ([workout_id], [exercise_id], [workout_log_id]) are those of rows the
    handler has read or written before. *)

(** [db.add(WorkoutExercise(...))]: the handler goes on with the object it
    built; the stored row has the column default, 90, in place of a null
    [rest_seconds]. *)
Definition db_add_workout_exercise
    (workout_id : option UUID)
    (exercise_id target_sets target_reps rest_seconds : option Z)
    : Handler WorkoutExercise.t :=
  fun s =>
    let st := working s in
    let id := next_id (WorkoutExercise.id <$> workout_exercises st) in
    let workout_exercise :=
      WorkoutExercise.mk id workout_id exercise_id
        target_sets target_reps rest_seconds in
    let row :=
      WorkoutExercise.mk id workout_id exercise_id
        target_sets target_reps (Some (default 90 rest_seconds)) in
    if fits_integer target_sets && fits_integer target_reps
       && fits_integer rest_seconds
    then (mkSession (committed s) (with_workout_exercises st [row]),
          Return workout_exercise)
    else (s, Raise DataError).

(** [db.add(ExerciseSet(...))]; the handler reads the object only after
    [db.refresh], which loads the stored row: [weight_kg] with the column
    default, 0, in place of null and rounded to two decimals, [rpe] rounded
    to one. *)
Definition db_add_exercise_set
    (workout_log_id : option UUID) (exercise_id set_number reps : option Z)
    (weight_kg rpe : option Q) : Handler ExerciseSet.t :=
  fun s =>
    let st := working s in
    let row :=
      ExerciseSet.mk (next_id (ExerciseSet.id <$> exercise_sets st))
        workout_log_id exercise_id set_number reps
        (Some (quantize 2 (default 0%Q weight_kg))) (quantize 1 <$> rpe) in
    if fits_integer set_number && fits_integer reps
       && fits_numeric 10 2 (default 0%Q weight_kg)
       && default true (fits_numeric 4 1 <$> rpe)
    then (mkSession (committed s) (with_exercise_sets st [row]), Return row)
    else (s, Raise DataError).

(** [for x in xs: body(x)], collecting what the bodies return. *)
Fixpoint for_each {A B} (body : A -> Handler B) (xs : list A) : Handler (list B) :=
  match xs with
  | [] => mret []
  | x :: xs' => y ← body x; ys ← for_each body xs'; mret (y :: ys)
  end.

(** A stable sort, largest key first: [sort(key=..., reverse=True)] and
    [ORDER BY ... DESC] over rows in table order. *)
Fixpoint insert_desc {A} (key : A -> Z) (x : A) (l : list A) : list A :=
  match l with
  | [] => [x]
  | y :: l' => if key x <? key y then y :: insert_desc key x l' else x :: l
  end.

Definition sort_desc {A} (key : A -> Z) (l : list A) : list A :=
  foldr (insert_desc key) [] l.

(** A stable sort, smallest key first: [ORDER BY ...]. *)
Fixpoint insert_asc {A} (key : A -> Z) (x : A) (l : list A) : list A :=
  match l with
  | [] => [x]
  | y :: l' => if key y <? key x then y :: insert_asc key x l' else x :: l
  end.

Definition sort_asc {A} (key : A -> Z) (l : list A) : list A :=
  foldr (insert_asc key) [] l.

(** ** random.sample *)

(** The generator's future draws; [randbelow n] consumes one. *)
Definition Rng := list nat.

Definition randbelow (n : nat) (g : Rng) : nat * Rng :=
  match g with
  | [] => (0%nat, [])
  | r :: g' => ((r mod n)%nat, g')
  end.

(** [k] draws without replacement: each draw takes a position of the pool
    that is still available. *)
Fixpoint draw {A} (k : nat) (pool : list A) (g : Rng) : list A * Rng :=
  match k with
  | O => ([], g)
  | S k' =>
      let (j, g') := randbelow (length pool) g in
      match pool !! j with
      | None => ([], g')
      | Some x => let (xs, g'') := draw k' (delete j pool) g' in (x :: xs, g'')
      end
  end.

(** [random.sample(population, k)]: [ValueError] when [k] is negative or
    larger than the population. *)
Definition random_sample {A} (population : list A) (k : Z) (g : Rng)
    : Outcome (list A * Rng) :=
  if (k <? 0) || (Z.of_nat (length population) <? k)
  then Raise ValueError
  else Return (draw (Z.to_nat k) population g).

(** ** api/routes/workouts.py *)

Module WorkoutGenerateRequest.
Record t := mk {
  user_id : UUID;
  goal : string;
  equipment : option (list string);
  duration_minutes : option Z
}.
End WorkoutGenerateRequest.

(** An entry of the response's [exercises] list (a dict). *)
Module ExerciseDetail.
Record t := mk {
  exercise_id : Z;
  exercise_name : string;
  primary_muscle : option string;
  target_sets : option Z;
  target_reps : option Z;
  rest_seconds : option Z
}.
End ExerciseDetail.

Module WorkoutGenerateResponse.
Record t := mk {
  workout_id : UUID;
  goal : string;
  exercises : list ExerciseDetail.t;
  estimated_duration : Z
}.
End WorkoutGenerateResponse.

(** An item of [CustomWorkoutRequest.exercises] (a dict): each key is absent
    ([None]), or present with [null] ([Some None]) or an integer. *)
Module ExerciseSpec.
Record t := mk {
  exercise_id : option (option Z);
  target_sets : option (option Z);
  target_reps : option (option Z);
  rest_seconds : option (option Z)
}.
End ExerciseSpec.

Module CustomWorkoutRequest.
Record t := mk {
  user_id : UUID;
  goal : string;
  exercises : list ExerciseSpec.t
}.
End CustomWorkoutRequest.

(** [d.get(k)], [d.get(k, default)] and [d[k]] on one key of a dict. *)
Definition dict_get (field : option (option Z)) : option Z :=
  match field with
  | Some v => v
  | None => None
  end.

Definition dict_get_default (field : option (option Z)) (d : Z) : option Z :=
  match field with
  | Some v => v
  | None => Some d
  end.

Definition dict_item (field : option (option Z)) : Outcome (option Z) :=
  match field with
  | Some v => Return v
  | None => Raise KeyError
  end.

Definition valid_goals : list string :=
  ["strength"; "hypertrophy"; "endurance"; "weight_loss"; "general"]%string.

Definition major_groups : list string :=
  ["chest"; "back"; "legs"; "shoulders"; "arms"]%string.

(** [db.query(User).filter(User.id == user_id).first()] *)
Definition find_user (user_id : UUID) (st : Store) : option User.t :=
  head (filter (fun u => User.id u = user_id) (users st)).

(** The exercise query of [generate_workout], with its equipment filter. *)
Definition equipment_ids_named (names : list string) (st : Store) : list Z :=
  Equipment.id <$> filter (fun eq => Equipment.name eq ∈ names) (equipment st).

Definition eligible (equipment_ids : list Z) (ex : Exercise.t) : bool :=
  match Exercise.equipment_id ex with
  | Some e => bool_decide (e ∈ equipment_ids)
  | None => true
  end.

Definition exercise_query (equipment : option (list string)) (st : Store)
    : list Exercise.t :=
  match equipment with
  | None | Some [] => exercises st
  | Some names =>
      filter (fun ex => eligible (equipment_ids_named names st) ex) (exercises st)
  end.

(** [exercise.primary_muscle or "general"] *)
Definition muscle_of (exercise : Exercise.t) : string :=
  match Exercise.primary_muscle exercise with
  | None | Some EmptyString => "general"
  | Some m => m
  end.

Definition group_by_muscle (exercises : list Exercise.t)
    : gmap string (list Exercise.t) :=
  foldl (fun muscle_groups exercise =>
           let muscle := muscle_of exercise in
           <[muscle := default [] (muscle_groups !! muscle) ++ [exercise]]>
             muscle_groups)
        ∅ exercises.

(** Sets, reps and rest for a goal; the last branch is the [else]. *)
Definition prescription (goal : string) : Z * Z * Z :=
  if String.eqb goal "strength" then (5, 5, 180)
  else if String.eqb goal "hypertrophy" then (4, 10, 90)
  else if String.eqb goal "endurance" then (3, 15, 60)
  else if String.eqb goal "weight_loss" then (3, 12, 45)
  else (3, 10, 90).

(** The loop over [major_groups]. *)
Fixpoint select_major (muscle_groups : gmap string (list Exercise.t))
    (exercises_per_group : Z) (groups : list string)
    (selected_exercises : list Exercise.t) (g : Rng)
    : Outcome (list Exercise.t * Rng) :=
  match groups with
  | [] => Return (selected_exercises, g)
  | muscle :: groups' =>
      match muscle_groups !! muscle with
      | None =>
          select_major muscle_groups exercises_per_group groups'
                       selected_exercises g
      | Some bucket =>
          r ← random_sample bucket
                (Z.min exercises_per_group (Z.of_nat (length bucket))) g;
          select_major muscle_groups exercises_per_group groups'
                       (selected_exercises ++ r.1) r.2
      end
  end.

(** [max(5, request.duration_minutes // 10)]; [None // 10] is a [TypeError]. *)
Definition target_count (duration_minutes : option Z) : Outcome Z :=
  match duration_minutes with
  | Some d => Return (Z.max 5 (d / 10))
  | None => Raise TypeError
  end.

(** The top-up from the exercises not selected so far. Two mapped objects of
    one session are the same object exactly when they are the same row, so
    [ex not in selected_exercises] compares primary keys. *)
Definition top_up (exercises selected_exercises : list Exercise.t)
    (target_exercise_count : Z) (g : Rng) : Outcome (list Exercise.t * Rng) :=
  if Z.of_nat (length selected_exercises) <? target_exercise_count then
    let remaining_exercises :=
      filter (fun ex => Exercise.id ex ∉ Exercise.id <$> selected_exercises)
             exercises in
    match remaining_exercises with
    | [] => Return (selected_exercises, g)
    | _ =>
        r ← random_sample remaining_exercises
              (Z.min (target_exercise_count - Z.of_nat (length selected_exercises))
                     (Z.of_nat (length remaining_exercises))) g;
        Return (selected_exercises ++ r.1, r.2)
    end
  else Return (selected_exercises, g).

(** Steps 2-5 of the generator: everything between the catalog query and
    the first write. *)
Definition select_exercises (exercises : list Exercise.t)
    (duration_minutes : option Z) (g : Rng) : Outcome (list Exercise.t) :=
  let muscle_groups := group_by_muscle exercises in
  let exercises_per_group := if 5 <? Z.of_nat (size muscle_groups) then 1 else 2 in
  r ← select_major muscle_groups exercises_per_group major_groups [] g;
  target_exercise_count ← target_count duration_minutes;
  r' ← top_up exercises r.1 target_exercise_count r.2;
  Return r'.1.

(** The body of the loop over [selected_exercises]. *)
Definition exercise_detail (target_sets target_reps rest_seconds : Z)
    (exercise : Exercise.t) : ExerciseDetail.t :=
  ExerciseDetail.mk (Exercise.id exercise) (Exercise.name exercise)
    (Exercise.primary_muscle exercise)
    (Some target_sets) (Some target_reps) (Some rest_seconds).

Definition add_selected (workout_id : UUID)
    (target_sets target_reps rest_seconds : Z) (exercise : Exercise.t)
    : Handler ExerciseDetail.t :=
  db_add_workout_exercise (Some workout_id) (Some (Exercise.id exercise))
    (Some target_sets) (Some target_reps) (Some rest_seconds);;
  mret (exercise_detail target_sets target_reps rest_seconds exercise).

Definition generate_workout (request : WorkoutGenerateRequest.t)
    (g : Rng) (new_workout_id : UUID) : Handler WorkoutGenerateResponse.t :=
  user ← query (find_user (WorkoutGenerateRequest.user_id request));
  match user with
  | None => raise NotFound
  | Some _ =>
      let goal := lower (WorkoutGenerateRequest.goal request) in
      if bool_decide (goal ∉ valid_goals) then raise InvalidArgument else
      exercises ← query (exercise_query (WorkoutGenerateRequest.equipment request));
      match exercises with
      | [] => raise InvalidArgument
      | _ =>
          let '(target_sets, target_reps, rest_seconds) := prescription goal in
          selected_exercises ←
            lift (select_exercises exercises
                    (WorkoutGenerateRequest.duration_minutes request) g);
          let workout :=
            Workout.mk new_workout_id
              (Some (WorkoutGenerateRequest.user_id request)) (Some goal) in
          db_add_workout workout;;
          exercise_details ←
            for_each (add_selected (Workout.id workout)
                        target_sets target_reps rest_seconds)
                     selected_exercises;
          db_commit;;
          let estimated_duration :=
            Z.of_nat (length selected_exercises) * target_sets
              * (target_reps * 3 + rest_seconds) / 60 in
          mret (WorkoutGenerateResponse.mk (Workout.id workout) goal
                  exercise_details estimated_duration)
      end
  end.

(** One summand of [create_custom_workout]'s duration estimate; arithmetic
    on [None] is a [TypeError]. *)
Definition duration_term (ex : ExerciseDetail.t) : Outcome Z :=
  match ExerciseDetail.target_sets ex, ExerciseDetail.target_reps ex,
        ExerciseDetail.rest_seconds ex with
  | Some target_sets, Some target_reps, Some rest_seconds =>
      Return (target_sets * (target_reps * 3 + rest_seconds))
  | _, _, _ => Raise TypeError
  end.

Fixpoint sum_duration_terms (exercise_details : list ExerciseDetail.t) : Outcome Z :=
  match exercise_details with
  | [] => Return 0
  | ex :: rest =>
      x ← duration_term ex; y ← sum_duration_terms rest; Return (x + y)
  end.

(** [{ex.id: ex for ex in exercises}] *)
Definition exercises_by_id (exercises : list Exercise.t) : gmap Z Exercise.t :=
  foldl (fun d ex => <[Exercise.id ex := ex]> d) ∅ exercises.

(** [exercises_dict[ex_data["exercise_id"]]] *)
Definition resolve_exercise (exercises_dict : gmap Z Exercise.t)
    (ex_data : ExerciseSpec.t) : Outcome Exercise.t :=
  key ← dict_item (ExerciseSpec.exercise_id ex_data);
  match key with
  | Some k =>
      match exercises_dict !! k with
      | Some exercise => Return exercise
      | None => Raise KeyError
      end
  | None => Raise KeyError
  end.

(** The body of the loop over [request.exercises]. *)
Definition add_custom (workout_id : UUID) (exercises_dict : gmap Z Exercise.t)
    (ex_data : ExerciseSpec.t) : Handler ExerciseDetail.t :=
  exercise ← lift (resolve_exercise exercises_dict ex_data);
  workout_exercise ←
    db_add_workout_exercise (Some workout_id)
      (dict_get (ExerciseSpec.exercise_id ex_data))
      (dict_get_default (ExerciseSpec.target_sets ex_data) 3)
      (dict_get_default (ExerciseSpec.target_reps ex_data) 10)
      (dict_get_default (ExerciseSpec.rest_seconds ex_data) 90);
  mret (ExerciseDetail.mk (Exercise.id exercise) (Exercise.name exercise)
          (Exercise.primary_muscle exercise)
          (WorkoutExercise.target_sets workout_exercise)
          (WorkoutExercise.target_reps workout_exercise)
          (WorkoutExercise.rest_seconds workout_exercise)).

Definition create_custom_workout (request : CustomWorkoutRequest.t)
    (new_workout_id : UUID) : Handler WorkoutGenerateResponse.t :=
  user ← query (find_user (CustomWorkoutRequest.user_id request));
  match user with
  | None => raise NotFound
  | Some _ =>
      match CustomWorkoutRequest.exercises request with
      | [] => raise InvalidArgument
      | _ =>
          let exercise_ids :=
            (fun ex => dict_get (ExerciseSpec.exercise_id ex))
              <$> CustomWorkoutRequest.exercises request in
          exercises ← query (fun st =>
            filter (fun ex => Some (Exercise.id ex) ∈ exercise_ids) (exercises st));
          if bool_decide (length exercises ≠ length exercise_ids)
          then raise NotFound else
          let workout :=
            Workout.mk new_workout_id
              (Some (CustomWorkoutRequest.user_id request))
              (Some (CustomWorkoutRequest.goal request)) in
          db_add_workout workout;;
          let exercises_dict := exercises_by_id exercises in
          exercise_details ←
            for_each (add_custom (Workout.id workout) exercises_dict)
                     (CustomWorkoutRequest.exercises request);
          db_commit;;
          total ← lift (sum_duration_terms exercise_details);
          mret (WorkoutGenerateResponse.mk (Workout.id workout)
                  (CustomWorkoutRequest.goal request)
                  exercise_details (total / 60))
      end
  end.

(** ** api/routes/logs.py *)

(** [schemas/exercise_set.py]: an item of [ExerciseSetLogRequest.sets]. *)
Module ExerciseSetCreate.
Record t := mk {
  workout_log_id : option UUID;
  exercise_id : option Z;
  set_number : option Z;
  reps : option Z;
  weight_kg : option Q;
  rpe : option Q
}.
End ExerciseSetCreate.

(** [enumerate(xs, start)] *)
Fixpoint enumerate {A} (start : Z) (xs : list A) : list (Z * A) :=
  match xs with
  | [] => []
  | x :: xs' => (start, x) :: enumerate (start + 1) xs'
  end.

Definition find_workout (workout_id : UUID) (st : Store) : option Workout.t :=
  head (filter (fun w => Workout.id w = workout_id) (workouts st)).

Definition find_workout_exercise (workout_id : UUID) (exercise_id : Z)
    (st : Store) : option WorkoutExercise.t :=
  head (filter (fun we => WorkoutExercise.workout_id we = Some workout_id
                          ∧ WorkoutExercise.exercise_id we = Some exercise_id)
               (workout_exercises st)).

Definition find_exercise (exercise_id : Z) (st : Store) : option Exercise.t :=
  head (filter (fun ex => Exercise.id ex = exercise_id) (exercises st)).

(** The logs of a workout, most recently performed first; logs performed
    at the same instant come in table order here. *)
Definition logs_of_workout (workout_id : UUID) (st : Store) : list WorkoutLog.t :=
  sort_desc WorkoutLog.performed_at
    (filter (fun l => WorkoutLog.workout_id l = Some workout_id) (workout_logs st)).

(** The body of the loop over [enumerate(request.sets, start=1)]. *)
Definition add_logged_set (workout_log : WorkoutLog.t) (exercise_id : Z)
    (item : Z * ExerciseSetCreate.t) : Handler ExerciseSet.t :=
  let '(idx, set_data) := item in
  db_add_exercise_set (Some (WorkoutLog.id workout_log)) (Some exercise_id)
    (Some idx)
    (ExerciseSetCreate.reps set_data)
    (ExerciseSetCreate.weight_kg set_data)
    (ExerciseSetCreate.rpe set_data).

Definition log_exercise_sets (workout_id : UUID) (exercise_id : Z)
    (sets : list ExerciseSetCreate.t) : Handler (list ExerciseSet.t) :=
  workout ← query (find_workout workout_id);
  match workout with
  | None => raise NotFound
  | Some _ =>
  workout_exercise ← query (find_workout_exercise workout_id exercise_id);
  match workout_exercise with
  | None => raise NotFound
  | Some _ =>
  exercise ← query (find_exercise exercise_id);
  match exercise with
  | None => raise NotFound
  | Some _ =>
  match sets with
  | [] => raise InvalidArgument
  | _ =>
  workout_log ← query (fun st => head (logs_of_workout workout_id st));
  match workout_log with
  | None => raise InvalidArgument
  | Some workout_log =>
      created_sets ←
        for_each (add_logged_set workout_log exercise_id) (enumerate 1 sets);
      db_commit;;
      mret created_sets
  end end end end end.

(** ** api/routes/progress.py *)

(** An entry of the summary's [exercise_progress] list (a dict). *)
Module ExerciseProgressEntry.
Record t := mk {
  exercise_id : Z;
  exercise_name : string;
  total_sets : Z;
  total_reps : Z;
  max_weight_kg : float;
  avg_weight_kg : float
}.
End ExerciseProgressEntry.

(** The [workout_frequency] dict, one field per key. *)
Module WorkoutFrequency.
Record t := mk {
  last_7_days : Z;
  last_30_days : Z;
  last_90_days : Z
}.
End WorkoutFrequency.

Module ProgressSummary.
Record t := mk {
  user_id : UUID;
  total_workouts : Z;
  total_exercises : Z;
  total_sets : Z;
  total_reps : Z;
  total_duration_minutes : Z;
  estimated_calories_burned : float;
  workout_frequency : WorkoutFrequency.t;
  exercise_progress : list ExerciseProgressEntry.t
}.
End ProgressSummary.

(** An entry of [ExerciseProgress.progression] (a dict). *)
Module ProgressionPoint.
Record t := mk {
  date : datetime;
  reps : Z;
  weight_kg : Q;
  rpe : option Q;
  set_number : option Z
}.
End ProgressionPoint.

Module ExerciseProgress.
Record t := mk {
  exercise_id : Z;
  exercise_name : string;
  total_sets : Z;
  total_reps : Z;
  max_weight_kg : float;
  avg_weight_kg : float;
  progression : list ProgressionPoint.t
}.
End ExerciseProgress.

(** [sum(...)] over integers, and [len(...)]. *)
Definition sum_Z (xs : list Z) : Z := foldl Z.add 0 xs.
Definition len {A} (xs : list A) : Z := Z.of_nat (length xs).

(** [[float(s.weight_kg) for s in ex_sets if s.weight_kg]] *)
Definition weights_of (ex_sets : list ExerciseSet.t) : list float :=
  omap (fun s => if truthy_decimal (ExerciseSet.weight_kg s)
                 then float_of_Q <$> ExerciseSet.weight_kg s else None) ex_sets.

(** [max(weights) if weights else 0.0] *)
Definition max_weight (weights : list float) : float :=
  match weights with
  | [] => float_zero
  | w :: ws => float_max w ws
  end.

(** [sum(weights) / len(weights) if weights else 0.0] *)
Definition avg_weight (sum : FloatSum) (weights : list float) : float :=
  match weights with
  | [] => float_zero
  | w :: ws => float_div (float_sum sum w ws) (float_of_Z (len weights))
  end.

Definition total_reps_of (ex_sets : list ExerciseSet.t) : Z :=
  sum_Z ((fun s => or_zero (ExerciseSet.reps s)) <$> ex_sets).

(** [exercise_sets_map]: a dict from exercise id to its sets, kept in the
    order the keys were first inserted (the order [.items()] yields). *)
Fixpoint map_append (exercise_id : Z) (ex_set : ExerciseSet.t)
    (m : list (Z * list ExerciseSet.t)) : list (Z * list ExerciseSet.t) :=
  match m with
  | [] => [(exercise_id, [ex_set])]
  | (k, ex_sets) :: m' =>
      if exercise_id =? k then (k, ex_sets ++ [ex_set]) :: m'
      else (k, ex_sets) :: map_append exercise_id ex_set m'
  end.

Definition exercise_sets_map (sets : list ExerciseSet.t)
    : list (Z * list ExerciseSet.t) :=
  foldl (fun m ex_set =>
           match ExerciseSet.exercise_id ex_set with
           | Some exercise_id =>
               if exercise_id =? 0 then m else map_append exercise_id ex_set m
           | None => m
           end)
        [] sets.

(** The workouts of a user and the logs of those workouts from [start_date]. *)
Definition workout_ids_of (user_id : UUID) (st : Store) : list UUID :=
  Workout.id <$> filter (fun w => Workout.user_id w = Some user_id) (workouts st).

Definition logs_in_window (workout_ids : list UUID) (start_date : datetime)
    (st : Store) : list WorkoutLog.t :=
  filter (fun l => WorkoutLog.workout_id l ∈ (Some <$> workout_ids)
                   ∧ start_date <= WorkoutLog.performed_at l)
         (workout_logs st).

Definition sets_of_logs (log_ids : list UUID) (st : Store) : list ExerciseSet.t :=
  match log_ids with
  | [] => []
  | _ => filter (fun s => ExerciseSet.workout_log_id s ∈ (Some <$> log_ids))
                (exercise_sets st)
  end.

(** [sum(1 for log in logs if log.performed_at >= since)]: [performed_at]
    is read from a [DateTime(timezone=True)] column and is aware. *)
Fixpoint count_since (since : pydatetime) (logs : list WorkoutLog.t) : Outcome Z :=
  match logs with
  | [] => Return 0
  | log :: logs' =>
      recent ← datetime_ge (aware (WorkoutLog.performed_at log)) since;
      n ← count_since since logs';
      Return ((if recent : bool then 1 else 0) + n)
  end.

(** The per-exercise loop of the summary, before sorting. *)
Definition progress_entries (sum : FloatSum) (st : Store)
    (groups : list (Z * list ExerciseSet.t)) : list ExerciseProgressEntry.t :=
  omap (fun '(exercise_id, ex_sets) =>
          match find_exercise exercise_id st with
          | None => None
          | Some exercise =>
              let weights := weights_of ex_sets in
              Some (ExerciseProgressEntry.mk exercise_id (Exercise.name exercise)
                      (len ex_sets) (total_reps_of ex_sets)
                      (max_weight weights) (avg_weight sum weights))
          end)
       groups.

(** [end_date] and [now] are the handler's two readings of
    [datetime.utcnow()], which are naive. *)
Definition get_progress_summary (sum : FloatSum) (user_id : UUID) (days : Z)
    (end_date now : datetime) : Handler ProgressSummary.t :=
  user ← query (find_user user_id);
  match user with
  | None => raise NotFound
  | Some _ =>
      let start_date := end_date - timedelta_days days in
      workout_ids ← query (workout_ids_of user_id);
      match workout_ids with
      | [] =>
          mret (ProgressSummary.mk user_id 0 0 0 0 0 float_zero
                  (WorkoutFrequency.mk 0 0 0) [])
      | _ =>
          logs ← query (logs_in_window workout_ids start_date);
          let log_ids := WorkoutLog.id <$> logs in
          let total_workouts := len logs in
          let total_duration := sum_Z (WorkoutLog.duration_minutes <$> logs) in
          sets ← query (sets_of_logs log_ids);
          let total_sets := len sets in
          let total_reps := total_reps_of sets in
          let unique_exercises :=
            len (remove_dups
                   (omap (fun s => if truthy_int (ExerciseSet.exercise_id s)
                                   then ExerciseSet.exercise_id s else None) sets)) in
          let estimated_calories :=
            float_mul (float_of_Z total_duration) (float_of_Q (65 # 10)) in
          logs_7_days ← lift (count_since (naive (now - timedelta_days 7)) logs);
          logs_30_days ← lift (count_since (naive (now - timedelta_days 30)) logs);
          logs_90_days ← lift (count_since (naive (now - timedelta_days 90)) logs);
          let workout_frequency :=
            WorkoutFrequency.mk logs_7_days logs_30_days logs_90_days in
          exercise_progress ←
            query (fun st => progress_entries sum st (exercise_sets_map sets));
          mret (ProgressSummary.mk user_id total_workouts unique_exercises
                  total_sets total_reps total_duration
                  (float_round 2 estimated_calories) workout_frequency
                  (sort_desc ExerciseProgressEntry.total_sets exercise_progress))
      end
  end.

(** The joined query of [get_exercise_progress]: each set of the exercise in
    the given logs with its log, oldest log first. The sets of one log come
    in table order here; the query leaves their order to the server. *)
Definition sets_with_logs (log_ids : list UUID) (exercise_id : Z) (st : Store)
    : list (ExerciseSet.t * WorkoutLog.t) :=
  sort_asc (fun r => WorkoutLog.performed_at r.2)
    (filter (fun r => ExerciseSet.workout_log_id r.1 ∈ (Some <$> log_ids)
                      ∧ ExerciseSet.exercise_id r.1 = Some exercise_id)
       (s ← exercise_sets st;
        l ← filter (fun l => ExerciseSet.workout_log_id s = Some (WorkoutLog.id l))
                   (workout_logs st);
        [(s, l)])).

Definition progression_point (r : ExerciseSet.t * WorkoutLog.t) : ProgressionPoint.t :=
  let '(ex_set, log) := r in
  ProgressionPoint.mk (WorkoutLog.performed_at log)
    (or_zero (ExerciseSet.reps ex_set))
    (if truthy_decimal (ExerciseSet.weight_kg ex_set)
     then default 0%Q (ExerciseSet.weight_kg ex_set) else 0%Q)
    (if truthy_decimal (ExerciseSet.rpe ex_set) then ExerciseSet.rpe ex_set else None)
    (ExerciseSet.set_number ex_set).

Definition get_exercise_progress (sum : FloatSum) (user_id : UUID)
    (exercise_id : Z) (days : Z) (end_date : datetime)
    : Handler ExerciseProgress.t :=
  user ← query (find_user user_id);
  match user with
  | None => raise NotFound
  | Some _ =>
  exercise ← query (find_exercise exercise_id);
  match exercise with
  | None => raise NotFound
  | Some exercise =>
      let empty :=
        ExerciseProgress.mk exercise_id (Exercise.name exercise)
          0 0 float_zero float_zero [] in
      let start_date := end_date - timedelta_days days in
      workout_ids ← query (workout_ids_of user_id);
      match workout_ids with
      | [] => mret empty
      | _ =>
      logs ← query (logs_in_window workout_ids start_date);
      let log_ids := WorkoutLog.id <$> logs in
      match log_ids with
      | [] => mret empty
      | _ =>
      sets ← query (sets_with_logs log_ids exercise_id);
      match sets with
      | [] => mret empty
      | _ =>
          let weights := weights_of (fst <$> sets) in
          let total_sets := len sets in
          let total_reps := total_reps_of (fst <$> sets) in
          let max_weight := max_weight weights in
          let avg_weight := avg_weight sum weights in
          let progression := progression_point <$> sets in
          mret (ExerciseProgress.mk exercise_id (Exercise.name exercise)
                  total_sets total_reps
                  (float_round 2 max_weight) (float_round 2 avg_weight)
                  progression)
      end end end
  end end.

(** ** api/routes/logs.py and api/routes/exercises.py: the other handlers *)

Definition with_workout_log (st : Store) (l : WorkoutLog.t) : Store :=
  mkStore (users st) (equipment st) (exercises st) (workouts st)
          (workout_exercises st) (workout_logs st ++ [l]) (exercise_sets st).

(** [db.add(WorkoutLog(...))]; the row carries the key and the
    [performed_at] the server fills in. *)
Definition db_add_workout_log (l : WorkoutLog.t) : Handler unit :=
  fun s =>
    if int4 (WorkoutLog.duration_minutes l)
    then (mkSession (committed s) (with_workout_log (working s) l), Return tt)
    else (s, Raise DataError).

(** An entry of [WorkoutLogDetailResponse.exercise_sets] (a dict). *)
Module LoggedSet.
Record t := mk {
  set_id : Z;
  exercise_id : option Z;
  exercise_name : string;
  set_number : option Z;
  reps : option Z;
  weight_kg : Q;
  rpe : option Q
}.
End LoggedSet.

Module WorkoutLogDetailResponse.
Record t := mk {
  log_id : UUID;
  workout_id : option UUID;
  performed_at : datetime;
  duration_minutes : Z;
  exercise_sets : list LoggedSet.t
}.
End WorkoutLogDetailResponse.

(** [WorkoutLogRequest]: [duration_minutes] is declared with [ge=1], which
    FastAPI checks before it enters the handler. [new_log_id] and [now] are
    the key and the time the server gives the new row. *)
Definition log_workout (workout_id : UUID) (duration_minutes : Z)
    (new_log_id : UUID) (now : datetime) : Handler WorkoutLogDetailResponse.t :=
  if duration_minutes <? 1 then raise RequestValidationError else
  workout ← query (find_workout workout_id);
  match workout with
  | None => raise NotFound
  | Some _ =>
      if duration_minutes <? 1 then raise InvalidArgument else
      let workout_log :=
        WorkoutLog.mk new_log_id (Some workout_id) now duration_minutes in
      db_add_workout_log workout_log;;
      db_commit;;
      mret (WorkoutLogDetailResponse.mk (WorkoutLog.id workout_log)
              (WorkoutLog.workout_id workout_log)
              (WorkoutLog.performed_at workout_log)
              (WorkoutLog.duration_minutes workout_log) [])
  end.

(** The joined query of [get_workout_logs]: the sets of one log, each with
    its exercise. The rows come in table order here; the query has no
    [ORDER BY] and leaves their order to the server. *)
Definition sets_of_log (log_id : UUID) (st : Store)
    : list (ExerciseSet.t * Exercise.t) :=
  filter (fun r => ExerciseSet.workout_log_id r.1 = Some log_id)
    (s ← exercise_sets st;
     e ← filter (fun e => ExerciseSet.exercise_id s = Some (Exercise.id e))
                (exercises st);
     [(s, e)]).

Definition logged_set (r : ExerciseSet.t * Exercise.t) : LoggedSet.t :=
  let '(ex_set, exercise) := r in
  LoggedSet.mk (ExerciseSet.id ex_set) (ExerciseSet.exercise_id ex_set)
    (Exercise.name exercise) (ExerciseSet.set_number ex_set)
    (ExerciseSet.reps ex_set)
    (if truthy_decimal (ExerciseSet.weight_kg ex_set)
     then default 0%Q (ExerciseSet.weight_kg ex_set) else 0%Q)
    (if truthy_decimal (ExerciseSet.rpe ex_set) then ExerciseSet.rpe ex_set else None).

(** The body of the loop over [logs]. *)
Definition log_detail (log : WorkoutLog.t) : Handler WorkoutLogDetailResponse.t :=
  sets ← query (sets_of_log (WorkoutLog.id log));
  mret (WorkoutLogDetailResponse.mk (WorkoutLog.id log)
          (WorkoutLog.workout_id log) (WorkoutLog.performed_at log)
          (WorkoutLog.duration_minutes log) (logged_set <$> sets)).

Definition get_workout_logs (workout_id : UUID)
    : Handler (list WorkoutLogDetailResponse.t) :=
  workout ← query (find_workout workout_id);
  match workout with
  | None => raise NotFound
  | Some _ =>
      logs ← query (logs_of_workout workout_id);
      for_each log_detail logs
  end.

Definition get_exercise_by_id (exercise_id : Z) : Handler Exercise.t :=
  exercise ← query (find_exercise exercise_id);
  match exercise with
  | None => raise NotFound
  | Some exercise => mret exercise
  end.

(** ** Vocabulary of the statements *)

(** What the selection loops of [generate_workout] maintain: the selected
    exercises are rows of the catalog with pairwise different keys. *)
Definition distinct_rows (exercises selected : list Exercise.t) : Prop :=
  NoDup (Exercise.id <$> selected) ∧ ∀ ex, ex ∈ selected → ex ∈ exercises.

(** The five ways [generate_workout] can end, with the session each one
    leaves behind. *)
Inductive generate_outcome (request : WorkoutGenerateRequest.t) (g : Rng)
    (new_workout_id : UUID) (s : Session)
    : Session * Outcome WorkoutGenerateResponse.t → Prop :=
  | generate_no_user :
      find_user (WorkoutGenerateRequest.user_id request) (working s) = None →
      generate_outcome request g new_workout_id s (s, Raise NotFound)
  | generate_bad_goal u :
      find_user (WorkoutGenerateRequest.user_id request) (working s) = Some u →
      lower (WorkoutGenerateRequest.goal request) ∉ valid_goals →
      generate_outcome request g new_workout_id s (s, Raise InvalidArgument)
  | generate_no_exercises u :
      find_user (WorkoutGenerateRequest.user_id request) (working s) = Some u →
      lower (WorkoutGenerateRequest.goal request) ∈ valid_goals →
      exercise_query (WorkoutGenerateRequest.equipment request) (working s) = [] →
      generate_outcome request g new_workout_id s (s, Raise InvalidArgument)
  | generate_selection_raises u e :
      find_user (WorkoutGenerateRequest.user_id request) (working s) = Some u →
      lower (WorkoutGenerateRequest.goal request) ∈ valid_goals →
      exercise_query (WorkoutGenerateRequest.equipment request) (working s) ≠ [] →
      select_exercises
        (exercise_query (WorkoutGenerateRequest.equipment request) (working s))
        (WorkoutGenerateRequest.duration_minutes request) g = Raise e →
      generate_outcome request g new_workout_id s (s, Raise e)
  | generate_created u selected rows ts tr rs :
      find_user (WorkoutGenerateRequest.user_id request) (working s) = Some u →
      lower (WorkoutGenerateRequest.goal request) ∈ valid_goals →
      exercise_query (WorkoutGenerateRequest.equipment request) (working s) ≠ [] →
      select_exercises
        (exercise_query (WorkoutGenerateRequest.equipment request) (working s))
        (WorkoutGenerateRequest.duration_minutes request) g = Return selected →
      prescription (lower (WorkoutGenerateRequest.goal request)) = (ts, tr, rs) →
      length rows = length selected →
      let goal := lower (WorkoutGenerateRequest.goal request) in
      let st' :=
        with_workout_exercises
          (with_workout (working s)
             (Workout.mk new_workout_id
                (Some (WorkoutGenerateRequest.user_id request)) (Some goal)))
          rows in
      generate_outcome request g new_workout_id s
        (mkSession st' st',
         Return (WorkoutGenerateResponse.mk new_workout_id goal
                   (exercise_detail ts tr rs <$> selected)
                   (Z.of_nat (length selected) * ts * (tr * 3 + rs) / 60))).

(** The loop of [create_custom_workout] can fail, but whatever it does it
    only touches the pending workout-exercise rows. *)
Definition same_but_workout_exercises (s0 s : Session) : Prop :=
  committed s = committed s0
  ∧ ∃ rows, working s = with_workout_exercises (working s0) rows.

(** The ids a custom request asks for, duplicates included, and the rows
    its [IN] query resolves. *)
Definition requested_ids (request : CustomWorkoutRequest.t) : list (option Z) :=
  (fun ex => dict_get (ExerciseSpec.exercise_id ex))
    <$> CustomWorkoutRequest.exercises request.

Definition resolved (exercise_ids : list (option Z)) (st : Store)
    : list Exercise.t :=
  filter (fun ex => Some (Exercise.id ex) ∈ exercise_ids) (exercises st).

(** The row [log_exercise_sets] writes for the item at one-based position
    [idx] of the batch: [weight_kg] and [rpe] as their columns store them. *)
Definition logged_row (workout_log : WorkoutLog.t) (exercise_id : Z)
    (idx : Z) (set_data : ExerciseSetCreate.t) (row : ExerciseSet.t) : Prop :=
  ExerciseSet.workout_log_id row = Some (WorkoutLog.id workout_log)
  ∧ ExerciseSet.exercise_id row = Some exercise_id
  ∧ ExerciseSet.set_number row = Some idx
  ∧ ExerciseSet.reps row = ExerciseSetCreate.reps set_data
  ∧ ExerciseSet.weight_kg row
    = Some (quantize 2 (default 0%Q (ExerciseSetCreate.weight_kg set_data)))
  ∧ ExerciseSet.rpe row = quantize 1 <$> ExerciseSetCreate.rpe set_data.

(** The item at one-based position [idx] of a batch fits the columns of
    [ExerciseSet]. *)
Definition fits_exercise_set (idx : Z) (set_data : ExerciseSetCreate.t) : bool :=
  int4 idx && fits_integer (ExerciseSetCreate.reps set_data)
  && fits_numeric 10 2 (default 0%Q (ExerciseSetCreate.weight_kg set_data))
  && default true (fits_numeric 4 1 <$> ExerciseSetCreate.rpe set_data).

Definition batch_fits (sets : list ExerciseSetCreate.t) : Prop :=
  Forall (fun item => fits_exercise_set item.1 item.2) (enumerate 1 sets).

(** A decimal with [scale] decimals that is as close to [q] as such a
    decimal can be. *)
Definition nearest_decimal (scale : positive) (q v : Q) : Prop :=
  (∃ n : Z, v = n # 10 ^ scale) ∧ (Qabs (v - q) <= 1 # (2 * 10 ^ scale))%Q.

(** Two request items that agree on what was performed; their
    [workout_log_id], [exercise_id] and [set_number] fields are free. *)
Definition same_payload (a b : ExerciseSetCreate.t) : Prop :=
  ExerciseSetCreate.reps a = ExerciseSetCreate.reps b
  ∧ ExerciseSetCreate.weight_kg a = ExerciseSetCreate.weight_kg b
  ∧ ExerciseSetCreate.rpe a = ExerciseSetCreate.rpe b.

(** A set counts towards the weight statistics when its weight is neither
    null nor zero. *)
Definition counted (s : ExerciseSet.t) : Prop :=
  match ExerciseSet.weight_kg s with
  | Some w => ¬ (w == 0)%Q
  | None => False
  end.

#[global] Instance counted_dec s : Decision (counted s).
Proof.
  unfold counted. destruct (ExerciseSet.weight_kg s) as [w|].
  - destruct (Qeq_dec w 0); [right; tauto|by left].
  - right. tauto.
Defined.

Definition counted_weights (group : list ExerciseSet.t) : list Q :=
  (fun s => default 0%Q (ExerciseSet.weight_kg s)) <$> filter counted group.

(** A largest one of the weights (none of them is above it), [0.0] when
    there is none. *)
Definition is_maximum (m : float) (ws : list float) : Prop :=
  match ws with
  | [] => m = float_zero
  | _ => m ∈ ws ∧ ∀ w, w ∈ ws → SFltb m w = false
  end.

(** The arithmetic mean of the weights, [0] when there is none. *)
Definition is_mean (a : Q) (ws : list Q) : Prop :=
  match ws with
  | [] => a = 0%Q
  | _ => (a * inject_Z (len ws) == foldr Qplus 0 ws)%Q
  end.

(** The reps of a group, a null entry counting as [0]. *)
Definition reps_total (group : list ExerciseSet.t) : Z :=
  sum_Z ((fun s => default 0 (ExerciseSet.reps s)) <$> group).

(** ** Vocabulary of the further properties *)

(** The [WorkoutExercise] row stored for an entry of the response. *)
Definition prescribed_row (workout_id : UUID) (d : ExerciseDetail.t)
    (row : WorkoutExercise.t) : Prop :=
  WorkoutExercise.workout_id row = Some workout_id
  ∧ WorkoutExercise.exercise_id row = Some (ExerciseDetail.exercise_id d)
  ∧ WorkoutExercise.target_sets row = ExerciseDetail.target_sets d
  ∧ WorkoutExercise.target_reps row = ExerciseDetail.target_reps d
  ∧ WorkoutExercise.rest_seconds row = ExerciseDetail.rest_seconds d.

(** The integer a key of a request item stands for when the key is absent
    (the default) or holds an integer. *)
Definition field_or (field : option (option Z)) (d : Z) : Z :=
  match field with
  | Some (Some v) => v
  | _ => d
  end.

(** The detail [create_custom_workout] answers for a request item. *)
Definition requested_detail (st : Store) (spec : ExerciseSpec.t)
    (d : ExerciseDetail.t) : Prop :=
  ∃ ex, ex ∈ exercises st
    ∧ ExerciseSpec.exercise_id spec = Some (Some (Exercise.id ex))
    ∧ d = ExerciseDetail.mk (Exercise.id ex) (Exercise.name ex)
            (Exercise.primary_muscle ex)
            (dict_get_default (ExerciseSpec.target_sets spec) 3)
            (dict_get_default (ExerciseSpec.target_reps spec) 10)
            (dict_get_default (ExerciseSpec.rest_seconds spec) 90).

(** No prescription key of the item holds [null]. *)
Definition prescription_given (spec : ExerciseSpec.t) : Prop :=
  ExerciseSpec.target_sets spec ≠ Some None
  ∧ ExerciseSpec.target_reps spec ≠ Some None
  ∧ ExerciseSpec.rest_seconds spec ≠ Some None.

#[global] Instance prescription_given_dec spec : Decision (prescription_given spec).
Proof. unfold prescription_given. apply _. Defined.

(** The prescription of the item, defaults included, fits the 32-bit
    [Integer] columns. *)
Definition storable (spec : ExerciseSpec.t) : Prop :=
  fits_integer (dict_get_default (ExerciseSpec.target_sets spec) 3)
  && fits_integer (dict_get_default (ExerciseSpec.target_reps spec) 10)
  && fits_integer (dict_get_default (ExerciseSpec.rest_seconds spec) 90).

#[global] Instance storable_dec spec : Decision (storable spec).
Proof. unfold storable. apply _. Defined.

(** The [WorkoutExercise] row stored for an entry of a custom workout's
    response: a null [rest_seconds] is stored as the column default. *)
Definition custom_row (workout_id : UUID) (d : ExerciseDetail.t)
    (row : WorkoutExercise.t) : Prop :=
  WorkoutExercise.workout_id row = Some workout_id
  ∧ WorkoutExercise.exercise_id row = Some (ExerciseDetail.exercise_id d)
  ∧ WorkoutExercise.target_sets row = ExerciseDetail.target_sets d
  ∧ WorkoutExercise.target_reps row = ExerciseDetail.target_reps d
  ∧ WorkoutExercise.rest_seconds row
    = Some (default 90 (ExerciseDetail.rest_seconds d)).

(** The summary of a user without logs in the window. *)
Definition empty_summary (user_id : UUID) : ProgressSummary.t :=
  ProgressSummary.mk user_id 0 0 0 0 0 float_zero (WorkoutFrequency.mk 0 0 0) [].

(** The entry of [get_workout_logs] for a log, read from a store. *)
Definition log_entry (st : Store) (log : WorkoutLog.t) : WorkoutLogDetailResponse.t :=
  WorkoutLogDetailResponse.mk (WorkoutLog.id log) (WorkoutLog.workout_id log)
    (WorkoutLog.performed_at log) (WorkoutLog.duration_minutes log)
    (logged_set <$> sets_of_log (WorkoutLog.id log) st).

(** A set whose exercise is in the catalog: the rows an inner join with
    [Exercise] keeps. *)
Definition joined (st : Store) (s : ExerciseSet.t) : Prop :=
  ExerciseSet.exercise_id s ∈ (Some <$> (Exercise.id <$> exercises st)).

#[global] Instance joined_dec st s : Decision (joined st s).
Proof. unfold joined. apply _. Defined.

(** ** A gym in miniature

    One user with one workout that was performed twice, 40 and 10 days before
    day 100, and whose bench-press sets of the later session were logged. *)

Definition day : Z := 86400000000.

Definition gym : Store :=
  mkStore
    [User.mk 1 "ada@example.org" (Some "Ada")]
    [Equipment.mk 1 "Barbell"; Equipment.mk 2 "Dumbbell"]
    [Exercise.mk 1 "Bench Press" (Some "chest") (Some "arms") (Some 1) (Some 6%Q);
     Exercise.mk 2 "Push Up" (Some "chest") None None (Some 5%Q);
     Exercise.mk 3 "Back Squat" (Some "legs") None (Some 1) (Some 8%Q);
     Exercise.mk 4 "Dumbbell Row" (Some "back") None (Some 2) (Some 5%Q);
     Exercise.mk 5 "Plank" None None None (Some 4%Q);
     Exercise.mk 6 "Biceps Curl" (Some "arms") None (Some 2) (Some 4%Q);
     Exercise.mk 7 "Overhead Press" (Some "shoulders") None (Some 1) (Some 6%Q);
     Exercise.mk 8 "Burpee" (Some "") None None (Some 9%Q)]
    [Workout.mk 10 (Some 1) (Some "general")]
    [WorkoutExercise.mk 1 (Some 10) (Some 1) (Some 3) (Some 10) (Some 90);
     WorkoutExercise.mk 2 (Some 10) (Some 5) (Some 3) (Some 10) (Some 90)]
    [WorkoutLog.mk 21 (Some 10) (60 * day) 45;
     WorkoutLog.mk 20 (Some 10) (90 * day) 30]
    [ExerciseSet.mk 1 (Some 20) (Some 1) (Some 1) (Some 5) (Some 10%Q) None;
     ExerciseSet.mk 2 (Some 20) (Some 1) (Some 2) None (Some 10%Q) (Some 8%Q);
     ExerciseSet.mk 3 (Some 20) (Some 1) (Some 3) (Some 5) (Some 11%Q) None;
     ExerciseSet.mk 4 (Some 20) (Some 1) (Some 4) (Some 5) (Some 0%Q) None;
     ExerciseSet.mk 5 (Some 20) (Some 5) (Some 1) (Some 1) None None].

Definition today : datetime := 100 * day.

Definition generate_request (user_id : UUID) (goal : string)
    (duration_minutes : option Z) : WorkoutGenerateRequest.t :=
  WorkoutGenerateRequest.mk user_id goal (Some ["Barbell"%string]) duration_minutes.

Definition draws : Rng := [5; 3; 2; 7; 1; 0; 4; 6]%nat.

Definition custom_item (exercise_id : Z) : ExerciseSpec.t :=
  ExerciseSpec.mk (Some (Some exercise_id)) None (Some (Some 12)) None.

Definition custom_request (goal : string) (exercise_ids : list Z)
    : CustomWorkoutRequest.t :=
  CustomWorkoutRequest.mk 1 goal (custom_item <$> exercise_ids).

(** A custom request that names the bench press twice. *)
Definition repeated_request : CustomWorkoutRequest.t :=
  custom_request "general" [1; 3; 1].

(** Two performed sets whose items also carry the three fields the schema
    allows but the handler does not read. *)
Definition performed (reps : Z) (weight_kg : Q) : ExerciseSetCreate.t :=
  ExerciseSetCreate.mk (Some 999) (Some 999) (Some 999)
    (Some reps) (Some weight_kg) None.

Definition batch : list ExerciseSetCreate.t := [performed 5 20; performed 5 22].

(** A custom request whose first item sends [target_sets: null]. *)
Definition null_request : CustomWorkoutRequest.t :=
  CustomWorkoutRequest.mk 1 "general"
    [ExerciseSpec.mk (Some (Some 1)) (Some None) None None; custom_item 3].

(** The rows the gym stores for [batch] under its most recent log. *)
Definition logged_batch : list ExerciseSet.t :=
  [ExerciseSet.mk 6 (Some 20) (Some 1) (Some 1) (Some 5) (Some (2000 # 100)) None;
   ExerciseSet.mk 7 (Some 20) (Some 1) (Some 2) (Some 5) (Some (2200 # 100)) None].

(** A set of 20.555 kg at an exertion of 8.25, and a set without weight. *)
Definition precise_batch : list ExerciseSetCreate.t :=
  [ExerciseSetCreate.mk None None None (Some 5) (Some (20555 # 1000)) (Some (825 # 100));
   ExerciseSetCreate.mk None None None (Some 5) None None].

(** A custom request whose first item asks for more sets than the column
    holds. *)
Definition oversized_request : CustomWorkoutRequest.t :=
  CustomWorkoutRequest.mk 1 "general"
    [ExerciseSpec.mk (Some (Some 1)) (Some (Some 2147483648)) None None;
     custom_item 3].

(** Case analysis on the comparisons of signs, exponents and mantissas. *)
Ltac compare_cases :=
  repeat match goal with
  | |- context [(?a ?= ?b)%Z] => destruct (Z.compare_spec a b); simpl
  | H : context [(?a ?= ?b)%Z] |- _ => destruct (Z.compare_spec a b); simpl in H
  | |- context [Pos.compare_cont _ ?a ?b] =>
      rewrite (Pos.compare_cont_spec a b); simpl
  | H : context [Pos.compare_cont _ ?a ?b] |- _ =>
      rewrite (Pos.compare_cont_spec a b) in H; simpl in H
  | |- context [(?a ?= ?b)%positive] => destruct (Pos.compare_spec a b); simpl
  | H : context [(?a ?= ?b)%positive] |- _ => destruct (Pos.compare_spec a b); simpl in H
  end.

(** * Properties *)

(** ** Sampling *)

Lemma randbelow_lt n g : (0 < n)%nat → ((randbelow n g).1 < n)%nat.
Proof.
  intros Hn. destruct g as [|r g]; simpl; [done|].
  apply Nat.mod_upper_bound. lia.
Qed.

Lemma draw_length {A} k (pool : list A) g :
  (k ≤ length pool)%nat → length (draw k pool g).1 = k.
Proof.
  revert pool g. induction k as [|k IH]; intros pool g Hk; simpl; [done|].
  destruct (randbelow (length pool) g) as [j g'] eqn:Hj.
  assert (j < length pool)%nat as Hlt.
  { pose proof (randbelow_lt (length pool) g ltac:(lia)) as H. by rewrite Hj in H. }
  destruct (lookup_lt_is_Some_2 pool j Hlt) as [x Hx]. rewrite Hx.
  specialize (IH (delete j pool) g').
  destruct (draw k (delete j pool) g') as [xs g''] eqn:Hd. simpl in *.
  rewrite IH; [done|]. rewrite length_delete; [lia|eauto].
Qed.

Lemma draw_submseteq {A} k (pool : list A) g : (draw k pool g).1 ⊆+ pool.
Proof.
  revert pool g. induction k as [|k IH]; intros pool g; simpl.
  - apply submseteq_nil_l.
  - destruct (randbelow (length pool) g) as [j g'].
    destruct (pool !! j) as [x|] eqn:Hx; simpl; [|apply submseteq_nil_l].
    specialize (IH (delete j pool) g').
    destruct (draw k (delete j pool) g') as [xs g'']. simpl in *.
    rewrite (delete_Permutation pool j x Hx). by apply submseteq_skip.
Qed.

Lemma random_sample_ok {A} (population : list A) k g :
  0 <= k <= Z.of_nat (length population) →
  ∃ xs g', random_sample population k g = Return (xs, g')
           ∧ xs ⊆+ population ∧ Z.of_nat (length xs) = k.
Proof.
  intros Hk. unfold random_sample.
  replace ((k <? 0) || (Z.of_nat (length population) <? k)) with false
    by (symmetry; apply orb_false_iff; split; apply Z.ltb_ge; lia).
  destruct (draw (Z.to_nat k) population g) as [xs g'] eqn:Hd.
  exists xs, g'. split; [done|]. split.
  - pose proof (draw_submseteq (Z.to_nat k) population g) as H. by rewrite Hd in H.
  - pose proof (draw_length (Z.to_nat k) population g ltac:(lia)) as H.
    rewrite Hd in H. simpl in H. lia.
Qed.

(** ** Grouping by muscle *)

Lemma group_by_muscle_lookup exercises m :
  group_by_muscle exercises !! m =
    match filter (fun ex => muscle_of ex = m) exercises with
    | [] => None
    | bucket => Some bucket
    end.
Proof.
  unfold group_by_muscle.
  induction exercises as [|ex exercises IH] using rev_ind; [done|].
  rewrite foldl_app, filter_app. simpl.
  destruct (decide (muscle_of ex = m)) as [Heq|Hne].
  - rewrite Heq, lookup_insert_eq, IH.
    rewrite filter_cons_True, filter_nil by done.
    by destruct (filter _ exercises).
  - rewrite lookup_insert_ne, IH by done.
    rewrite filter_cons_False, filter_nil, app_nil_r by done. done.
Qed.

Lemma group_by_muscle_bucket exercises m bucket :
  group_by_muscle exercises !! m = Some bucket →
  bucket ⊆+ exercises ∧ ∀ ex, ex ∈ bucket → muscle_of ex = m.
Proof.
  rewrite group_by_muscle_lookup. intros H.
  assert (bucket = filter (fun ex => muscle_of ex = m) exercises) as ->.
  { destruct (filter _ exercises); congruence. }
  split.
  - apply sublist_submseteq, sublist_filter.
  - intros ex Hex. by apply list_elem_of_filter in Hex as [? _].
Qed.

(** ** Rows are determined by their key *)

Lemma NoDup_fmap_eq {A B} (f : A → B) (l : list A) x y :
  NoDup (f <$> l) → x ∈ l → y ∈ l → f x = f y → x = y.
Proof.
  induction l as [|a l IH]; intros Hnd Hx Hy Hf; [by apply elem_of_nil in Hx|].
  rewrite fmap_cons in Hnd. apply NoDup_cons in Hnd as [Hna Hnd].
  apply elem_of_cons in Hx as [->|Hx]; apply elem_of_cons in Hy as [->|Hy];
    [done| | |by apply IH].
  - exfalso. apply Hna. rewrite Hf. by apply list_elem_of_fmap_2.
  - exfalso. apply Hna. rewrite <- Hf. by apply list_elem_of_fmap_2.
Qed.

Lemma submseteq_NoDup {A} (l k : list A) : l ⊆+ k → NoDup k → NoDup l.
Proof.
  intros Hsub Hk. apply submseteq_Permutation in Hsub as [k' Hp].
  rewrite Hp in Hk. by apply NoDup_app in Hk as [? _].
Qed.

Lemma major_groups_NoDup : NoDup major_groups.
Proof. by apply (bool_decide_unpack _). Qed.

(** The loop over the major groups asks for at most a bucket's size, so no
    sampling in it can fail. *)
Lemma select_major_returns muscle_groups epg groups selected g :
  0 <= epg →
  ∃ selected' g',
    select_major muscle_groups epg groups selected g = Return (selected', g').
Proof.
  intros Hepg. revert selected g.
  induction groups as [|muscle groups IH]; intros selected g; simpl.
  { by eexists _, _. }
  destruct (muscle_groups !! muscle) as [bucket|]; [|apply IH].
  destruct (random_sample_ok bucket
              (Z.min epg (Z.of_nat (length bucket))) g ltac:(lia))
    as (xs & g' & -> & _).
  apply IH.
Qed.

Lemma select_exercises_no_duration exercises g :
  select_exercises exercises None g = Raise TypeError.
Proof.
  unfold select_exercises.
  set (epg := if 5 <? _ then 1 else 2).
  destruct (select_major_returns (group_by_muscle exercises) epg major_groups [] g)
    as (sel & g' & ->); [|done].
  unfold epg. by destruct (5 <? _).
Qed.

(** The selection over a catalog whose rows have pairwise different keys. *)
Section selection.
Variable exercises : list Exercise.t.
Hypothesis exercises_keys : NoDup (Exercise.id <$> exercises).

Lemma distinct_rows_app selected extra :
  distinct_rows exercises selected → extra ⊆+ exercises →
  (∀ a b, a ∈ selected → b ∈ extra → Exercise.id a ≠ Exercise.id b) →
  distinct_rows exercises (selected ++ extra).
Proof.
  intros [Hnd Hin] Hsub Hdisj. split.
  - rewrite fmap_app. apply NoDup_app. split_and!; [done| |].
    + intros i Hi Hi'.
      apply list_elem_of_fmap in Hi as (a & -> & Ha).
      apply list_elem_of_fmap in Hi' as (b & Hab & Hb).
      by eapply Hdisj.
    + eapply submseteq_NoDup; [|exact exercises_keys]. by apply fmap_submseteq.
  - intros ex Hex. apply elem_of_app in Hex as [Hex|Hex]; [by apply Hin|].
    by eapply elem_of_submseteq.
Qed.

Lemma select_major_ok epg groups selected g :
  0 <= epg → NoDup groups →
  distinct_rows exercises selected →
  (∀ ex, ex ∈ selected → muscle_of ex ∉ groups) →
  ∃ selected' g',
    select_major (group_by_muscle exercises) epg groups selected g
      = Return (selected', g')
    ∧ distinct_rows exercises selected'.
Proof.
  intros Hepg. revert selected g.
  induction groups as [|muscle groups IH]; intros selected g Hgs Hsel Hmus; simpl.
  { by eexists _, _. }
  apply NoDup_cons in Hgs as [Hmg Hgs].
  destruct (group_by_muscle exercises !! muscle) as [bucket|] eqn:Hb.
  - apply group_by_muscle_bucket in Hb as [Hsub Hbm].
    destruct (random_sample_ok bucket
                (Z.min epg (Z.of_nat (length bucket))) g ltac:(lia))
      as (xs & g' & -> & Hxs & _).
    simpl. apply IH; [done| |].
    + apply distinct_rows_app; [done|by etrans|].
      intros a b Ha Hb Hid.
      assert (a = b) as ->.
      { eapply (NoDup_fmap_eq Exercise.id exercises); [done|by apply Hsel| |done].
        eapply elem_of_submseteq; [|exact Hsub]. by eapply elem_of_submseteq. }
      apply (Hmus b Ha). rewrite (Hbm b); [left|by eapply elem_of_submseteq].
    + intros ex Hex Hin. apply elem_of_app in Hex as [Hex|Hex].
      * apply (Hmus ex Hex). by right.
      * apply Hmg. rewrite <- (Hbm ex); [done|by eapply elem_of_submseteq].
  - apply IH; [done|done|]. intros ex Hex Hin. apply (Hmus ex Hex). by right.
Qed.

Lemma top_up_ok selected target g :
  distinct_rows exercises selected →
  ∃ selected' g',
    top_up exercises selected target g = Return (selected', g')
    ∧ distinct_rows exercises selected'
    ∧ (exercises ≠ [] → 0 < target → selected' ≠ []).
Proof.
  intros Hsel. unfold top_up.
  destruct (Z.of_nat (length selected) <? target) eqn:Hlt.
  2: { eexists _, _. split_and!; [done|done|].
       intros _ Ht ->. apply Z.ltb_ge in Hlt. simpl in Hlt. lia. }
  apply Z.ltb_lt in Hlt.
  set (remaining := filter _ exercises).
  destruct remaining as [|r0 remaining'] eqn:Hrem.
  { eexists _, _. split_and!; [done|done|].
    intros Hne _ ->. destruct exercises as [|e es]; [done|].
    assert (e ∈ remaining) as He.
    { apply list_elem_of_filter. split; [simpl; apply not_elem_of_nil|left]. }
    rewrite Hrem in He. by apply elem_of_nil in He. }
  rewrite <- Hrem.
  destruct (random_sample_ok remaining
              (Z.min (target - Z.of_nat (length selected))
                     (Z.of_nat (length remaining))) g ltac:(lia))
    as (xs & g' & -> & Hxs & Hlen).
  simpl. eexists _, _. split_and!; [done| |].
  - apply distinct_rows_app; [done| |].
    + etrans; [exact Hxs|]. apply sublist_submseteq, sublist_filter.
    + intros a b Ha Hb Hid.
      assert (b ∈ remaining) as Hbr by (by eapply elem_of_submseteq).
      apply list_elem_of_filter in Hbr as [Hbr _]. apply Hbr.
      rewrite <- Hid. by apply list_elem_of_fmap_2.
  - intros _ _ Hnil. apply app_eq_nil in Hnil as [_ ->].
    rewrite Hrem in Hlen. simpl in Hlen. lia.
Qed.

Lemma select_exercises_ok d g :
  ∃ selected,
    select_exercises exercises (Some d) g = Return selected
    ∧ NoDup (Exercise.id <$> selected)
    ∧ (exercises ≠ [] → selected ≠ []).
Proof.
  unfold select_exercises.
  set (epg := if 5 <? _ then 1 else 2).
  destruct (select_major_ok epg major_groups [] g) as (sel & g' & -> & Hsel).
  - unfold epg. by destruct (5 <? _).
  - apply major_groups_NoDup.
  - split; [apply NoDup_nil_2|]. intros ex Hex. by apply elem_of_nil in Hex.
  - intros ex Hex. by apply elem_of_nil in Hex.
  - simpl.
    destruct (top_up_ok sel (Z.max 5 (d / 10)) g' Hsel) as (sel' & g'' & -> & Hsel' & Hne).
    simpl. exists sel'. split_and!; [done|apply Hsel'|].
    intros Hex. apply Hne; [done|lia].
Qed.

End selection.

(** ** Sessions *)

Lemma with_workout_exercises_nil st : with_workout_exercises st [] = st.
Proof. destruct st. unfold with_workout_exercises. simpl. by rewrite app_nil_r. Qed.

Lemma with_workout_exercises_app st rows rows' :
  with_workout_exercises (with_workout_exercises st rows) rows'
  = with_workout_exercises st (rows ++ rows').
Proof. unfold with_workout_exercises. simpl. by rewrite app_assoc. Qed.

Lemma with_exercise_sets_nil st : with_exercise_sets st [] = st.
Proof. destruct st. unfold with_exercise_sets. simpl. by rewrite app_nil_r. Qed.

Lemma with_exercise_sets_app st rows rows' :
  with_exercise_sets (with_exercise_sets st rows) rows'
  = with_exercise_sets st (rows ++ rows').
Proof. unfold with_exercise_sets. simpl. by rewrite app_assoc. Qed.

Lemma handler_bind_eq {A B} (m : Handler A) (k : A → Handler B) s :
  (m ≫= k) s =
    match m s with
    | (s', Return a) => k a s'
    | (s', Raise e) => (s', Raise e)
    end.
Proof. reflexivity. Qed.

Lemma for_each_cons {A B} (body : A → Handler B) x xs s :
  for_each body (x :: xs) s =
    match body x s with
    | (s1, Return y) =>
        match for_each body xs s1 with
        | (s2, Return ys) => (s2, Return (y :: ys))
        | (s2, Raise e) => (s2, Raise e)
        end
    | (s1, Raise e) => (s1, Raise e)
    end.
Proof.
  simpl. rewrite handler_bind_eq. destruct (body x s) as [s1 [y|e]]; [|done].
  rewrite handler_bind_eq. by destruct (for_each body xs s1) as [s2 [ys|e]].
Qed.

(** A loop leaves alone whatever each run of its body leaves alone. *)
Lemma for_each_preserves {A B} (I : Session → Prop) (body : A → Handler B) xs :
  (∀ x s, I s → I (body x s).1) → ∀ s, I s → I (for_each body xs s).1.
Proof.
  intros Hbody. induction xs as [|x xs IH]; intros s Hs; [done|].
  rewrite for_each_cons. specialize (Hbody x s Hs).
  destruct (body x s) as [s1 [y|e]]; [|done].
  specialize (IH s1 Hbody). by destruct (for_each body xs s1) as [s2 [ys|e]].
Qed.

Lemma prescription_fits goal ts tr rs :
  prescription goal = (ts, tr, rs) →
  int4 ts = true ∧ int4 tr = true ∧ int4 rs = true.
Proof.
  unfold prescription. intros H.
  repeat (destruct (String.eqb goal _); [by inversion H|]).
  by inversion H.
Qed.

Lemma add_selected_eq workout_id ts tr rs exercise s :
  int4 ts = true → int4 tr = true → int4 rs = true →
  add_selected workout_id ts tr rs exercise s
  = (mkSession (committed s)
       (with_workout_exercises (working s)
          [WorkoutExercise.mk
             (next_id (WorkoutExercise.id <$> workout_exercises (working s)))
             (Some workout_id) (Some (Exercise.id exercise))
             (Some ts) (Some tr) (Some rs)]),
     Return (exercise_detail ts tr rs exercise)).
Proof.
  intros Hts Htr Hrs. unfold add_selected.
  rewrite handler_bind_eq. unfold db_add_workout_exercise. cbv zeta.
  cbn [fits_integer default]. by rewrite Hts, Htr, Hrs.
Qed.

(** The loop of [generate_workout] over a prescription that fits its
    columns: it cannot fail, answers one detail per selected exercise, and
    adds one row per selected exercise. *)
Lemma for_each_add_selected_rows workout_id ts tr rs selected s :
  int4 ts = true → int4 tr = true → int4 rs = true →
  ∃ rows,
    for_each (add_selected workout_id ts tr rs) selected s
    = (mkSession (committed s) (with_workout_exercises (working s) rows),
       Return (exercise_detail ts tr rs <$> selected))
    ∧ Forall2 (prescribed_row workout_id)
              (exercise_detail ts tr rs <$> selected) rows.
Proof.
  intros Hts Htr Hrs. revert s. induction selected as [|x xs IH]; intros s.
  - exists []. rewrite with_workout_exercises_nil. split; [by destruct s|constructor].
  - rewrite for_each_cons, add_selected_eq by done.
    set (row := WorkoutExercise.mk _ _ _ _ _ _). set (s1 := mkSession _ _).
    destruct (IH s1) as (rows & -> & Hrows).
    exists (row :: rows). split.
    + unfold s1. simpl. by rewrite with_workout_exercises_app.
    + rewrite fmap_cons. constructor; [by repeat split|done].
Qed.

Lemma for_each_add_selected workout_id ts tr rs selected s :
  int4 ts = true → int4 tr = true → int4 rs = true →
  ∃ rows,
    for_each (add_selected workout_id ts tr rs) selected s
    = (mkSession (committed s) (with_workout_exercises (working s) rows),
       Return (exercise_detail ts tr rs <$> selected))
    ∧ length rows = length selected.
Proof.
  intros Hts Htr Hrs.
  destruct (for_each_add_selected_rows workout_id ts tr rs selected s Hts Htr Hrs)
    as (rows & Hloop & Hrows).
  exists rows. split; [done|].
  apply Forall2_length in Hrows. by rewrite length_fmap in Hrows.
Qed.

Lemma add_logged_set_eq workout_log exercise_id idx set_data s :
  add_logged_set workout_log exercise_id (idx, set_data) s
  = if fits_exercise_set idx set_data
    then
      let row :=
        ExerciseSet.mk (next_id (ExerciseSet.id <$> exercise_sets (working s)))
          (Some (WorkoutLog.id workout_log)) (Some exercise_id) (Some idx)
          (ExerciseSetCreate.reps set_data)
          (Some (quantize 2 (default 0%Q (ExerciseSetCreate.weight_kg set_data))))
          (quantize 1 <$> ExerciseSetCreate.rpe set_data) in
      (mkSession (committed s) (with_exercise_sets (working s) [row]), Return row)
    else (s, Raise DataError).
Proof. reflexivity. Qed.

(** The loop of [log_exercise_sets]: it adds one row per item when every
    item fits the columns, and is refused otherwise, with nothing
    committed. *)
Lemma for_each_add_logged_set workout_log exercise_id start sets s :
  match for_each (add_logged_set workout_log exercise_id) (enumerate start sets) s with
  | (s', Return rows) =>
      s' = mkSession (committed s) (with_exercise_sets (working s) rows)
      ∧ Forall2 (fun item row => logged_row workout_log exercise_id item.1 item.2 row)
                (enumerate start sets) rows
      ∧ Forall (fun item => fits_exercise_set item.1 item.2) (enumerate start sets)
  | (s', Raise e) =>
      e = DataError ∧ committed s' = committed s
      ∧ ¬ Forall (fun item => fits_exercise_set item.1 item.2) (enumerate start sets)
  end.
Proof.
  revert start s. induction sets as [|x xs IH]; intros start s.
  - simpl. rewrite with_exercise_sets_nil. split_and!; [by destruct s|constructor..].
  - simpl enumerate. rewrite for_each_cons, add_logged_set_eq.
    destruct (fits_exercise_set start x) eqn:Hfits.
    2: { split_and!; [done|done|]. intros Hall.
         apply Forall_cons in Hall as [Hx _]. simpl in Hx. by rewrite Hfits in Hx. }
    cbv zeta. set (r := ExerciseSet.mk _ _ _ _ _ _ _). set (s1 := mkSession _ _).
    specialize (IH (start + 1) s1).
    destruct (for_each (add_logged_set workout_log exercise_id)
                (enumerate (start + 1) xs) s1) as [s2 [rows|e]] eqn:Hloop;
      rewrite Hloop.
    + destruct IH as (-> & Hrows & Hall). split_and!.
      * unfold s1. simpl. by rewrite with_exercise_sets_app.
      * constructor; [by repeat split|done].
      * constructor; [simpl; by rewrite Hfits|done].
    + destruct IH as (-> & Hc & Hall). split_and!; [done|done|].
      intros Hall'. apply Forall_cons in Hall' as [_ Hall']. by apply Hall.
Qed.

Lemma enumerate_length {A} start (xs : list A) :
  length (enumerate start xs) = length xs.
Proof. revert start. induction xs; intros; simpl; [done|by f_equal]. Qed.

Lemma enumerate_lookup {A} start (xs : list A) i x :
  xs !! i = Some x → enumerate start xs !! i = Some (start + Z.of_nat i, x).
Proof.
  revert start i. induction xs as [|y xs IH]; intros start i Hi; [done|].
  destruct i as [|i]; simpl in *.
  - inversion Hi. by rewrite Z.add_0_r.
  - rewrite (IH (start + 1) i Hi). do 2 f_equal. lia.
Qed.

(** ** generate_workout, path by path *)

Lemma generate_workout_outcome request g new_workout_id s :
  generate_outcome request g new_workout_id s
    (generate_workout request g new_workout_id s).
Proof.
  unfold generate_workout. rewrite handler_bind_eq. unfold query at 1.
  destruct (find_user _ (working s)) as [u|] eqn:Hu; [|by constructor].
  case_bool_decide as Hgoal; [by econstructor|].
  rewrite handler_bind_eq. unfold query at 1.
  destruct (exercise_query _ (working s)) as [|ex0 exs] eqn:Hq.
  { by econstructor. }
  rewrite <- Hq.
  destruct (prescription _) as [[ts tr] rs] eqn:Hp.
  rewrite handler_bind_eq. unfold lift at 1.
  destruct (select_exercises _ _ g) as [selected|e] eqn:Hsel.
  2: { eapply generate_selection_raises; [done|done| |done]. by rewrite Hq. }
  rewrite handler_bind_eq. unfold db_add_workout, update at 1. cbv beta iota.
  rewrite handler_bind_eq.
  set (s1 := mkSession _ _).
  destruct (prescription_fits _ _ _ _ Hp) as (Hts & Htr & Hrs).
  destruct (for_each_add_selected new_workout_id ts tr rs selected s1 Hts Htr Hrs)
    as (rows & Hloop & Hlen).
  simpl Workout.id. rewrite Hloop. cbv beta iota.
  rewrite handler_bind_eq. unfold db_commit at 1. cbv beta iota.
  unfold mret, handler_ret. simpl.
  eapply (generate_created _ _ _ _ u selected rows ts tr rs); try done.
  by rewrite Hq.
Qed.

Lemma run_eq {A} (h : Handler A) st :
  run h st = (committed (h (mkSession st st)).1, (h (mkSession st st)).2).
Proof. unfold run. by destruct (h (mkSession st st)). Qed.

Lemma exercise_query_sublist equipment st :
  exercise_query equipment st `sublist_of` exercises st.
Proof.
  unfold exercise_query. destruct equipment as [[|n ns]|]; try done.
  apply sublist_filter.
Qed.

Lemma exercise_query_keys equipment st :
  primary_keys st → NoDup (Exercise.id <$> exercise_query equipment st).
Proof.
  intros [Hpk _]. eapply submseteq_NoDup; [|exact Hpk].
  apply fmap_submseteq, sublist_submseteq, exercise_query_sublist.
Qed.

Lemma prescription_nonneg goal ts tr rs :
  prescription goal = (ts, tr, rs) → 0 <= ts ∧ 0 <= tr ∧ 0 <= rs.
Proof.
  unfold prescription. intros H.
  repeat (destruct (String.eqb goal _); [inversion H; lia|]).
  inversion H; lia.
Qed.

Lemma sum_Z_from a xs : foldl Z.add a xs = a + sum_Z xs.
Proof.
  unfold sum_Z. revert a. induction xs as [|x xs IH]; intros a; simpl; [lia|].
  rewrite (IH (a + x)), (IH (0 + x)). lia.
Qed.

Lemma sum_Z_cons x xs : sum_Z (x :: xs) = x + sum_Z xs.
Proof. unfold sum_Z at 1. simpl. by rewrite sum_Z_from. Qed.

Lemma sum_Z_const {A} (c : Z) (xs : list A) :
  sum_Z ((fun _ => c) <$> xs) = Z.of_nat (length xs) * c.
Proof.
  induction xs as [|x xs IH]; [done|].
  rewrite fmap_cons, sum_Z_cons, IH. simpl length. lia.
Qed.

(** C3, as amended. A call of [generate_workout] whose lower-cased goal is
    not one of the five valid goals writes nothing, neither pending nor
    committed, and fails: with InvalidArgument when the user exists, and with
    NotFound when the user does not exist, because the user is looked up
    before the goal is read. *)
Theorem generate_unknown_goal st request g new_workout_id :
  lower (WorkoutGenerateRequest.goal request) ∉ valid_goals →
  let e := match find_user (WorkoutGenerateRequest.user_id request) st with
           | Some _ => InvalidArgument
           | None => NotFound
           end in
  generate_workout request g new_workout_id (mkSession st st)
    = (mkSession st st, Raise e)
  ∧ run (generate_workout request g new_workout_id) st = (st, Raise e).
Proof.
  intros Hgoal e.
  assert (generate_workout request g new_workout_id (mkSession st st)
          = (mkSession st st, Raise e)) as Heq.
  { destruct (generate_workout_outcome request g new_workout_id (mkSession st st))
      as [Hu|u Hu _|u _ Hin|u e' _ Hin|u sel rows ts tr rs _ Hin]; try done;
      simpl in Hu; unfold e; by rewrite Hu. }
  split; [done|]. by rewrite run_eq, Heq.
Qed.

(** C3 as stated fails: with an unknown goal and an unknown user the call
    ends with NotFound, not InvalidArgument. *)
Lemma generate_unknown_goal_counterexample :
  (lower (WorkoutGenerateRequest.goal (generate_request 2 "cardio" (Some 45)))
     ∉ valid_goals)
  ∧ run (generate_workout (generate_request 2 "cardio" (Some 45)) draws 50) gym
    = (gym, Raise NotFound)
  ∧ NotFound ≠ InvalidArgument.
Proof. split_and!; [by apply (bool_decide_unpack _)|by vm_compute|done]. Qed.

(** C3, as amended, at a request of an existing user for the goal "cardio". *)
Lemma generate_unknown_goal_witness :
  (lower (WorkoutGenerateRequest.goal (generate_request 1 "cardio" (Some 45)))
     ∉ valid_goals)
  ∧ generate_workout (generate_request 1 "cardio" (Some 45)) draws 50
      (mkSession gym gym)
    = (mkSession gym gym, Raise InvalidArgument)
  ∧ run (generate_workout (generate_request 1 "cardio" (Some 45)) draws 50) gym
    = (gym, Raise InvalidArgument).
Proof.
  split; [by apply (bool_decide_unpack _)|].
  apply (generate_unknown_goal gym (generate_request 1 "cardio" (Some 45)) draws 50).
  by apply (bool_decide_unpack _).
Defined.

(** C10. With an existing user, a valid goal and a non-empty filtered
    catalog, a request whose [duration_minutes] is null makes
    [generate_workout] end with a [TypeError], which is neither NotFound nor
    InvalidArgument, and the failure comes before any write: the session and
    the store are unchanged. *)
Theorem generate_null_duration st request g new_workout_id :
  is_Some (find_user (WorkoutGenerateRequest.user_id request) st) →
  lower (WorkoutGenerateRequest.goal request) ∈ valid_goals →
  exercise_query (WorkoutGenerateRequest.equipment request) st ≠ [] →
  WorkoutGenerateRequest.duration_minutes request = None →
  generate_workout request g new_workout_id (mkSession st st)
    = (mkSession st st, Raise TypeError)
  ∧ run (generate_workout request g new_workout_id) st = (st, Raise TypeError)
  ∧ TypeError ≠ NotFound ∧ TypeError ≠ InvalidArgument.
Proof.
  intros [u Hu] Hgoal Hq Hd.
  assert (generate_workout request g new_workout_id (mkSession st st)
          = (mkSession st st, Raise TypeError)) as Heq.
  { destruct (generate_workout_outcome request g new_workout_id (mkSession st st))
      as [Hu'|u' _ Hin|u' _ _ Hq'|u' e' _ _ _ Hsel|u' sel rows ts tr rs _ _ _ Hsel];
      simpl in *; try congruence.
    - rewrite Hd, select_exercises_no_duration in Hsel. by inversion Hsel.
    - rewrite Hd, select_exercises_no_duration in Hsel. by inversion Hsel. }
  split_and!; [done|by rewrite run_eq, Heq|done|done].
Qed.

(** C10 at a request of the gym's user with a null duration. *)
Lemma generate_null_duration_witness :
  is_Some (find_user 1 gym)
  ∧ lower "General" ∈ valid_goals
  ∧ exercise_query (Some ["Barbell"%string]) gym ≠ []
  ∧ generate_workout (generate_request 1 "General" None) draws 50 (mkSession gym gym)
    = (mkSession gym gym, Raise TypeError)
  ∧ run (generate_workout (generate_request 1 "General" None) draws 50) gym
    = (gym, Raise TypeError)
  ∧ TypeError ≠ NotFound ∧ TypeError ≠ InvalidArgument.
Proof.
  split; [by eexists|].
  split; [by apply (bool_decide_unpack _)|].
  split; [by vm_compute|].
  apply (generate_null_duration gym (generate_request 1 "General" None) draws 50);
    [by eexists|by apply (bool_decide_unpack _)|by vm_compute|done].
Defined.

Lemma generate_returns st request g new_workout_id st' r :
  run (generate_workout request g new_workout_id) st = (st', Return r) →
  ∃ selected rows ts tr rs,
    lower (WorkoutGenerateRequest.goal request) ∈ valid_goals
    ∧ exercise_query (WorkoutGenerateRequest.equipment request) st ≠ []
    ∧ select_exercises
        (exercise_query (WorkoutGenerateRequest.equipment request) st)
        (WorkoutGenerateRequest.duration_minutes request) g = Return selected
    ∧ prescription (lower (WorkoutGenerateRequest.goal request)) = (ts, tr, rs)
    ∧ length rows = length selected
    ∧ st' = with_workout_exercises
              (with_workout st
                 (Workout.mk new_workout_id
                    (Some (WorkoutGenerateRequest.user_id request))
                    (Some (lower (WorkoutGenerateRequest.goal request))))) rows
    ∧ r = WorkoutGenerateResponse.mk new_workout_id
            (lower (WorkoutGenerateRequest.goal request))
            (exercise_detail ts tr rs <$> selected)
            (Z.of_nat (length selected) * ts * (tr * 3 + rs) / 60).
Proof.
  rewrite run_eq. intros Hrun.
  destruct (generate_workout_outcome request g new_workout_id (mkSession st st))
    as [Hu|u Hu _|u _ Hin|u e' _ Hin|u sel rows ts tr rs _ Hin Hq Hsel Hp Hlen];
    simpl in Hrun; try (inversion Hrun; fail).
  inversion Hrun; subst. exists sel, rows, ts, tr, rs. by split_and!.
Qed.

(** C4. For an existing user, a valid goal and a non-empty filtered catalog
    (a table with a primary key), whatever the random draws: every response
    [generate_workout] returns has a non-empty exercise list without
    duplicate exercise ids and an estimated duration of at least 0; and a
    response is returned whenever [duration_minutes] is an integer. *)
Theorem generate_exercise_list st request g new_workout_id :
  primary_keys st →
  is_Some (find_user (WorkoutGenerateRequest.user_id request) st) →
  lower (WorkoutGenerateRequest.goal request) ∈ valid_goals →
  exercise_query (WorkoutGenerateRequest.equipment request) st ≠ [] →
  (∀ st' r,
     run (generate_workout request g new_workout_id) st = (st', Return r) →
     WorkoutGenerateResponse.exercises r ≠ []
     ∧ NoDup (ExerciseDetail.exercise_id <$> WorkoutGenerateResponse.exercises r)
     ∧ 0 <= WorkoutGenerateResponse.estimated_duration r)
  ∧ (is_Some (WorkoutGenerateRequest.duration_minutes request) →
     ∃ st' r,
       run (generate_workout request g new_workout_id) st = (st', Return r)).
Proof.
  intros Hpk [u Hu] Hgoal Hq. split.
  - intros st' r Hrun.
    apply generate_returns in Hrun
      as (sel & rows & ts & tr & rs & _ & _ & Hsel & Hp & _ & _ & ->).
    simpl.
    destruct (WorkoutGenerateRequest.duration_minutes request) as [d|].
    2: { by rewrite select_exercises_no_duration in Hsel. }
    destruct (select_exercises_ok _
                (exercise_query_keys (WorkoutGenerateRequest.equipment request) st Hpk) d g)
      as (sel' & Hsel' & Hnd & Hne).
    rewrite Hsel in Hsel'. inversion Hsel'; subst sel'.
    split_and!.
    + intros Hnil. apply fmap_nil_inv in Hnil. by apply Hne.
    + by rewrite <- list_fmap_compose.
    + apply prescription_nonneg in Hp as (? & ? & ?).
      apply Z.div_pos; [|lia]. apply Z.mul_nonneg_nonneg; [|lia].
      apply Z.mul_nonneg_nonneg; lia.
  - intros [d Hd].
    destruct (select_exercises_ok _
                (exercise_query_keys (WorkoutGenerateRequest.equipment request) st Hpk) d g)
      as (sel & Hsel & _).
    setoid_rewrite run_eq.
    destruct (generate_workout_outcome request g new_workout_id (mkSession st st))
      as [Hu'|u' _ Hin|u' _ _ Hq'|u' e' _ _ _ Hsel'|u' sel' rows ts tr rs];
      simpl in *; try congruence.
    by eexists _, _.
Qed.

(** C4 at a strength request of the gym's user. *)
Lemma generate_exercise_list_witness :
  primary_keys gym
  ∧ is_Some (find_user 1 gym)
  ∧ lower "Strength" ∈ valid_goals
  ∧ exercise_query (Some ["Barbell"%string]) gym ≠ []
  ∧ (∀ st' r,
       run (generate_workout (generate_request 1 "Strength" (Some 45)) draws 50) gym
         = (st', Return r) →
       WorkoutGenerateResponse.exercises r ≠ []
       ∧ NoDup (ExerciseDetail.exercise_id <$> WorkoutGenerateResponse.exercises r)
       ∧ 0 <= WorkoutGenerateResponse.estimated_duration r)
  ∧ ∃ st' r,
      run (generate_workout (generate_request 1 "Strength" (Some 45)) draws 50) gym
        = (st', Return r).
Proof.
  assert (primary_keys gym) as Hpk by (split; by apply (bool_decide_unpack _)).
  assert (is_Some (find_user 1 gym)) as Hu by by eexists.
  assert (lower "Strength" ∈ valid_goals) as Hg by by apply (bool_decide_unpack _).
  assert (exercise_query (Some ["Barbell"%string]) gym ≠ []) as Hq by by vm_compute.
  destruct (generate_exercise_list gym (generate_request 1 "Strength" (Some 45))
              draws 50 Hpk Hu Hg Hq) as [Hprops Hret].
  split_and!; try done. apply Hret. by eexists.
Defined.

(** C5. In every response of [generate_workout] each exercise carries the
    fixed prescription of the normalised goal, and the estimated duration is
    the floor of the sum, over the selected exercises, of
    [target_sets * (target_reps * 3 + rest_seconds)], divided by 60: the
    closed form of the code equals the sum form. *)
Theorem generate_estimated_duration st request g new_workout_id st' r :
  run (generate_workout request g new_workout_id) st = (st', Return r) →
  ∃ target_sets target_reps rest_seconds,
    prescription (WorkoutGenerateResponse.goal r)
      = (target_sets, target_reps, rest_seconds)
    ∧ Forall (fun ex =>
                ExerciseDetail.target_sets ex = Some target_sets
                ∧ ExerciseDetail.target_reps ex = Some target_reps
                ∧ ExerciseDetail.rest_seconds ex = Some rest_seconds)
             (WorkoutGenerateResponse.exercises r)
    ∧ WorkoutGenerateResponse.estimated_duration r
      = sum_Z ((fun _ => target_sets * (target_reps * 3 + rest_seconds))
                 <$> WorkoutGenerateResponse.exercises r) / 60.
Proof.
  intros Hrun.
  apply generate_returns in Hrun
    as (sel & rows & ts & tr & rs & _ & _ & _ & Hp & _ & _ & ->).
  exists ts, tr, rs. simpl. split_and!; [done| |].
  - apply Forall_fmap, Forall_forall. by intros ex _.
  - rewrite sum_Z_const, length_fmap. f_equal. lia.
Qed.

(** C5 at a strength request: five exercises of 975 seconds, 81 minutes. *)
Lemma generate_estimated_duration_witness :
  ∃ st' r,
    run (generate_workout (generate_request 1 "Strength" (Some 45)) draws 50) gym
      = (st', Return r)
    ∧ WorkoutGenerateResponse.estimated_duration r = 81
    ∧ ∃ target_sets target_reps rest_seconds,
        prescription (WorkoutGenerateResponse.goal r)
          = (target_sets, target_reps, rest_seconds)
        ∧ Forall (fun ex =>
                    ExerciseDetail.target_sets ex = Some target_sets
                    ∧ ExerciseDetail.target_reps ex = Some target_reps
                    ∧ ExerciseDetail.rest_seconds ex = Some rest_seconds)
                 (WorkoutGenerateResponse.exercises r)
        ∧ WorkoutGenerateResponse.estimated_duration r
          = sum_Z ((fun _ => target_sets * (target_reps * 3 + rest_seconds))
                     <$> WorkoutGenerateResponse.exercises r) / 60.
Proof.
  eexists _, _. split; [by vm_compute|]. split; [by vm_compute|].
  eapply (generate_estimated_duration gym
            (generate_request 1 "Strength" (Some 45)) draws 50).
  by vm_compute.
Defined.

(** ** create_custom_workout *)

Lemma remove_dups_length_le {A} `{EqDecision A} (l : list A) :
  (length (remove_dups l) ≤ length l)%nat.
Proof.
  induction l as [|x l IH]; simpl; [done|].
  destruct (decide_rel elem_of x l); simpl; lia.
Qed.

Lemma remove_dups_length_lt {A} `{EqDecision A} (l : list A) :
  ¬ NoDup l → (length (remove_dups l) < length l)%nat.
Proof.
  induction l as [|x l IH]; intros Hnd; simpl.
  { destruct Hnd. constructor. }
  destruct (decide_rel elem_of x l) as [Hin|Hin]; simpl.
  - pose proof (remove_dups_length_le l). lia.
  - assert (¬ NoDup l) as Hl by (intros H; apply Hnd; by constructor).
    specialize (IH Hl). lia.
Qed.

Lemma head_filter_is_Some {A} (P : A → Prop) `{∀ x, Decision (P x)} (l : list A) :
  is_Some (head (filter P l)) ↔ ∃ x, P x ∧ x ∈ l.
Proof.
  split.
  - intros [x Hx]. exists x. apply (list_elem_of_filter P).
    destruct (filter P l) as [|y ys] eqn:Hf; [done|].
    simpl in Hx. inversion Hx; subst. left.
  - intros (x & HP & Hx).
    assert (x ∈ filter P l) as Hin by (by apply list_elem_of_filter).
    destruct (filter P l); [by apply elem_of_nil in Hin|by eexists].
Qed.

Lemma resolved_nil st : resolved [] st = [].
Proof.
  unfold resolved. induction (exercises st) as [|a l IH]; [done|].
  rewrite filter_cons_False; [done|]. apply not_elem_of_nil.
Qed.

Lemma resolved_length_le exercise_ids st :
  primary_keys st →
  (length (resolved exercise_ids st) ≤ length (remove_dups exercise_ids))%nat.
Proof.
  intros [Hpk _].
  rewrite <- (length_fmap (fun ex => Some (Exercise.id ex))).
  apply submseteq_length, NoDup_submseteq.
  - rewrite (list_fmap_compose Exercise.id Some).
    apply (NoDup_fmap_2 Some).
    eapply submseteq_NoDup; [|exact Hpk].
    apply fmap_submseteq, sublist_submseteq, sublist_filter.
  - intros k Hk. apply list_elem_of_fmap in Hk as (ex & -> & Hex).
    apply list_elem_of_filter in Hex as [Hex _]. by apply elem_of_remove_dups.
Qed.

Lemma resolved_length_ge exercise_ids st :
  (∀ k, k ∈ exercise_ids → ∃ i, k = Some i ∧ is_Some (find_exercise i st)) →
  (length (remove_dups exercise_ids) ≤ length (resolved exercise_ids st))%nat.
Proof.
  intros Hall.
  rewrite <- (length_fmap (fun ex => Some (Exercise.id ex)) (resolved _ _)).
  apply submseteq_length, NoDup_submseteq; [apply NoDup_remove_dups|].
  intros k Hk. rewrite elem_of_remove_dups in Hk.
  destruct (Hall k Hk) as (i & -> & Hi).
  apply head_filter_is_Some in Hi as (ex & <- & Hex).
  apply list_elem_of_fmap. exists ex. split; [done|].
  by apply list_elem_of_filter.
Qed.

Lemma create_custom_count_mismatch request new_workout_id s :
  length (resolved (requested_ids request) (working s))
    ≠ length (requested_ids request) →
  create_custom_workout request new_workout_id s = (s, Raise NotFound).
Proof.
  intros Hne. unfold create_custom_workout.
  rewrite handler_bind_eq. unfold query at 1.
  destruct (find_user _ (working s)); [|done].
  destruct (CustomWorkoutRequest.exercises request) as [|e0 es] eqn:He.
  { unfold requested_ids in Hne. rewrite He in Hne.
    by rewrite resolved_nil in Hne. }
  rewrite <- He. rewrite handler_bind_eq. unfold query at 1.
  fold (requested_ids request). fold (resolved (requested_ids request) (working s)).
  by rewrite bool_decide_true.
Qed.

(** C8. A custom request whose exercise ids all exist in the catalog but in
    which some id occurs more than once fails with NotFound and writes
    nothing, pending or committed: the rows resolved are as many as the
    distinct ids, which is less than the length of the requested list. *)
Theorem create_custom_duplicate_ids st request new_workout_id :
  primary_keys st →
  (∀ ex, ex ∈ CustomWorkoutRequest.exercises request →
         ∃ i, ExerciseSpec.exercise_id ex = Some (Some i)
              ∧ is_Some (find_exercise i st)) →
  ¬ NoDup (requested_ids request) →
  create_custom_workout request new_workout_id (mkSession st st)
    = (mkSession st st, Raise NotFound)
  ∧ run (create_custom_workout request new_workout_id) st = (st, Raise NotFound)
  ∧ length (resolved (requested_ids request) st)
    = length (remove_dups (requested_ids request))
  ∧ (length (remove_dups (requested_ids request))
     < length (requested_ids request))%nat.
Proof.
  intros Hpk Hall Hdup.
  pose proof (remove_dups_length_lt _ Hdup) as Hlt.
  pose proof (resolved_length_le (requested_ids request) st Hpk) as Hle.
  assert (length (remove_dups (requested_ids request))
          ≤ length (resolved (requested_ids request) st))%nat as Hge.
  { apply resolved_length_ge. intros k Hk.
    apply list_elem_of_fmap in Hk as (ex & -> & Hex).
    destruct (Hall ex Hex) as (i & Hi & Hfound). exists i. by rewrite Hi. }
  assert (create_custom_workout request new_workout_id (mkSession st st)
          = (mkSession st st, Raise NotFound)) as Heq.
  { apply create_custom_count_mismatch. simpl. lia. }
  split_and!; [done|by rewrite run_eq, Heq|lia|done].
Qed.

(** C8 at a request that names the bench press twice. *)
Lemma create_custom_duplicate_ids_witness :
  primary_keys gym
  ∧ (∀ ex, ex ∈ CustomWorkoutRequest.exercises repeated_request →
           ∃ i, ExerciseSpec.exercise_id ex = Some (Some i)
                ∧ is_Some (find_exercise i gym))
  ∧ ¬ NoDup (requested_ids repeated_request)
  ∧ create_custom_workout repeated_request 50 (mkSession gym gym)
    = (mkSession gym gym, Raise NotFound)
  ∧ run (create_custom_workout repeated_request 50) gym
    = (gym, Raise NotFound)
  ∧ length (resolved (requested_ids repeated_request) gym)
    = length (remove_dups (requested_ids repeated_request))
  ∧ (length (remove_dups (requested_ids repeated_request))
     < length (requested_ids repeated_request))%nat.
Proof.
  assert (∀ ex, ex ∈ CustomWorkoutRequest.exercises repeated_request →
           ∃ i, ExerciseSpec.exercise_id ex = Some (Some i)
                ∧ is_Some (find_exercise i gym)) as Hall.
  { intros ex Hex. simpl in Hex.
    repeat (apply elem_of_cons in Hex as [->|Hex]);
      [exists 1|exists 3|exists 1|by apply elem_of_nil in Hex];
      (split; [done|by eexists]). }
  split; [split; by apply (bool_decide_unpack _)|].
  split; [exact Hall|].
  split; [by apply (bool_decide_unpack _)|].
  apply (create_custom_duplicate_ids gym repeated_request 50);
    [split; by apply (bool_decide_unpack _)|exact Hall
    |by apply (bool_decide_unpack _)].
Defined.

(** ** Sorting *)

Lemma insert_desc_perm {A} (key : A → Z) x l : insert_desc key x l ≡ₚ x :: l.
Proof.
  induction l as [|y l IH]; simpl; [done|].
  destruct (key x <? key y); [|done]. rewrite IH. apply Permutation_swap.
Qed.

Lemma sort_desc_perm {A} (key : A → Z) l : sort_desc key l ≡ₚ l.
Proof.
  induction l as [|x l IH]; simpl; [done|].
  by rewrite insert_desc_perm, IH.
Qed.

Lemma insert_asc_perm {A} (key : A → Z) x l : insert_asc key x l ≡ₚ x :: l.
Proof.
  induction l as [|y l IH]; simpl; [done|].
  destruct (key y <? key x); [|done]. rewrite IH. apply Permutation_swap.
Qed.

Lemma sort_asc_perm {A} (key : A → Z) l : sort_asc key l ≡ₚ l.
Proof.
  induction l as [|x l IH]; simpl; [done|].
  by rewrite insert_asc_perm, IH.
Qed.

Lemma sort_desc_head {A} (key : A → Z) l h :
  head (sort_desc key l) = Some h → h ∈ l ∧ ∀ y, y ∈ l → key y <= key h.
Proof.
  intros Hh. split.
  { rewrite <- (sort_desc_perm key l).
    destruct (sort_desc key l); inversion Hh; subst. left. }
  revert h Hh. induction l as [|x l IH]; intros h Hh y Hy.
  { by apply elem_of_nil in Hy. }
  simpl in Hh. destruct (sort_desc key l) as [|h' t] eqn:Hs.
  - assert (l = []) as ->.
    { apply Permutation_nil_r. by rewrite <- (sort_desc_perm key l), Hs. }
    simpl in Hh. inversion Hh; subst.
    apply elem_of_cons in Hy as [->|Hy]; [done|by apply elem_of_nil in Hy].
  - specialize (IH h' eq_refl). simpl in Hh.
    destruct (key x <? key h') eqn:Hlt; inversion Hh; subst.
    + apply Z.ltb_lt in Hlt.
      apply elem_of_cons in Hy as [->|Hy]; [lia|by apply IH].
    + apply Z.ltb_ge in Hlt.
      apply elem_of_cons in Hy as [->|Hy]; [done|]. specialize (IH y Hy). lia.
Qed.

(** ** log_exercise_sets *)

Lemma log_exercise_sets_eq workout_id exercise_id sets s :
  log_exercise_sets workout_id exercise_id sets s
  = match find_workout workout_id (working s),
          find_workout_exercise workout_id exercise_id (working s),
          find_exercise exercise_id (working s) with
    | Some _, Some _, Some _ =>
        match sets, head (logs_of_workout workout_id (working s)) with
        | [], _ | _, None => (s, Raise InvalidArgument)
        | _, Some workout_log =>
            match for_each (add_logged_set workout_log exercise_id)
                           (enumerate 1 sets) s with
            | (s', Return created_sets) =>
                (mkSession (working s') (working s'), Return created_sets)
            | (s', Raise e) => (s', Raise e)
            end
        end
    | _, _, _ => (s, Raise NotFound)
    end.
Proof.
  unfold log_exercise_sets. rewrite handler_bind_eq. unfold query at 1.
  destruct (find_workout workout_id (working s)); [|done].
  rewrite handler_bind_eq. unfold query at 1.
  destruct (find_workout_exercise workout_id exercise_id (working s)); [|done].
  rewrite handler_bind_eq. unfold query at 1.
  destruct (find_exercise exercise_id (working s)); [|done].
  destruct sets as [|x xs]; [done|].
  rewrite handler_bind_eq. unfold query at 1.
  destruct (head (logs_of_workout workout_id (working s))); [|done].
  rewrite handler_bind_eq.
  destruct (for_each _ _ s) as [s' [created|e]]; [|done].
  by rewrite handler_bind_eq.
Qed.

(** [log_exercise_sets] once its five checks have passed. *)
Lemma log_exercise_sets_checked st workout_id exercise_id sets workout_log :
  is_Some (find_workout workout_id st) →
  is_Some (find_workout_exercise workout_id exercise_id st) →
  is_Some (find_exercise exercise_id st) →
  sets ≠ [] →
  head (logs_of_workout workout_id st) = Some workout_log →
  match run (log_exercise_sets workout_id exercise_id sets) st with
  | (st', Return created) =>
      st' = with_exercise_sets st created
      ∧ Forall2 (fun item row =>
                   logged_row workout_log exercise_id item.1 item.2 row)
                (enumerate 1 sets) created
      ∧ batch_fits sets
  | (st', Raise e) => e = DataError ∧ st' = st ∧ ¬ batch_fits sets
  end.
Proof.
  intros [w Hw] [we Hwe] [ex Hex] Hne Hlog.
  pose proof (for_each_add_logged_set workout_log exercise_id 1 sets (mkSession st st))
    as Hloop.
  rewrite run_eq, log_exercise_sets_eq.
  change (working (mkSession st st)) with st. rewrite Hw, Hwe, Hex, Hlog.
  destruct sets as [|x xs]; [done|].
  destruct (for_each (add_logged_set workout_log exercise_id)
              (enumerate 1 (x :: xs)) (mkSession st st)) as [s' [created|e]].
  - by destruct Hloop as (-> & Hrows & Hfits).
  - by destruct Hloop as (-> & Hc & Hfits).
Qed.

Lemma log_exercise_sets_returns st workout_id exercise_id sets st' created :
  run (log_exercise_sets workout_id exercise_id sets) st = (st', Return created) →
  ∃ workout_log,
    head (logs_of_workout workout_id st) = Some workout_log
    ∧ sets ≠ []
    ∧ st' = with_exercise_sets st created
    ∧ Forall2 (fun item row =>
                 logged_row workout_log exercise_id item.1 item.2 row)
              (enumerate 1 sets) created.
Proof.
  intros Hrun. pose proof Hrun as Hrun'. revert Hrun'.
  rewrite run_eq, log_exercise_sets_eq.
  change (working (mkSession st st)) with st.
  destruct (find_workout workout_id st) as [w|] eqn:Hw; [|done].
  destruct (find_workout_exercise workout_id exercise_id st) as [we|] eqn:Hwe; [|done].
  destruct (find_exercise exercise_id st) as [ex|] eqn:Hex; [|done].
  destruct sets as [|x xs] eqn:Hsets; [done|]. rewrite <- Hsets in *.
  destruct (head (logs_of_workout workout_id st)) as [workout_log|] eqn:Hlog.
  2: { by rewrite Hsets. }
  intros _.
  pose proof (log_exercise_sets_checked st workout_id exercise_id sets workout_log)
    as Hchecked.
  rewrite Hrun in Hchecked.
  destruct Hchecked as (-> & Hrows & _);
    [by eexists|by eexists|by eexists|by rewrite Hsets|done|].
  exists workout_log. split_and!; [done|by rewrite Hsets|done|done].
Qed.

Lemma log_exercise_sets_succeeds st workout_id exercise_id sets workout_log :
  is_Some (find_workout workout_id st) →
  is_Some (find_workout_exercise workout_id exercise_id st) →
  is_Some (find_exercise exercise_id st) →
  sets ≠ [] →
  head (logs_of_workout workout_id st) = Some workout_log →
  batch_fits sets →
  ∃ created,
    run (log_exercise_sets workout_id exercise_id sets) st
    = (with_exercise_sets st created, Return created)
    ∧ Forall2 (fun item row =>
                 logged_row workout_log exercise_id item.1 item.2 row)
              (enumerate 1 sets) created.
Proof.
  intros Hw Hwe Hex Hne Hlog Hfits.
  pose proof (log_exercise_sets_checked st workout_id exercise_id sets workout_log
                Hw Hwe Hex Hne Hlog) as Hchecked.
  destruct (run (log_exercise_sets workout_id exercise_id sets) st)
    as [st' [created|e]].
  - destruct Hchecked as (-> & Hrows & _). by exists created.
  - by destruct Hchecked as (_ & _ & Hno).
Qed.

Lemma for_each_add_logged_set_payload workout_log exercise_id start sets sets' s :
  Forall2 same_payload sets sets' →
  for_each (add_logged_set workout_log exercise_id) (enumerate start sets) s
  = for_each (add_logged_set workout_log exercise_id) (enumerate start sets') s.
Proof.
  intros Hall. revert start s.
  induction Hall as [|a b sets sets' (Hr & Hw & Hp) _ IH]; intros start s; [done|].
  simpl enumerate. rewrite !for_each_cons.
  unfold add_logged_set at 1 3. rewrite Hr, Hw, Hp.
  destruct (db_add_exercise_set _ _ _ _ _ _ s) as [s1 [y|e]]; [|done].
  by rewrite IH.
Qed.

Lemma log_exercise_sets_payload workout_id exercise_id sets sets' s :
  Forall2 same_payload sets sets' →
  log_exercise_sets workout_id exercise_id sets s
  = log_exercise_sets workout_id exercise_id sets' s.
Proof.
  intros Hall. rewrite !log_exercise_sets_eq.
  destruct (find_workout workout_id (working s)); [|done].
  destruct (find_workout_exercise workout_id exercise_id (working s)); [|done].
  destruct (find_exercise exercise_id (working s)); [|done].
  destruct Hall as [|a b sets sets' Hab Hall]; [done|].
  destruct (head (logs_of_workout workout_id (working s))) as [workout_log|]; [|done].
  by rewrite (for_each_add_logged_set_payload workout_log exercise_id 1
                (a :: sets) (b :: sets') s) by by constructor.
Qed.

Lemma logged_rows_numbering workout_log exercise_id sets created i row :
  Forall2 (fun item row => logged_row workout_log exercise_id item.1 item.2 row)
          (enumerate 1 sets) created →
  created !! i = Some row →
  ExerciseSet.set_number row = Some (Z.of_nat i + 1).
Proof.
  intros Hall Hi.
  destruct (Forall2_lookup_r _ _ _ _ _ Hall Hi) as ([idx set_data] & Hitem & Hrow).
  pose proof (lookup_lt_Some _ _ _ Hitem) as Hlt. rewrite enumerate_length in Hlt.
  destruct (lookup_lt_is_Some_2 sets i Hlt) as [x Hx].
  rewrite (enumerate_lookup 1 sets i x Hx) in Hitem. inversion Hitem; subst.
  destruct Hrow as (_ & _ & Hn & _). simpl in Hn. rewrite Hn. f_equal. lia.
Qed.

(** C6. Every successful [log_exercise_sets] call had a non-empty batch,
    appends exactly one row per item of the batch to the exercise sets, and
    the row at (zero-based) position [i] carries set number [i + 1],
    whatever sets the store already holds. *)
Theorem log_exercise_sets_numbering st workout_id exercise_id sets st' created :
  run (log_exercise_sets workout_id exercise_id sets) st = (st', Return created) →
  (0 < length sets)%nat
  ∧ length created = length sets
  ∧ exercise_sets st' = exercise_sets st ++ created
  ∧ ∀ i row, created !! i = Some row →
      ExerciseSet.set_number row = Some (Z.of_nat i + 1).
Proof.
  intros Hrun.
  apply log_exercise_sets_returns in Hrun as (workout_log & _ & Hne & -> & Hall).
  split_and!.
  - destruct sets; [done|simpl; lia].
  - apply Forall2_length in Hall. by rewrite enumerate_length in Hall.
  - done.
  - intros i row Hi. by eapply logged_rows_numbering.
Qed.

(** C6 at a batch of two for a log and exercise that already have sets
    numbered 1 to 4: the new rows are numbered 1 and 2 again. *)
Lemma log_exercise_sets_numbering_witness :
  ∃ st' created,
    run (log_exercise_sets 10 1 batch) gym = (st', Return created)
    ∧ (ExerciseSet.set_number <$> exercise_sets gym)
      = [Some 1; Some 2; Some 3; Some 4; Some 1]
    ∧ (ExerciseSet.set_number <$> created) = [Some 1; Some 2]
    ∧ (0 < length batch)%nat
    ∧ length created = length batch
    ∧ exercise_sets st' = exercise_sets gym ++ created
    ∧ ∀ i row, created !! i = Some row →
        ExerciseSet.set_number row = Some (Z.of_nat i + 1).
Proof.
  eexists _, _. split; [by vm_compute|]. split; [done|]. split; [done|].
  eapply (log_exercise_sets_numbering gym 10 1 batch).
  by vm_compute.
Defined.

(** ** What the numeric columns store *)

Lemma round_half_away_nearest (a b : Z) :
  0 < b →
  2 * Z.abs (Z.sgn a * ((2 * Z.abs a + b) / (2 * b)) * b - a) <= b.
Proof.
  intros Hb.
  pose proof (Z.div_mod (2 * Z.abs a + b) (2 * b) ltac:(lia)) as Hdm.
  pose proof (Z.mod_pos_bound (2 * Z.abs a + b) (2 * b) ltac:(lia)) as Hr.
  set (k := (2 * Z.abs a + b) / (2 * b)) in *.
  set (r := (2 * Z.abs a + b) mod (2 * b)) in *.
  destruct (Z.sgn_spec a) as [[Ha ->]|[[Ha ->]|[Ha ->]]]; nia.
Qed.

(** A [Numeric] column stores a decimal that is as close to the value sent
    as its scale allows. *)
Lemma quantize_nearest scale q : nearest_decimal scale q (quantize scale q).
Proof.
  split; [by eexists|].
  unfold quantize. destruct q as [a b].
  set (P := (10 ^ scale)%positive).
  apply Qabs_Qle_condition.
  pose proof (round_half_away_nearest (a * Zpos P) (Zpos b) ltac:(lia)) as Hn.
  unfold round_half_away. cbn [Qmult Qnum Qden inject_Z].
  rewrite Pos.mul_1_r.
  set (n := Z.sgn (a * Zpos P) * _) in *.
  unfold Qle, Qminus, Qplus, Qopp. cbn [Qnum Qden].
  rewrite !Pos2Z.inj_mul. split; nia.
Qed.

(** C9, as amended. After a successful [log_exercise_sets] call every
    created row has the id of a most recently performed log of the workout
    as its [workout_log_id], the path parameter as its [exercise_id] and its
    position in the batch as its [set_number]; it has the item's [reps], the
    item's [weight_kg] (0 when null) rounded to two decimals and the item's
    [rpe] (null when null) rounded to one decimal, each rounded value being
    a nearest decimal of its scale. The call does the same on any batch that
    agrees with this one on [reps], [weight_kg] and [rpe], so the item's
    [workout_log_id], [exercise_id] and [set_number] are ignored. *)
Theorem log_exercise_sets_fields st workout_id exercise_id sets st' created :
  run (log_exercise_sets workout_id exercise_id sets) st = (st', Return created) →
  (∃ workout_log,
     workout_log ∈ workout_logs st
     ∧ WorkoutLog.workout_id workout_log = Some workout_id
     ∧ (∀ l, l ∈ workout_logs st → WorkoutLog.workout_id l = Some workout_id →
             WorkoutLog.performed_at l <= WorkoutLog.performed_at workout_log)
     ∧ Forall2 (fun set_data row =>
                  ExerciseSet.workout_log_id row = Some (WorkoutLog.id workout_log)
                  ∧ ExerciseSet.exercise_id row = Some exercise_id
                  ∧ ExerciseSet.reps row = ExerciseSetCreate.reps set_data
                  ∧ (∃ weight_kg,
                       ExerciseSet.weight_kg row = Some weight_kg
                       ∧ weight_kg
                         = quantize 2 (default 0%Q (ExerciseSetCreate.weight_kg set_data))
                       ∧ nearest_decimal 2
                           (default 0%Q (ExerciseSetCreate.weight_kg set_data))
                           weight_kg)
                  ∧ match ExerciseSetCreate.rpe set_data with
                    | Some rpe =>
                        ExerciseSet.rpe row = Some (quantize 1 rpe)
                        ∧ nearest_decimal 1 rpe (quantize 1 rpe)
                    | None => ExerciseSet.rpe row = None
                    end)
               sets created)
  ∧ (∀ i row, created !! i = Some row →
       ExerciseSet.set_number row = Some (Z.of_nat i + 1))
  ∧ (∀ sets', Forall2 same_payload sets sets' →
       run (log_exercise_sets workout_id exercise_id sets') st = (st', Return created)).
Proof.
  intros Hrun. pose proof Hrun as Hrun'.
  apply log_exercise_sets_returns in Hrun as (workout_log & Hlog & Hne & -> & Hall).
  split_and!.
  - exists workout_log. unfold logs_of_workout in Hlog.
    apply sort_desc_head in Hlog as [Hin Hmax].
    apply list_elem_of_filter in Hin as [Hw Hin]. split_and!; try done.
    + intros l Hl Hlw. apply Hmax. by apply list_elem_of_filter.
    + apply Forall2_same_length_lookup. split.
      { apply Forall2_length in Hall. by rewrite enumerate_length in Hall. }
      intros i set_data row Hs Hr.
      pose proof (enumerate_lookup 1 sets i set_data Hs) as Hitem.
      pose proof (Forall2_lookup_lr _ _ _ _ _ _ Hall Hitem Hr) as Hrow.
      destruct Hrow as (? & ? & ? & ? & Hweight & Hrpe). simpl in *.
      split_and!; try done.
      * eexists. split_and!; [exact Hweight|done|apply quantize_nearest].
      * rewrite Hrpe. destruct (ExerciseSetCreate.rpe set_data); [|done].
        split; [done|apply quantize_nearest].
  - intros i row Hi. by eapply logged_rows_numbering.
  - intros sets' Hsame. rewrite <- Hrun'. rewrite !run_eq.
    by rewrite (log_exercise_sets_payload workout_id exercise_id sets sets').
Qed.

(** C9 as stated fails: a weight of 20.555 kg is stored as 20.56, an
    exertion of 8.25 as 8.3, and a null weight as 0. *)
Lemma log_exercise_sets_fields_counterexample :
  ∃ st' row1 row2,
    run (log_exercise_sets 10 1 precise_batch) gym = (st', Return [row1; row2])
    ∧ ExerciseSetCreate.weight_kg <$> precise_batch = [Some (20555 # 1000)%Q; None]
    ∧ ExerciseSetCreate.rpe <$> precise_batch = [Some (825 # 100)%Q; None]
    ∧ ExerciseSet.weight_kg row1 = Some (2056 # 100)%Q
    ∧ ¬ (2056 # 100 == 20555 # 1000)%Q
    ∧ ExerciseSet.rpe row1 = Some (83 # 10)%Q
    ∧ ¬ (83 # 10 == 825 # 100)%Q
    ∧ ExerciseSet.weight_kg row2 = Some (0 # 100)%Q.
Proof. eexists _, _, _. split_and!; by vm_compute. Qed.

(** C9, as amended, at a batch whose items carry 999 in the three ignored
    fields. *)
Lemma log_exercise_sets_fields_witness :
  ∃ st' created,
    run (log_exercise_sets 10 1 batch) gym = (st', Return created)
    ∧ (∃ workout_log,
         workout_log ∈ workout_logs gym
         ∧ WorkoutLog.workout_id workout_log = Some 10
         ∧ (∀ l, l ∈ workout_logs gym → WorkoutLog.workout_id l = Some 10 →
                 WorkoutLog.performed_at l <= WorkoutLog.performed_at workout_log)
         ∧ Forall2 (fun set_data row =>
                      ExerciseSet.workout_log_id row = Some (WorkoutLog.id workout_log)
                      ∧ ExerciseSet.exercise_id row = Some 1
                      ∧ ExerciseSet.reps row = ExerciseSetCreate.reps set_data
                      ∧ (∃ weight_kg,
                           ExerciseSet.weight_kg row = Some weight_kg
                           ∧ weight_kg
                             = quantize 2
                                 (default 0%Q (ExerciseSetCreate.weight_kg set_data))
                           ∧ nearest_decimal 2
                               (default 0%Q (ExerciseSetCreate.weight_kg set_data))
                               weight_kg)
                      ∧ match ExerciseSetCreate.rpe set_data with
                        | Some rpe =>
                            ExerciseSet.rpe row = Some (quantize 1 rpe)
                            ∧ nearest_decimal 1 rpe (quantize 1 rpe)
                        | None => ExerciseSet.rpe row = None
                        end)
                   batch created)
    ∧ (∀ i row, created !! i = Some row →
         ExerciseSet.set_number row = Some (Z.of_nat i + 1))
    ∧ (∀ sets', Forall2 same_payload batch sets' →
         run (log_exercise_sets 10 1 sets') gym = (st', Return created)).
Proof.
  eexists _, _. split; [by vm_compute|].
  eapply (log_exercise_sets_fields gym 10 1 batch).
  by vm_compute.
Defined.

(** ** The operations that persist a Workout *)

(** C2. [generate_workout] checks the goal against the five valid goals;
    [create_custom_workout], which persists a Workout as well, does not: for
    the gym's user it accepts the goal "yoga", which is none of the five,
    and commits a Workout row with it. *)
Theorem create_custom_stores_any_goal :
  ∃ st' r,
    run (create_custom_workout (custom_request "yoga" [1; 3]) 50) gym
      = (st', Return r)
    ∧ workouts st' = workouts gym ++ [Workout.mk 50 (Some 1) (Some "yoga"%string)]
    ∧ WorkoutGenerateResponse.goal r = "yoga"%string
    ∧ ("yoga"%string ∉ valid_goals)
    ∧ run (generate_workout (generate_request 1 "yoga" (Some 45)) draws 50) gym
      = (gym, Raise InvalidArgument).
Proof.
  eexists _, _. split; [by vm_compute|]. split; [done|]. split; [done|].
  split; [by apply (bool_decide_unpack _)|by vm_compute].
Qed.

(** ** get_progress_summary *)

Lemma logs_in_window_nil start_date st : logs_in_window [] start_date st = [].
Proof.
  unfold logs_in_window. induction (workout_logs st) as [|l ls IH]; [done|].
  rewrite filter_cons_False; [done|]. intros [H _]. by apply elem_of_nil in H.
Qed.

(** The frequency buckets compare the aware [performed_at] of each log with
    a naive time, which Python refuses as soon as there is a log. *)
Lemma count_since_naive since logs :
  count_since (naive since) logs
  = match logs with
    | [] => Return 0
    | _ => Raise TypeError
    end.
Proof. by destruct logs. Qed.

Lemma get_progress_summary_eq sum user_id days end_date now s :
  get_progress_summary sum user_id days end_date now s
  = (s, match find_user user_id (working s) with
        | None => Raise NotFound
        | Some _ =>
            match logs_in_window (workout_ids_of user_id (working s))
                    (end_date - timedelta_days days) (working s) with
            | [] => Return (empty_summary user_id)
            | _ => Raise TypeError
            end
        end).
Proof.
  unfold get_progress_summary.
  rewrite handler_bind_eq. unfold query at 1.
  destruct (find_user user_id (working s)); [|done].
  rewrite handler_bind_eq. unfold query at 1.
  destruct (workout_ids_of user_id (working s)) as [|w ws].
  { by rewrite logs_in_window_nil. }
  rewrite handler_bind_eq. unfold query at 1.
  destruct (logs_in_window (w :: ws) _ (working s)) as [|l ls]; [|done].
  by vm_compute.
Qed.

(** C1. The buckets of the summary are to count the user's logs of the last
    7, 30 and 90 days whatever the window is. The gym's user has one log in
    the last 30 days and two in the last 90. With the default window of 30
    days the handler raises a [TypeError] where it compares the aware
    [performed_at] of a log with the naive [utcnow()]; with a window of 7
    days, which holds no log, it answers, and all three buckets are 0. *)
Theorem summary_frequency_fails :
  len (filter (fun l => today - timedelta_days 30 <= WorkoutLog.performed_at l)
              (workout_logs gym)) = 1
  ∧ len (filter (fun l => today - timedelta_days 90 <= WorkoutLog.performed_at l)
                (workout_logs gym)) = 2
  ∧ Forall (fun l => WorkoutLog.workout_id l ∈ (Some <$> workout_ids_of 1 gym))
           (workout_logs gym)
  ∧ ∀ sum,
      run (get_progress_summary sum 1 30 today today) gym = (gym, Raise TypeError)
      ∧ ∃ r,
          run (get_progress_summary sum 1 7 today today) gym = (gym, Return r)
          ∧ ProgressSummary.workout_frequency r = WorkoutFrequency.mk 0 0 0.
Proof.
  split; [by vm_compute|]. split; [by vm_compute|].
  split; [by apply (bool_decide_unpack _)|].
  intros sum. split.
  - by rewrite run_eq, get_progress_summary_eq.
  - eexists. by rewrite run_eq, get_progress_summary_eq.
Qed.

(** ** Statistics of a group of sets *)

Lemma or_zero_default x : or_zero x = default 0 x.
Proof.
  unfold or_zero, truthy_int. destruct x as [z|]; simpl; [|done].
  destruct (z =? 0) eqn:Hz; simpl; [|done]. apply Z.eqb_eq in Hz. lia.
Qed.

Lemma weights_of_cons s group :
  weights_of (s :: group)
  = if truthy_decimal (ExerciseSet.weight_kg s)
    then float_of_Q (default 0%Q (ExerciseSet.weight_kg s)) :: weights_of group
    else weights_of group.
Proof.
  unfold weights_of. csimpl.
  destruct (truthy_decimal (ExerciseSet.weight_kg s)) eqn:Ht; [|done].
  destruct (ExerciseSet.weight_kg s); [done|by simpl in Ht].
Qed.

Lemma truthy_decimal_counted s :
  truthy_decimal (ExerciseSet.weight_kg s) = true ↔ counted s.
Proof.
  unfold truthy_decimal, counted. destruct (ExerciseSet.weight_kg s) as [w|]; [|done].
  rewrite negb_true_iff, <- not_true_iff_false, Qeq_bool_iff. done.
Qed.

Lemma weights_of_counted group :
  weights_of group = float_of_Q <$> counted_weights group.
Proof.
  unfold counted_weights.
  induction group as [|s group IH]; [done|].
  rewrite weights_of_cons.
  destruct (truthy_decimal (ExerciseSet.weight_kg s)) eqn:Ht.
  - apply truthy_decimal_counted in Ht.
    by rewrite filter_cons_True, !fmap_cons, IH.
  - rewrite filter_cons_False; [done|].
    rewrite <- truthy_decimal_counted. congruence.
Qed.

Lemma total_reps_of_default group : total_reps_of group = reps_total group.
Proof.
  unfold total_reps_of, reps_total. f_equal. apply list_fmap_ext.
  intros _ s _. apply or_zero_default.
Qed.

(** ** The order of floats *)

Lemma SFltb_irrefl x : SFltb x x = false.
Proof.
  unfold SFltb. destruct x as [[]|[]| |[] m e]; simpl; try done;
    rewrite Z.compare_refl, Pos.compare_cont_refl; done.
Qed.

Lemma SFltb_asym x y : SFltb x y = true → SFltb y x = false.
Proof.
  unfold SFltb.
  destruct x as [[]|[]| |[] mx ex], y as [[]|[]| |[] my ey];
    simpl; intros Hxy; try done; compare_cases; try done; lia.
Qed.

(** On numbers, [<] is a strict weak order. *)
Lemma SFltb_cotrans x y z :
  y ≠ S754_nan → SFltb x z = true → SFltb x y = true ∨ SFltb y z = true.
Proof.
  unfold SFltb.
  destruct x as [[]|[]| |[] mx ex], y as [[]|[]| |[] my ey], z as [[]|[]| |[] mz ez];
    simpl; intros Hy Hxz; try done; try (by left); try (by right);
    compare_cases; try done; try (by left); try (by right); try lia.
Qed.

Lemma float_max_spec x xs :
  Forall (fun w => w ≠ S754_nan) (x :: xs) →
  float_max x xs ∈ x :: xs ∧ ∀ w, w ∈ x :: xs → SFltb (float_max x xs) w = false.
Proof.
  unfold float_max. revert x. induction xs as [|y xs IH]; intros x Hnum; simpl.
  - split; [left|]. intros w Hw. apply list_elem_of_singleton in Hw as ->.
    apply SFltb_irrefl.
  - apply Forall_cons in Hnum as [Hx Hnum]. pose proof Hnum as Hnum'.
    apply Forall_cons in Hnum' as [Hy Hxs].
    destruct (SFltb x y) eqn:Hxy.
    + destruct (IH y Hnum) as [Hin Hmax]. split; [by right|].
      intros w Hw. apply elem_of_cons in Hw as [->|Hw]; [|by apply Hmax].
      match goal with |- ?t = false => destruct t eqn:Hlt; [|done] end.
      destruct (SFltb_cotrans _ y _ Hy Hlt) as [H|H].
      * by rewrite (Hmax y) in H by left.
      * by rewrite (SFltb_asym _ _ Hxy) in H.
    + destruct (IH x) as [Hin Hmax]; [by constructor|]. split.
      * apply elem_of_cons in Hin as [->|Hin]; [left|right; by right].
      * intros w Hw. apply elem_of_cons in Hw as [->|Hw]; [apply Hmax; left|].
        apply elem_of_cons in Hw as [->|Hw]; [|apply Hmax; by right].
        match goal with |- ?t = false => destruct t eqn:Hlt; [|done] end.
        destruct (SFltb_cotrans _ x _ Hx Hlt) as [H|H]; [|congruence].
        by rewrite (Hmax x) in H by left.
Qed.

(** ** A converted decimal is a number *)

Lemma shr_1_nonneg mrs : 0 <= shr_m mrs → 0 <= shr_m (shr_1 mrs).
Proof. destruct mrs as [[|[p|p|]|p] r s]; simpl; lia. Qed.

Lemma iter_pos_shr_1_nonneg p mrs :
  0 <= shr_m mrs → 0 <= shr_m (SpecFloat.iter_pos shr_1 p mrs).
Proof.
  revert mrs. induction p as [p IH|p IH|]; intros mrs Hm; simpl.
  - by apply IH, IH, shr_1_nonneg.
  - by apply IH, IH.
  - by apply shr_1_nonneg.
Qed.

Lemma shr_fexp_nonneg m e l :
  0 <= m → 0 <= shr_m (shr_fexp prec emax m e l).1.
Proof.
  intros Hm. unfold shr_fexp, shr.
  assert (0 <= shr_m (shr_record_of_loc m l)) as Hr by (by destruct l as [|[]]).
  destruct (_ - e); simpl; [done| |done]. by apply iter_pos_shr_1_nonneg.
Qed.

Lemma round_nearest_even_nonneg m l : 0 <= m → 0 <= round_nearest_even m l.
Proof. intros Hm. destruct l as [|[]]; simpl; try done; [destruct (Z.even m)|]; lia. Qed.

Lemma binary_round_aux_number s m e l :
  0 <= m → binary_round_aux prec emax s m e l ≠ S754_nan.
Proof.
  intros Hm. unfold binary_round_aux.
  pose proof (shr_fexp_nonneg m e l Hm) as H1.
  destruct (shr_fexp prec emax m e l) as [mrs' e']. simpl in H1.
  pose proof (shr_fexp_nonneg _ e' loc_Exact
                (round_nearest_even_nonneg _ (loc_of_shr_record mrs') H1)) as H2.
  destruct (shr_fexp prec emax _ e' loc_Exact) as [mrs'' e'']. simpl in H2.
  destruct (shr_m mrs'') as [|p|p]; [done| |lia].
  by destruct (e'' <=? _).
Qed.

Lemma float_of_fraction_number s n d : float_of_fraction s n d ≠ S754_nan.
Proof.
  unfold float_of_fraction, SFdiv_core_binary.
  set (e' := Z.min _ _). set (m' := match _ with Z0 => _ | _ => _ end).
  assert (0 <= m') as Hm'.
  { unfold m'. destruct (0 - 0 - e') as [|p|p]; [done| |done].
    apply Z.shiftl_nonneg. lia. }
  pose proof (Z_div_mod m' (Zpos d) ltac:(lia)) as Hdm.
  destruct (Z.div_eucl m' (Zpos d)) as [q r]. destruct Hdm as [Heq Hr].
  apply binary_round_aux_number. nia.
Qed.

Lemma float_of_Q_number q : float_of_Q q ≠ S754_nan.
Proof.
  unfold float_of_Q. destruct (Qnum q); [done|apply float_of_fraction_number..].
Qed.

Lemma max_weight_is_maximum (ws : list Q) :
  is_maximum (max_weight (float_of_Q <$> ws)) (float_of_Q <$> ws).
Proof.
  destruct ws as [|w ws]; [done|]. rewrite fmap_cons. apply float_max_spec.
  rewrite <- fmap_cons. apply Forall_fmap, Forall_forall.
  intros q _. apply float_of_Q_number.
Qed.

(** ** The joined query of get_exercise_progress *)

Lemma filter_unique_key {A} (f : A → Z) (P : A → Prop)
    `{∀ y, Decision (P y)} (l : list A) x :
  (∀ y, P y ↔ f x = f y) →
  NoDup (f <$> l) → x ∈ l → filter P l = [x].
Proof.
  intros HP.
  induction l as [|a l IH]; intros Hnd Hx; [by apply elem_of_nil in Hx|].
  rewrite fmap_cons in Hnd. apply NoDup_cons in Hnd as [Ha Hnd].
  assert (∀ y, y ∈ l → f y ≠ f a) as Hfresh.
  { intros y Hy Heq. apply Ha. rewrite <- Heq. by apply list_elem_of_fmap_2. }
  apply elem_of_cons in Hx as [->|Hx].
  - rewrite filter_cons_True by by apply HP. f_equal.
    clear IH Ha Hnd. induction l as [|b l IH]; [done|].
    rewrite filter_cons_False.
    + apply IH. intros y Hy. apply Hfresh. by right.
    + intros Heq. apply HP in Heq. eapply Hfresh; [left|done].
  - rewrite filter_cons_False; [by apply IH|].
    intros Heq. apply HP in Heq. by apply (Hfresh x Hx).
Qed.

Lemma sets_with_logs_group log_ids exercise_id st :
  primary_keys st →
  (∀ i, i ∈ log_ids → i ∈ WorkoutLog.id <$> workout_logs st) →
  (sets_with_logs log_ids exercise_id st).*1
  ≡ₚ filter (fun s => ExerciseSet.workout_log_id s ∈ (Some <$> log_ids)
                      ∧ ExerciseSet.exercise_id s = Some exercise_id)
            (exercise_sets st).
Proof.
  intros [_ Hpk] Hids. unfold sets_with_logs.
  rewrite sort_asc_perm.
  induction (exercise_sets st) as [|s ss IH]; [done|].
  change ((s :: ss) ≫= ?f) with (f s ++ (ss ≫= f)).
  rewrite filter_app, fmap_app, IH. clear IH.
  destruct (decide (ExerciseSet.workout_log_id s ∈ (Some <$> log_ids)
                    ∧ ExerciseSet.exercise_id s = Some exercise_id)) as [HP|HP].
  - rewrite (filter_cons_True _ s ss HP).
    destruct HP as [Hlog Hex].
    apply list_elem_of_fmap in Hlog as (i & Hi & Hin).
    pose proof Hin as Hin'.
    apply Hids, list_elem_of_fmap in Hin as (l & Hil & Hl). subst i.
    rewrite (filter_unique_key WorkoutLog.id _ (workout_logs st) l); [|..|done|done].
    2: { intros y. rewrite Hi. split; [by inversion 1|by intros ->]. }
    simpl. rewrite filter_cons_True; [done|]. simpl. split; [|done].
    rewrite Hi. by apply list_elem_of_fmap_2.
  - rewrite (filter_cons_False _ s ss HP).
    match goal with |- (filter ?P ?l).*1 ++ _ ≡ₚ _ => assert (filter P l = []) as ->; [|done] end.
    induction (filter _ (workout_logs st)) as [|l ls IH]; [done|].
    simpl. rewrite filter_cons_False; [done|]. by simpl.
Qed.

Lemma sets_with_logs_nil exercise_id st : sets_with_logs [] exercise_id st = [].
Proof.
  unfold sets_with_logs.
  match goal with |- sort_asc _ (filter ?P ?l) = _ =>
    assert (filter P l = []) as ->; [|done] end.
  induction (_ ≫= _) as [|r rs IH]; [done|].
  rewrite filter_cons_False; [done|]. intros [H _]. by apply elem_of_nil in H.
Qed.

Lemma logs_in_window_ids workout_ids start_date st i :
  i ∈ WorkoutLog.id <$> logs_in_window workout_ids start_date st →
  i ∈ WorkoutLog.id <$> workout_logs st.
Proof.
  intros Hi. apply list_elem_of_fmap in Hi as (l & -> & Hl).
  apply list_elem_of_filter in Hl as [_ Hl]. by apply list_elem_of_fmap_2.
Qed.

(** ** get_exercise_progress, path by path *)

Lemma get_exercise_progress_eq sum user_id exercise_id days end_date s :
  get_exercise_progress sum user_id exercise_id days end_date s
  = match find_user user_id (working s), find_exercise exercise_id (working s) with
    | Some _, Some exercise =>
        let sets :=
          sets_with_logs
            (WorkoutLog.id <$> logs_in_window (workout_ids_of user_id (working s))
                                 (end_date - timedelta_days days) (working s))
            exercise_id (working s) in
        (s, Return
              (ExerciseProgress.mk exercise_id (Exercise.name exercise)
                 (len sets) (total_reps_of sets.*1)
                 (float_round 2 (max_weight (weights_of sets.*1)))
                 (float_round 2 (avg_weight sum (weights_of sets.*1)))
                 (progression_point <$> sets)))
    | _, _ => (s, Raise NotFound)
    end.
Proof.
  unfold get_exercise_progress.
  rewrite handler_bind_eq. unfold query at 1.
  destruct (find_user user_id (working s)); [|done].
  rewrite handler_bind_eq. unfold query at 1.
  destruct (find_exercise exercise_id (working s)) as [exercise|]; [|done].
  rewrite handler_bind_eq. unfold query at 1.
  destruct (workout_ids_of user_id (working s)) as [|w ws] eqn:Hids.
  { cbv zeta. rewrite logs_in_window_nil. simpl. by rewrite sets_with_logs_nil. }
  rewrite handler_bind_eq. unfold query at 1.
  destruct (WorkoutLog.id <$> logs_in_window (w :: ws) _ (working s))
    as [|i0 ids0] eqn:Hlogs.
  { cbv zeta. by rewrite sets_with_logs_nil. }
  rewrite handler_bind_eq. unfold query at 1. cbv zeta.
  by destruct (sets_with_logs (i0 :: ids0) exercise_id (working s)).
Qed.

(** C7, as amended. [get_exercise_progress] describes the group of the
    exercise's sets in the user's logs of the window: [total_sets] counts
    every set of the group and [total_reps] sums the reps with null as 0.
    The weights that count are those that are neither null nor zero, as
    floats; [max_weight_kg] is a largest of them and [avg_weight_kg] is
    their sum divided by their number, both computed in floating point,
    rounded to two decimals, and 0.0 when no weight counts. *)
Theorem progress_statistics sum st user_id exercise_id days end_date st' r :
  primary_keys st →
  run (get_exercise_progress sum user_id exercise_id days end_date) st
    = (st', Return r) →
  let log_ids :=
    WorkoutLog.id <$> logs_in_window (workout_ids_of user_id st)
                        (end_date - timedelta_days days) st in
  ∃ group m,
    group ≡ₚ filter (fun s => ExerciseSet.workout_log_id s ∈ (Some <$> log_ids)
                              ∧ ExerciseSet.exercise_id s = Some exercise_id)
                    (exercise_sets st)
    ∧ ExerciseProgress.total_sets r = len group
    ∧ ExerciseProgress.total_reps r = reps_total group
    ∧ is_maximum m (float_of_Q <$> counted_weights group)
    ∧ ExerciseProgress.max_weight_kg r = float_round 2 m
    ∧ ExerciseProgress.avg_weight_kg r
      = float_round 2 (avg_weight sum (float_of_Q <$> counted_weights group)).
Proof.
  intros Hpk. rewrite run_eq, get_exercise_progress_eq.
  change (working (mkSession st st)) with st.
  destruct (find_user user_id st); [|done].
  destruct (find_exercise exercise_id st) as [exercise|]; [|done].
  cbv zeta. simpl. intros [= <- <-].
  set (log_ids := WorkoutLog.id <$> _).
  set (group := (sets_with_logs log_ids exercise_id st).*1).
  exists group, (max_weight (weights_of group)). simpl.
  rewrite weights_of_counted. split_and!; try done.
  - apply sets_with_logs_group; [done|]. apply logs_in_window_ids.
  - unfold len, group. by rewrite length_fmap.
  - apply total_reps_of_default.
  - apply max_weight_is_maximum.
Qed.

(** C7 as stated fails for [get_exercise_progress]: the mean of the weights
    10, 10 and 11 is 31/3, and the reported average is the float 10.33,
    whichever way the interpreter sums. *)
Lemma progress_statistics_counterexample :
  counted_weights
    (filter (fun s => ExerciseSet.exercise_id s = Some 1) (exercise_sets gym))
  = [10; 10; 11]%Q
  ∧ is_mean (31 # 3) [10; 10; 11]%Q
  ∧ Forall (fun sum =>
              ∃ r,
                run (get_exercise_progress sum 1 1 30 today) gym = (gym, Return r)
                ∧ ExerciseProgress.avg_weight_kg r = float_of_Q (1033 # 100)
                ∧ ¬ is_mean (float_value (ExerciseProgress.avg_weight_kg r))
                      [10; 10; 11]%Q)
           [left_to_right; compensated].
Proof.
  split; [by vm_compute|]. split; [by vm_compute|].
  repeat apply Forall_cons_2; [| |apply Forall_nil_2];
    (eexists; split; [by vm_compute|]; split; by vm_compute).
Qed.

(** C7, as amended, at the gym's bench-press history. *)
Lemma progress_statistics_witness :
  primary_keys gym
  ∧ ∃ r,
      run (get_exercise_progress left_to_right 1 1 30 today) gym = (gym, Return r)
      ∧ ExerciseProgress.total_sets r = 4
      ∧ ExerciseProgress.max_weight_kg r = float_of_Q 11
      ∧ ExerciseProgress.avg_weight_kg r = float_of_Q (1033 # 100)
      ∧ (let log_ids :=
           WorkoutLog.id <$> logs_in_window (workout_ids_of 1 gym)
                               (today - timedelta_days 30) gym in
         ∃ group m,
           group ≡ₚ filter (fun s => ExerciseSet.workout_log_id s ∈ (Some <$> log_ids)
                                     ∧ ExerciseSet.exercise_id s = Some 1)
                           (exercise_sets gym)
           ∧ ExerciseProgress.total_sets r = len group
           ∧ ExerciseProgress.total_reps r = reps_total group
           ∧ is_maximum m (float_of_Q <$> counted_weights group)
           ∧ ExerciseProgress.max_weight_kg r = float_round 2 m
           ∧ ExerciseProgress.avg_weight_kg r
             = float_round 2
                 (avg_weight left_to_right (float_of_Q <$> counted_weights group))).
Proof.
  assert (primary_keys gym) as Hpk by (split; by apply (bool_decide_unpack _)).
  split; [exact Hpk|]. eexists.
  split; [by vm_compute|]. split; [by vm_compute|].
  split; [by vm_compute|]. split; [by vm_compute|].
  eapply (progress_statistics left_to_right gym 1 1 30 today _ _ Hpk).
  by vm_compute.
Defined.

(** * Further properties of the handlers *)

Lemma gym_primary_keys : primary_keys gym.
Proof. split; by apply (bool_decide_unpack _). Qed.

(** ** More on the selection of generate_workout *)

Lemma group_by_muscle_nonempty exercises m bucket :
  group_by_muscle exercises !! m = Some bucket → bucket ≠ [].
Proof.
  rewrite group_by_muscle_lookup.
  destruct (filter _ exercises); [done|]. by intros [= <-].
Qed.

Lemma group_by_muscle_present exercises ex :
  ex ∈ exercises → is_Some (group_by_muscle exercises !! muscle_of ex).
Proof.
  intros Hex. rewrite group_by_muscle_lookup.
  assert (ex ∈ filter (fun ex' => muscle_of ex' = muscle_of ex) exercises) as Hin
    by (by apply list_elem_of_filter).
  destruct (filter _ exercises); [by apply elem_of_nil in Hin|by eexists].
Qed.

(** What the loop over the major groups adds: at most [epg] exercises per
    group, all from the buckets of those groups, and at least one from each
    bucket that exists. *)
Lemma select_major_adds exercises epg groups selected g :
  1 <= epg →
  ∃ extra g',
    select_major (group_by_muscle exercises) epg groups selected g
      = Return (selected ++ extra, g')
    ∧ Z.of_nat (length extra) <= epg * Z.of_nat (length groups)
    ∧ (∀ ex, ex ∈ extra → ex ∈ exercises ∧ muscle_of ex ∈ groups)
    ∧ (∀ m, m ∈ groups → is_Some (group_by_muscle exercises !! m) →
            ∃ ex, ex ∈ extra ∧ muscle_of ex = m).
Proof.
  intros Hepg. revert selected g.
  induction groups as [|muscle groups IH]; intros selected g; simpl select_major.
  { exists [], g. rewrite app_nil_r. split_and!; [done|simpl; lia| |].
    - intros ex Hex. by apply elem_of_nil in Hex.
    - intros m Hm. by apply elem_of_nil in Hm. }
  destruct (group_by_muscle exercises !! muscle) as [bucket|] eqn:Hb.
  - pose proof (group_by_muscle_nonempty _ _ _ Hb) as Hne.
    apply group_by_muscle_bucket in Hb as [Hsub Hbm].
    destruct (random_sample_ok bucket
                (Z.min epg (Z.of_nat (length bucket))) g ltac:(lia))
      as (xs & g1 & -> & Hxs & Hlen).
    simpl. destruct (IH (selected ++ xs) g1) as (extra & g' & -> & Hle & Hin & Hcov).
    exists (xs ++ extra), g'. rewrite app_assoc. split_and!; [done| | |].
    + rewrite length_app. simpl length. lia.
    + intros ex Hex. apply elem_of_app in Hex as [Hex|Hex].
      * assert (ex ∈ bucket) as Hexb by (by eapply elem_of_submseteq).
        split; [by eapply elem_of_submseteq|]. rewrite (Hbm ex Hexb). left.
      * destruct (Hin ex Hex). split; [done|by right].
    + intros m Hm Hsome. apply elem_of_cons in Hm as [->|Hm].
      * destruct xs as [|x xs].
        { destruct bucket; [done|]. simpl in Hlen. lia. }
        exists x. split; [apply elem_of_app; left; left|].
        apply Hbm. eapply elem_of_submseteq; [|exact Hxs]. left.
      * destruct (Hcov m Hm Hsome) as (ex & Hex & Hmus).
        exists ex. split; [|done]. apply elem_of_app. by right.
  - destruct (IH selected g) as (extra & g' & -> & Hle & Hin & Hcov).
    exists extra, g'. split_and!; [done| | |].
    + simpl length. lia.
    + intros ex Hex. destruct (Hin ex Hex). split; [done|by right].
    + intros m Hm Hsome. apply elem_of_cons in Hm as [->|Hm].
      * rewrite Hb in Hsome. by destruct Hsome.
      * by apply Hcov.
Qed.

(** What the top-up adds: exercises not selected before, as many as are
    missing from the target and available. *)
Lemma top_up_adds exercises selected target g :
  let remaining :=
    filter (fun ex => Exercise.id ex ∉ Exercise.id <$> selected) exercises in
  ∃ extra g',
    top_up exercises selected target g = Return (selected ++ extra, g')
    ∧ extra ⊆+ remaining
    ∧ Z.of_nat (length extra)
      = if Z.of_nat (length selected) <? target
        then Z.min (target - Z.of_nat (length selected))
                   (Z.of_nat (length remaining))
        else 0.
Proof.
  intros remaining0. subst remaining0. unfold top_up.
  set (remaining := filter _ exercises).
  destruct (Z.of_nat (length selected) <? target) eqn:Hlt.
  2: { exists [], g. rewrite app_nil_r. split_and!; [done|apply submseteq_nil_l|done]. }
  apply Z.ltb_lt in Hlt.
  destruct remaining as [|r0 remaining'] eqn:Hrem.
  { exists [], g. rewrite app_nil_r.
    split_and!; [done|done|]. simpl. lia. }
  destruct (random_sample_ok (r0 :: remaining')
              (Z.min (target - Z.of_nat (length selected))
                     (Z.of_nat (length (r0 :: remaining')))) g ltac:(lia))
    as (xs & g' & -> & Hxs & Hlen).
  by exists xs, g'.
Qed.

Lemma filter_complement_length {A} (P : A → Prop) `{∀ x, Decision (P x)} (l : list A) :
  (length (filter P l) + length (filter (fun x => ¬ P x) l) = length l)%nat.
Proof. by rewrite <- length_app, filter_app_complement. Qed.

(** In a catalog with a primary key, the exercises whose key is among the
    selected ones are no more than the selected ones. *)
Lemma remaining_length exercises selected :
  NoDup (Exercise.id <$> exercises) →
  (length exercises
   ≤ length selected
     + length (filter (fun ex => Exercise.id ex ∉ Exercise.id <$> selected)
                      exercises))%nat.
Proof.
  intros Hpk.
  pose proof (filter_complement_length
                (fun ex => Exercise.id ex ∉ Exercise.id <$> selected) exercises) as Hsum.
  match type of Hsum with
  | (_ + length ?l = _)%nat => assert (length l ≤ length selected)%nat; [|lia]
  end.
  rewrite <- (length_fmap Exercise.id), <- (length_fmap Exercise.id selected).
  apply submseteq_length, NoDup_submseteq.
  - eapply submseteq_NoDup; [|exact Hpk].
    apply fmap_submseteq, sublist_submseteq, sublist_filter.
  - intros i Hi. apply list_elem_of_fmap in Hi as (ex & -> & Hex).
    apply list_elem_of_filter in Hex as [Hex _]. by apply dec_stable.
Qed.

(** The whole selection, for an integer duration. *)
Lemma select_exercises_spec exercises d g :
  ∃ selected,
    select_exercises exercises (Some d) g = Return selected
    ∧ (∀ ex, ex ∈ selected → ex ∈ exercises)
    ∧ (∀ m, m ∈ major_groups → is_Some (group_by_muscle exercises !! m) →
            ∃ ex, ex ∈ selected ∧ muscle_of ex = m)
    ∧ Z.of_nat (length selected) <= Z.max 10 (Z.max 5 (d / 10))
    ∧ (NoDup (Exercise.id <$> exercises) →
       Z.min (Z.max 5 (d / 10)) (Z.of_nat (length exercises))
       <= Z.of_nat (length selected)).
Proof.
  unfold select_exercises.
  set (epg := if 5 <? _ then 1 else 2).
  assert (1 <= epg <= 2) as Hepg by (unfold epg; destruct (5 <? _); lia).
  destruct (select_major_adds exercises epg major_groups [] g)
    as (sel & g1 & -> & Hle & Hin & Hcov); [lia|].
  simpl in Hle. simpl app. cbn [mbind outcome_bind target_count fst snd].
  set (t := Z.max 5 (d / 10)).
  destruct (top_up_adds exercises sel t g1) as (extra & g2 & -> & Hsub & Hlen).
  cbn [mbind outcome_bind fst]. eexists. split; [done|]. split_and!.
  - intros ex Hex. apply elem_of_app in Hex as [Hex|Hex]; [by apply Hin|].
    assert (ex ∈ filter (fun ex => Exercise.id ex ∉ Exercise.id <$> sel) exercises)
      as Hr by (by eapply elem_of_submseteq).
    by apply list_elem_of_filter in Hr as [_ ?].
  - intros m Hm Hsome. destruct (Hcov m Hm Hsome) as (ex & Hex & Hmus).
    exists ex. split; [|done]. apply elem_of_app. by left.
  - rewrite length_app. destruct (Z.of_nat (length sel) <? t) eqn:Hlt.
    + apply Z.ltb_lt in Hlt. lia.
    + apply Z.ltb_ge in Hlt. lia.
  - intros Hpk. pose proof (remaining_length exercises sel Hpk) as Hrem.
    rewrite length_app. destruct (Z.of_nat (length sel) <? t) eqn:Hlt.
    + apply Z.ltb_lt in Hlt. lia.
    + apply Z.ltb_ge in Hlt. lia.
Qed.

Lemma select_exercises_raises exercises duration_minutes g e :
  select_exercises exercises duration_minutes g = Raise e →
  duration_minutes = None ∧ e = TypeError.
Proof.
  destruct duration_minutes as [d|].
  - destruct (select_exercises_spec exercises d g) as (sel & -> & _). done.
  - rewrite select_exercises_no_duration. by intros [= <-].
Qed.

(** ** generate_workout: failures, selection, persisted rows *)

(** X1. A failing [generate_workout] leaves the session as it found it, pending
    rows included, and fails in one of three ways only: 404, 400, or the
    [TypeError] of [None // 10] when [duration_minutes] is null. *)
Theorem generate_failure_writes_nothing request g new_workout_id s s' e :
  generate_workout request g new_workout_id s = (s', Raise e) →
  s' = s
  ∧ (e = NotFound ∨ e = InvalidArgument
     ∨ (e = TypeError ∧ WorkoutGenerateRequest.duration_minutes request = None)).
Proof.
  intros Hrun.
  destruct (generate_workout_outcome request g new_workout_id s)
    as [Hu|u Hu _|u _ _ Hq|u e' _ _ _ Hsel|u sel rows ts tr rs];
    inversion Hrun; subst; try (split; [done|tauto]).
  apply select_exercises_raises in Hsel as [Hd ->]. split; [done|tauto].
Qed.

(** X1 at a request without duration. *)
Lemma generate_failure_writes_nothing_witness :
  generate_workout (generate_request 1 "General" None) draws 50 (mkSession gym gym)
    = (mkSession gym gym, Raise TypeError)
  ∧ mkSession gym gym = mkSession gym gym
  ∧ (TypeError = NotFound ∨ TypeError = InvalidArgument
     ∨ (TypeError = TypeError
        ∧ WorkoutGenerateRequest.duration_minutes (generate_request 1 "General" None)
          = None)).
Proof.
  split; [by vm_compute|].
  apply (generate_failure_writes_nothing (generate_request 1 "General" None)
           draws 50 (mkSession gym gym)).
  by vm_compute.
Defined.

Lemma exercise_query_elem_of requested st ex :
  ex ∈ exercise_query requested st →
  ex ∈ exercises st
  ∧ match requested with
    | Some (name :: names) =>
        Exercise.equipment_id ex = None
        ∨ ∃ eq, eq ∈ equipment st
                ∧ Exercise.equipment_id ex = Some (Equipment.id eq)
                ∧ Equipment.name eq ∈ name :: names
    | _ => True
    end.
Proof.
  unfold exercise_query. destruct requested as [[|name names]|]; [done| |done].
  intros Hex. apply list_elem_of_filter in Hex as [Hel Hex]. split; [done|].
  unfold eligible in Hel. destruct (Exercise.equipment_id ex) as [i|]; [|by left].
  right. apply Is_true_true, bool_decide_eq_true in Hel.
  unfold equipment_ids_named in Hel.
  apply list_elem_of_fmap in Hel as (eq & -> & Heq).
  apply list_elem_of_filter in Heq as [Hname Heq]. by exists eq.
Qed.

Lemma muscle_of_major ex m :
  m ∈ major_groups → (muscle_of ex = m ↔ Exercise.primary_muscle ex = Some m).
Proof.
  intros Hm. unfold muscle_of.
  assert (m ≠ "general"%string ∧ m ≠ ""%string) as [Hg He].
  { unfold major_groups in Hm.
    repeat (apply elem_of_cons in Hm as [->|Hm]; [done|]).
    by apply elem_of_nil in Hm. }
  destruct (Exercise.primary_muscle ex) as [[|c p]|].
  - split; [congruence|]. intros [= Heq]. congruence.
  - split; [by intros ->|by intros [= ->]].
  - split; [congruence|done].
Qed.

(** X2. Every exercise of a generated workout is a row of the catalog, answered
    with that row's id, name and primary muscle; when the request names
    equipment, the row needs none or needs a piece of equipment whose name
    is one of those requested. *)
Theorem generate_respects_equipment st request g new_workout_id st' r :
  run (generate_workout request g new_workout_id) st = (st', Return r) →
  ∀ d, d ∈ WorkoutGenerateResponse.exercises r →
    ∃ ex, ex ∈ exercises st
      ∧ ExerciseDetail.exercise_id d = Exercise.id ex
      ∧ ExerciseDetail.exercise_name d = Exercise.name ex
      ∧ ExerciseDetail.primary_muscle d = Exercise.primary_muscle ex
      ∧ match WorkoutGenerateRequest.equipment request with
        | Some (name :: names) =>
            Exercise.equipment_id ex = None
            ∨ ∃ eq, eq ∈ equipment st
                    ∧ Exercise.equipment_id ex = Some (Equipment.id eq)
                    ∧ Equipment.name eq ∈ name :: names
        | _ => True
        end.
Proof.
  intros Hrun d Hd.
  apply generate_returns in Hrun
    as (sel & rows & ts & tr & rs & _ & _ & Hsel & _ & _ & _ & ->).
  simpl in Hd. apply list_elem_of_fmap in Hd as (ex & -> & Hex).
  destruct (WorkoutGenerateRequest.duration_minutes request) as [dur|].
  2: { by rewrite select_exercises_no_duration in Hsel. }
  destruct (select_exercises_spec
              (exercise_query (WorkoutGenerateRequest.equipment request) st) dur g)
    as (sel' & Hsel' & Hin & _).
  rewrite Hsel in Hsel'. inversion Hsel'; subst sel'.
  apply Hin, exercise_query_elem_of in Hex as [Hex Heq].
  exists ex. by split_and!.
Qed.

(** X2 at a strength request with a barbell. *)
Lemma generate_respects_equipment_witness :
  ∃ st' r,
    run (generate_workout (generate_request 1 "Strength" (Some 45)) draws 50) gym
      = (st', Return r)
    ∧ ∀ d, d ∈ WorkoutGenerateResponse.exercises r →
        ∃ ex, ex ∈ exercises gym
          ∧ ExerciseDetail.exercise_id d = Exercise.id ex
          ∧ ExerciseDetail.exercise_name d = Exercise.name ex
          ∧ ExerciseDetail.primary_muscle d = Exercise.primary_muscle ex
          ∧ (Exercise.equipment_id ex = None
             ∨ ∃ eq, eq ∈ equipment gym
                     ∧ Exercise.equipment_id ex = Some (Equipment.id eq)
                     ∧ Equipment.name eq ∈ ["Barbell"%string]).
Proof.
  eexists _, _. split; [by vm_compute|].
  eapply (generate_respects_equipment gym
            (generate_request 1 "Strength" (Some 45)) draws 50).
  by vm_compute.
Defined.

(** X3. The number of exercises of a generated workout lies between
    [min(target_exercise_count, available)] and [max(10, target_exercise_count)],
    where [target_exercise_count = max(5, duration_minutes // 10)] and
    [available] counts the exercises the equipment filter keeps. *)
Theorem generate_exercise_count st request g new_workout_id st' r :
  primary_keys st →
  run (generate_workout request g new_workout_id) st = (st', Return r) →
  ∃ d, WorkoutGenerateRequest.duration_minutes request = Some d
    ∧ let target_exercise_count := Z.max 5 (d / 10) in
      let available :=
        len (exercise_query (WorkoutGenerateRequest.equipment request) st) in
      Z.min target_exercise_count available
        <= len (WorkoutGenerateResponse.exercises r)
        <= Z.max 10 target_exercise_count.
Proof.
  intros Hpk Hrun.
  apply generate_returns in Hrun
    as (sel & rows & ts & tr & rs & _ & _ & Hsel & _ & _ & _ & ->).
  destruct (WorkoutGenerateRequest.duration_minutes request) as [dur|].
  2: { by rewrite select_exercises_no_duration in Hsel. }
  exists dur. split; [done|].
  destruct (select_exercises_spec
              (exercise_query (WorkoutGenerateRequest.equipment request) st) dur g)
    as (sel' & Hsel' & _ & _ & Hupper & Hlower).
  rewrite Hsel in Hsel'. inversion Hsel'; subst sel'.
  specialize (Hlower (exercise_query_keys _ st Hpk)).
  simpl. unfold len. rewrite length_fmap. lia.
Qed.

(** X3 at a 45 minute request: five exercises are asked for and five of the
    six available ones are given. *)
Lemma generate_exercise_count_witness :
  ∃ st' r,
    run (generate_workout (generate_request 1 "Strength" (Some 45)) draws 50) gym
      = (st', Return r)
    ∧ len (WorkoutGenerateResponse.exercises r) = 5
    ∧ ∃ d, WorkoutGenerateRequest.duration_minutes
             (generate_request 1 "Strength" (Some 45)) = Some d
        ∧ Z.min (Z.max 5 (d / 10))
                (len (exercise_query (Some ["Barbell"%string]) gym))
          <= len (WorkoutGenerateResponse.exercises r)
          <= Z.max 10 (Z.max 5 (d / 10)).
Proof.
  eexists _, _. split; [by vm_compute|]. split; [by vm_compute|].
  eapply (generate_exercise_count gym
            (generate_request 1 "Strength" (Some 45)) draws 50 _ _ gym_primary_keys).
  by vm_compute.
Defined.

(** X4. A generated workout trains every major muscle group that has an
    exercise the equipment filter keeps. *)
Theorem generate_covers_major_groups st request g new_workout_id st' r :
  run (generate_workout request g new_workout_id) st = (st', Return r) →
  ∀ muscle ex,
    muscle ∈ major_groups →
    ex ∈ exercise_query (WorkoutGenerateRequest.equipment request) st →
    Exercise.primary_muscle ex = Some muscle →
    ∃ d, d ∈ WorkoutGenerateResponse.exercises r
         ∧ ExerciseDetail.primary_muscle d = Some muscle.
Proof.
  intros Hrun muscle ex Hm Hex Hmus.
  apply generate_returns in Hrun
    as (sel & rows & ts & tr & rs & _ & _ & Hsel & _ & _ & _ & ->).
  destruct (WorkoutGenerateRequest.duration_minutes request) as [dur|].
  2: { by rewrite select_exercises_no_duration in Hsel. }
  destruct (select_exercises_spec
              (exercise_query (WorkoutGenerateRequest.equipment request) st) dur g)
    as (sel' & Hsel' & _ & Hcov & _).
  rewrite Hsel in Hsel'. inversion Hsel'; subst sel'.
  apply (muscle_of_major ex muscle Hm) in Hmus.
  destruct (Hcov muscle Hm) as (ex' & Hex' & Hmus').
  { rewrite <- Hmus. by apply group_by_muscle_present. }
  exists (exercise_detail ts tr rs ex'). split.
  - simpl. by apply list_elem_of_fmap_2.
  - simpl. by apply (muscle_of_major ex' muscle Hm).
Qed.

(** X4 at a strength request with a barbell. *)
Lemma generate_covers_major_groups_witness :
  ∃ st' r,
    run (generate_workout (generate_request 1 "Strength" (Some 45)) draws 50) gym
      = (st', Return r)
    ∧ ∀ muscle ex,
        muscle ∈ major_groups →
        ex ∈ exercise_query (Some ["Barbell"%string]) gym →
        Exercise.primary_muscle ex = Some muscle →
        ∃ d, d ∈ WorkoutGenerateResponse.exercises r
             ∧ ExerciseDetail.primary_muscle d = Some muscle.
Proof.
  eexists _, _. split; [by vm_compute|].
  eapply (generate_covers_major_groups gym
            (generate_request 1 "Strength" (Some 45)) draws 50).
  by vm_compute.
Defined.

(** X5. A successful [generate_workout] commits exactly one new [Workout], with
    the answered id and goal and the requesting user, and after it one
    [WorkoutExercise] row per answered exercise, in the order of the answer
    and carrying its exercise id and prescription. *)
Theorem generate_persists st request g new_workout_id st' r :
  run (generate_workout request g new_workout_id) st = (st', Return r) →
  ∃ rows,
    st' = with_workout_exercises
            (with_workout st
               (Workout.mk (WorkoutGenerateResponse.workout_id r)
                  (Some (WorkoutGenerateRequest.user_id request))
                  (Some (WorkoutGenerateResponse.goal r))))
            rows
    ∧ Forall2 (prescribed_row (WorkoutGenerateResponse.workout_id r))
              (WorkoutGenerateResponse.exercises r) rows.
Proof.
  rewrite run_eq.
  destruct (generate_workout request g new_workout_id (mkSession st st))
    as [s3 o] eqn:Hh.
  simpl. intros Hrun. inversion Hrun; subst. clear Hrun. revert Hh.
  unfold generate_workout.
  rewrite handler_bind_eq. unfold query at 1.
  change (working (mkSession st st)) with st.
  destruct (find_user (WorkoutGenerateRequest.user_id request) st);
    [|by (unfold raise; inversion 1)].
  case_bool_decide; [by (unfold raise; inversion 1)|].
  rewrite handler_bind_eq. unfold query at 1.
  change (working (mkSession st st)) with st.
  destruct (exercise_query _ st) as [|ex0 exs]; [by (unfold raise; inversion 1)|].
  destruct (prescription _) as [[ts tr] rs] eqn:Hp.
  destruct (prescription_fits _ _ _ _ Hp) as (Hts & Htr & Hrs).
  rewrite handler_bind_eq. unfold lift at 1.
  destruct (select_exercises _ _ g) as [selected|e]; [|by inversion 1].
  rewrite handler_bind_eq. unfold db_add_workout, update at 1. cbv beta iota.
  rewrite handler_bind_eq. simpl Workout.id.
  match goal with
  | |- context [for_each (add_selected ?w ?a ?b ?c) ?xs ?s1] =>
      destruct (for_each_add_selected_rows w a b c xs s1 Hts Htr Hrs)
        as (rows & -> & Hrows)
  end.
  rewrite handler_bind_eq. unfold db_commit at 1. cbv beta iota.
  unfold mret, handler_ret. intros Hrun. inversion Hrun; subst. simpl.
  by exists rows.
Qed.

(** X5 at a strength request with a barbell. *)
Lemma generate_persists_witness :
  ∃ st' r,
    run (generate_workout (generate_request 1 "Strength" (Some 45)) draws 50) gym
      = (st', Return r)
    ∧ ∃ rows,
        st' = with_workout_exercises
                (with_workout gym
                   (Workout.mk (WorkoutGenerateResponse.workout_id r)
                      (Some 1) (Some (WorkoutGenerateResponse.goal r))))
                rows
        ∧ Forall2 (prescribed_row (WorkoutGenerateResponse.workout_id r))
                  (WorkoutGenerateResponse.exercises r) rows.
Proof.
  eexists _, _. split; [by vm_compute|].
  eapply (generate_persists gym
            (generate_request 1 "Strength" (Some 45)) draws 50).
  by vm_compute.
Defined.

(** ** create_custom_workout: what passes the count check, and what follows *)

Lemma remove_dups_NoDup_length {A} `{EqDecision A} (l : list A) :
  NoDup l → length (remove_dups l) = length l.
Proof.
  induction 1 as [|x l Hx Hl IH]; simpl; [done|].
  destruct (decide_rel elem_of x l); [done|]. simpl. by rewrite IH.
Qed.

Lemma dict_get_Some field k : dict_get field = Some k → field = Some (Some k).
Proof. destruct field as [[v|]|]; simpl; congruence. Qed.

(** The count check of [create_custom_workout] passes exactly for lists of
    pairwise different ids that all resolve. *)
Lemma resolved_all exercise_ids st :
  primary_keys st →
  length (resolved exercise_ids st) = length exercise_ids →
  NoDup exercise_ids
  ∧ ∀ k, k ∈ exercise_ids →
      ∃ ex, ex ∈ resolved exercise_ids st ∧ k = Some (Exercise.id ex).
Proof.
  intros Hpk Hlen.
  pose proof (resolved_length_le exercise_ids st Hpk) as Hle.
  pose proof (remove_dups_length_le exercise_ids) as Hle'.
  assert (NoDup exercise_ids) as Hnd.
  { destruct (decide (NoDup exercise_ids)) as [|Hdup]; [done|].
    pose proof (remove_dups_length_lt _ Hdup). lia. }
  split; [done|].
  assert ((fun ex => Some (Exercise.id ex)) <$> resolved exercise_ids st
          ≡ₚ exercise_ids) as Hperm.
  { apply submseteq_length_Permutation; [|rewrite length_fmap; lia].
    apply NoDup_submseteq.
    - rewrite (list_fmap_compose Exercise.id Some). apply (NoDup_fmap_2 Some).
      destruct Hpk as [Hpk _]. eapply submseteq_NoDup; [|exact Hpk].
      apply fmap_submseteq, sublist_submseteq, sublist_filter.
    - intros k Hk. apply list_elem_of_fmap in Hk as (ex & -> & Hex).
      by apply list_elem_of_filter in Hex as [Hex _]. }
  intros k Hk. rewrite <- Hperm in Hk.
  apply list_elem_of_fmap in Hk as (ex & -> & Hex). by exists ex.
Qed.

Lemma resolved_length_eq exercise_ids st :
  primary_keys st → NoDup exercise_ids →
  (∀ k, k ∈ exercise_ids → ∃ i, k = Some i ∧ is_Some (find_exercise i st)) →
  length (resolved exercise_ids st) = length exercise_ids.
Proof.
  intros Hpk Hnd Hall.
  pose proof (resolved_length_le exercise_ids st Hpk).
  pose proof (resolved_length_ge exercise_ids st Hall).
  pose proof (remove_dups_NoDup_length exercise_ids Hnd). lia.
Qed.

Lemma exercises_by_id_lookup exercises ex :
  NoDup (Exercise.id <$> exercises) → ex ∈ exercises →
  exercises_by_id exercises !! Exercise.id ex = Some ex.
Proof.
  unfold exercises_by_id.
  induction exercises as [|x exercises IH] using rev_ind; intros Hnd Hex.
  { by apply elem_of_nil in Hex. }
  rewrite foldl_snoc. rewrite fmap_app in Hnd.
  apply NoDup_app in Hnd as (Hnd & Hfresh & _).
  apply elem_of_app in Hex as [Hex|Hex].
  - rewrite lookup_insert_ne; [by apply IH|].
    intros Heq. apply (Hfresh (Exercise.id ex)).
    + by apply list_elem_of_fmap_2.
    + rewrite <- Heq. simpl. left.
  - apply list_elem_of_singleton in Hex as ->. apply lookup_insert_eq.
Qed.

Lemma resolve_exercise_resolved st exercise_ids spec :
  primary_keys st →
  length (resolved exercise_ids st) = length exercise_ids →
  dict_get (ExerciseSpec.exercise_id spec) ∈ exercise_ids →
  ∃ ex, ex ∈ exercises st
    ∧ ExerciseSpec.exercise_id spec = Some (Some (Exercise.id ex))
    ∧ resolve_exercise (exercises_by_id (resolved exercise_ids st)) spec = Return ex.
Proof.
  intros Hpk Hlen Hin.
  destruct (resolved_all exercise_ids st Hpk Hlen) as [_ Hall].
  destruct (Hall _ Hin) as (ex & Hex & Hk).
  apply dict_get_Some in Hk. exists ex. split_and!.
  - by apply list_elem_of_filter in Hex as [_ ?].
  - done.
  - unfold resolve_exercise. rewrite Hk. simpl.
    rewrite exercises_by_id_lookup; [done| |done].
    destruct Hpk as [Hpk _]. eapply submseteq_NoDup; [|exact Hpk].
    apply fmap_submseteq, sublist_submseteq, sublist_filter.
Qed.

Lemma add_custom_eq workout_id exercises_dict spec ex s :
  resolve_exercise exercises_dict spec = Return ex →
  add_custom workout_id exercises_dict spec s
  = if decide (storable spec)
    then
      (mkSession (committed s)
         (with_workout_exercises (working s)
            [WorkoutExercise.mk
               (next_id (WorkoutExercise.id <$> workout_exercises (working s)))
               (Some workout_id) (dict_get (ExerciseSpec.exercise_id spec))
               (dict_get_default (ExerciseSpec.target_sets spec) 3)
               (dict_get_default (ExerciseSpec.target_reps spec) 10)
               (Some (default 90
                        (dict_get_default (ExerciseSpec.rest_seconds spec) 90)))]),
       Return (ExerciseDetail.mk (Exercise.id ex) (Exercise.name ex)
                 (Exercise.primary_muscle ex)
                 (dict_get_default (ExerciseSpec.target_sets spec) 3)
                 (dict_get_default (ExerciseSpec.target_reps spec) 10)
                 (dict_get_default (ExerciseSpec.rest_seconds spec) 90)))
    else (s, Raise DataError).
Proof.
  intros Hres. unfold add_custom.
  rewrite handler_bind_eq. unfold lift at 1. rewrite Hres.
  rewrite handler_bind_eq. unfold db_add_workout_exercise, storable. cbv zeta.
  destruct (decide _) as [Hfits|Hfits].
  - apply Is_true_true in Hfits. by rewrite Hfits.
  - apply Is_true_false in Hfits. by rewrite Hfits.
Qed.

(** The loop of [create_custom_workout] over items that all resolve: it
    adds one row per item when every prescription fits its columns, and is
    refused otherwise, with nothing committed. *)
Lemma for_each_add_custom_resolved st workout_id exercises_dict specs s :
  Forall (fun spec =>
            ∃ ex, ex ∈ exercises st
              ∧ ExerciseSpec.exercise_id spec = Some (Some (Exercise.id ex))
              ∧ resolve_exercise exercises_dict spec = Return ex) specs →
  match for_each (add_custom workout_id exercises_dict) specs s with
  | (s', Return details) =>
      (∃ rows,
         s' = mkSession (committed s) (with_workout_exercises (working s) rows)
         ∧ Forall2 (custom_row workout_id) details rows)
      ∧ Forall2 (requested_detail st) specs details
      ∧ Forall storable specs
  | (s', Raise e) =>
      e = DataError ∧ committed s' = committed s ∧ ¬ Forall storable specs
  end.
Proof.
  intros Hall. revert s.
  induction Hall as [|spec specs (ex & Hex & Hid & Hres) _ IH]; intros s.
  - simpl. split_and!; [|constructor..]. exists [].
    rewrite with_workout_exercises_nil. split; [by destruct s|constructor].
  - rewrite for_each_cons, (add_custom_eq _ _ _ ex) by done.
    destruct (decide (storable spec)) as [Hfits|Hfits].
    2: { split_and!; [done|done|]. intros Hall.
         by apply Forall_cons in Hall as [? _]. }
    set (row := WorkoutExercise.mk _ _ _ _ _ _). set (s1 := mkSession _ _).
    specialize (IH s1).
    destruct (for_each (add_custom workout_id exercises_dict) specs s1)
      as [s2 [details|e]] eqn:Hloop; try rewrite Hloop.
    + destruct IH as ((rows & -> & Hrows) & Hdetails & Hstorable). split_and!.
      * exists (row :: rows). split.
        -- unfold s1. simpl. by rewrite with_workout_exercises_app.
        -- constructor; [|done]. unfold custom_row, row. simpl.
           rewrite Hid. by split_and!.
      * constructor; [|done]. exists ex. by split_and!.
      * by constructor.
    + destruct IH as (-> & Hc & Hno). split_and!; [done|done|].
      intros Hall. apply Forall_cons in Hall as [_ Hall]. by apply Hno.
Qed.

(** [create_custom_workout] once its three checks have passed. *)
Lemma create_custom_checked st request new_workout_id u :
  primary_keys st →
  find_user (CustomWorkoutRequest.user_id request) st = Some u →
  CustomWorkoutRequest.exercises request ≠ [] →
  length (resolved (requested_ids request) st) = length (requested_ids request) →
  if decide (Forall storable (CustomWorkoutRequest.exercises request))
  then
    ∃ rows details,
      Forall2 (requested_detail st) (CustomWorkoutRequest.exercises request) details
      ∧ Forall2 (custom_row new_workout_id) details rows
      ∧ let st' :=
          with_workout_exercises
            (with_workout st
               (Workout.mk new_workout_id
                  (Some (CustomWorkoutRequest.user_id request))
                  (Some (CustomWorkoutRequest.goal request)))) rows in
        create_custom_workout request new_workout_id (mkSession st st)
        = (mkSession st' st',
           match sum_duration_terms details with
           | Return total =>
               Return (WorkoutGenerateResponse.mk new_workout_id
                         (CustomWorkoutRequest.goal request) details (total / 60))
           | Raise e => Raise e
           end)
  else
    ∃ s', create_custom_workout request new_workout_id (mkSession st st)
          = (s', Raise DataError)
          ∧ committed s' = st.
Proof.
  intros Hpk Hu Hne Hlen.
  assert (Forall (fun spec =>
            ∃ ex, ex ∈ exercises st
              ∧ ExerciseSpec.exercise_id spec = Some (Some (Exercise.id ex))
              ∧ resolve_exercise
                  (exercises_by_id (resolved (requested_ids request) st)) spec
                = Return ex) (CustomWorkoutRequest.exercises request)) as Hall.
  { apply Forall_forall. intros spec Hspec.
    apply resolve_exercise_resolved; [done|done|].
    unfold requested_ids. apply list_elem_of_fmap. by exists spec. }
  set (w := Workout.mk new_workout_id
              (Some (CustomWorkoutRequest.user_id request))
              (Some (CustomWorkoutRequest.goal request))).
  pose proof (for_each_add_custom_resolved st new_workout_id _ _
                (mkSession st (with_workout st w)) Hall) as Hloop.
  assert (create_custom_workout request new_workout_id (mkSession st st)
          = match for_each (add_custom new_workout_id
                              (exercises_by_id (resolved (requested_ids request) st)))
                    (CustomWorkoutRequest.exercises request)
                    (mkSession st (with_workout st w)) with
            | (s2, Return details) =>
                (mkSession (working s2) (working s2),
                 match sum_duration_terms details with
                 | Return total =>
                     Return (WorkoutGenerateResponse.mk new_workout_id
                               (CustomWorkoutRequest.goal request) details
                               (total / 60))
                 | Raise e => Raise e
                 end)
            | (s2, Raise e) => (s2, Raise e)
            end) as ->.
  { unfold create_custom_workout.
    rewrite handler_bind_eq. unfold query at 1.
    change (working (mkSession st st)) with st. rewrite Hu.
    destruct (CustomWorkoutRequest.exercises request) as [|e0 es] eqn:He; [done|].
    rewrite <- He in *. rewrite handler_bind_eq. unfold query at 1.
    change (working (mkSession st st)) with st.
    fold (requested_ids request). fold (resolved (requested_ids request) st).
    rewrite bool_decide_false by (intros Hneq; by apply Hneq).
    rewrite handler_bind_eq. unfold db_add_workout, update at 1. cbv beta iota.
    rewrite handler_bind_eq. simpl Workout.id.
    change (committed (mkSession st st)) with st.
    change (working (mkSession st st)) with st.
    fold w.
    destruct (for_each _ _ (mkSession st (with_workout st w)))
      as [s2 [details|e]]; [|done].
    rewrite handler_bind_eq. unfold db_commit at 1. cbv beta iota.
    rewrite handler_bind_eq. unfold lift at 1.
    by destruct (sum_duration_terms details). }
  destruct (for_each _ _ (mkSession st (with_workout st w)))
    as [s2 [details|e]].
  - destruct Hloop as ((rows & -> & Hrows) & Hdetails & Hstorable).
    rewrite decide_True by done. by exists rows, details.
  - destruct Hloop as (-> & Hc & Hno). rewrite decide_False by done.
    by eexists.
Qed.

Lemma create_custom_no_user request new_workout_id s :
  find_user (CustomWorkoutRequest.user_id request) (working s) = None →
  create_custom_workout request new_workout_id s = (s, Raise NotFound).
Proof.
  intros Hu. unfold create_custom_workout.
  rewrite handler_bind_eq. unfold query at 1. by rewrite Hu.
Qed.

Lemma create_custom_no_exercises request new_workout_id s u :
  find_user (CustomWorkoutRequest.user_id request) (working s) = Some u →
  CustomWorkoutRequest.exercises request = [] →
  create_custom_workout request new_workout_id s = (s, Raise InvalidArgument).
Proof.
  intros Hu He. unfold create_custom_workout.
  rewrite handler_bind_eq. unfold query at 1. by rewrite Hu, He.
Qed.

Lemma dict_get_default_given field d :
  field ≠ Some None → dict_get_default field d = Some (field_or field d).
Proof. by destruct field as [[v|]|]. Qed.

Lemma duration_term_given st spec d :
  requested_detail st spec d → prescription_given spec →
  duration_term d
  = Return (field_or (ExerciseSpec.target_sets spec) 3
            * (field_or (ExerciseSpec.target_reps spec) 10 * 3
               + field_or (ExerciseSpec.rest_seconds spec) 90)).
Proof.
  intros (ex & _ & _ & ->) (Hs & Hr & Ht). unfold duration_term. simpl.
  by rewrite !dict_get_default_given.
Qed.

Lemma duration_term_null st spec d :
  requested_detail st spec d → ¬ prescription_given spec →
  duration_term d = Raise TypeError.
Proof.
  intros (ex & _ & _ & ->) Hnull. unfold duration_term, prescription_given in *.
  destruct spec as [i ts tr rs]. simpl in *.
  destruct ts as [[ts|]|], tr as [[tr|]|], rs as [[rs|]|]; simpl; try done;
    exfalso; apply Hnull; by split_and!.
Qed.

Lemma sum_duration_terms_given st specs details :
  Forall2 (requested_detail st) specs details →
  Forall prescription_given specs →
  sum_duration_terms details
  = Return (sum_Z ((fun spec =>
                      field_or (ExerciseSpec.target_sets spec) 3
                      * (field_or (ExerciseSpec.target_reps spec) 10 * 3
                         + field_or (ExerciseSpec.rest_seconds spec) 90))
                   <$> specs)).
Proof.
  induction 1 as [|spec d specs details Hd _ IH]; intros Hgiven; [done|].
  apply Forall_cons in Hgiven as [Hspec Hgiven].
  simpl sum_duration_terms. rewrite (duration_term_given st spec d Hd Hspec).
  rewrite (IH Hgiven). rewrite fmap_cons, sum_Z_cons. done.
Qed.

Lemma sum_duration_terms_null st specs details :
  Forall2 (requested_detail st) specs details →
  ¬ Forall prescription_given specs →
  sum_duration_terms details = Raise TypeError.
Proof.
  induction 1 as [|spec d specs details Hd _ IH]; intros Hnull.
  { destruct Hnull. constructor. }
  simpl sum_duration_terms.
  destruct (prescription_given_dec spec) as [Hspec|Hspec].
  - rewrite (duration_term_given st spec d Hd Hspec). simpl.
    rewrite IH; [done|]. intros Hall. apply Hnull. by constructor.
  - by rewrite (duration_term_null st spec d Hd Hspec).
Qed.

(** When no prescription key is null, the stored row carries exactly the
    prescription answered. *)
Lemma custom_rows_prescribed st workout_id specs details rows :
  Forall2 (requested_detail st) specs details →
  Forall prescription_given specs →
  Forall2 (custom_row workout_id) details rows →
  Forall2 (prescribed_row workout_id) details rows.
Proof.
  intros Hdetails Hgiven Hrows.
  apply Forall2_same_length_lookup. split; [by eapply Forall2_length|].
  intros i d row Hd Hrow.
  destruct (Forall2_lookup_r _ _ _ _ _ Hdetails Hd) as (spec & Hspec & Hreq).
  pose proof (proj1 (Forall_lookup _ _) Hgiven i spec Hspec) as (_ & _ & Hrest).
  pose proof (Forall2_lookup_lr _ _ _ _ _ _ Hrows Hd Hrow) as (? & ? & ? & ? & Hr).
  destruct Hreq as (ex & _ & _ & ->). simpl in *.
  split_and!; try done.
  rewrite Hr. by rewrite (dict_get_default_given _ _ Hrest).
Qed.

(** X6. A custom workout that names an exercise id no catalog row has (a
    missing or null id included) is refused with 404 and nothing is written. *)
Theorem create_custom_unknown_exercise st request new_workout_id :
  primary_keys st →
  (∃ spec, spec ∈ CustomWorkoutRequest.exercises request
           ∧ ∀ ex, ex ∈ exercises st →
                   dict_get (ExerciseSpec.exercise_id spec) ≠ Some (Exercise.id ex)) →
  create_custom_workout request new_workout_id (mkSession st st)
    = (mkSession st st, Raise NotFound)
  ∧ run (create_custom_workout request new_workout_id) st = (st, Raise NotFound).
Proof.
  intros Hpk (spec & Hspec & Hunknown).
  assert (create_custom_workout request new_workout_id (mkSession st st)
          = (mkSession st st, Raise NotFound)) as Heq.
  { apply create_custom_count_mismatch. simpl. intros Hlen.
    destruct (resolved_all _ st Hpk Hlen) as [_ Hall].
    destruct (Hall (dict_get (ExerciseSpec.exercise_id spec))) as (ex & Hex & Hk).
    { unfold requested_ids. apply list_elem_of_fmap. by exists spec. }
    apply list_elem_of_filter in Hex as [_ Hex]. by apply (Hunknown ex). }
  split; [done|]. by rewrite run_eq, Heq.
Qed.

(** X6 at a request for the bench press and an exercise 99. *)
Lemma create_custom_unknown_exercise_witness :
  create_custom_workout (custom_request "general" [1; 99]) 50 (mkSession gym gym)
    = (mkSession gym gym, Raise NotFound)
  ∧ run (create_custom_workout (custom_request "general" [1; 99]) 50) gym
    = (gym, Raise NotFound).
Proof.
  apply (create_custom_unknown_exercise gym (custom_request "general" [1; 99]) 50
           gym_primary_keys).
  exists (custom_item 99). split.
  - simpl. rewrite !elem_of_cons. by right; left.
  - apply Forall_forall. by apply (bool_decide_unpack _).
Defined.

(** X7. A custom workout of a known user whose items name pairwise different
    catalog exercises, none with a null prescription key and each with a
    prescription that fits the 32-bit columns, is created: the goal is
    stored as sent, the answer lists the items in request order with the
    defaults 3, 10 and 90 for absent keys, one row is stored per item, and
    [estimated_duration] is the sum of
    [target_sets * (target_reps * 3 + rest_seconds)] over the items, [// 60]. *)
Theorem create_custom_succeeds st request new_workout_id :
  primary_keys st →
  is_Some (find_user (CustomWorkoutRequest.user_id request) st) →
  CustomWorkoutRequest.exercises request ≠ [] →
  NoDup (requested_ids request) →
  (∀ spec, spec ∈ CustomWorkoutRequest.exercises request →
           ∃ i, ExerciseSpec.exercise_id spec = Some (Some i)
                ∧ is_Some (find_exercise i st)) →
  Forall prescription_given (CustomWorkoutRequest.exercises request) →
  Forall storable (CustomWorkoutRequest.exercises request) →
  ∃ rows r,
    run (create_custom_workout request new_workout_id) st
    = (with_workout_exercises
         (with_workout st
            (Workout.mk new_workout_id
               (Some (CustomWorkoutRequest.user_id request))
               (Some (CustomWorkoutRequest.goal request)))) rows,
       Return r)
    ∧ WorkoutGenerateResponse.workout_id r = new_workout_id
    ∧ WorkoutGenerateResponse.goal r = CustomWorkoutRequest.goal request
    ∧ Forall2 (requested_detail st) (CustomWorkoutRequest.exercises request)
              (WorkoutGenerateResponse.exercises r)
    ∧ Forall2 (prescribed_row new_workout_id)
              (WorkoutGenerateResponse.exercises r) rows
    ∧ WorkoutGenerateResponse.estimated_duration r
      = sum_Z ((fun spec =>
                  field_or (ExerciseSpec.target_sets spec) 3
                  * (field_or (ExerciseSpec.target_reps spec) 10 * 3
                     + field_or (ExerciseSpec.rest_seconds spec) 90))
               <$> CustomWorkoutRequest.exercises request) / 60.
Proof.
  intros Hpk [u Hu] Hne Hnd Hall Hgiven Hfits.
  assert (length (resolved (requested_ids request) st)
          = length (requested_ids request)) as Hlen.
  { apply resolved_length_eq; [done|done|]. intros k Hk.
    apply list_elem_of_fmap in Hk as (spec & -> & Hspec).
    destruct (Hall spec Hspec) as (i & Hi & Hfound). exists i. by rewrite Hi. }
  pose proof (create_custom_checked st request new_workout_id u Hpk Hu Hne Hlen)
    as Hrun.
  rewrite decide_True in Hrun by done.
  destruct Hrun as (rows & details & Hdetails & Hrows & Hrun). cbv zeta in Hrun.
  rewrite (sum_duration_terms_given st _ _ Hdetails Hgiven) in Hrun.
  eexists rows, _. rewrite run_eq, Hrun. simpl. split_and!; try done.
  by eapply custom_rows_prescribed.
Qed.

(** X7 at a request whose goal is none of the generator's. *)
Lemma create_custom_succeeds_witness :
  ∃ rows r,
    run (create_custom_workout (custom_request "yoga" [1; 3]) 50) gym
    = (with_workout_exercises
         (with_workout gym (Workout.mk 50 (Some 1) (Some "yoga"%string))) rows,
       Return r)
    ∧ WorkoutGenerateResponse.workout_id r = 50
    ∧ WorkoutGenerateResponse.goal r = "yoga"%string
    ∧ Forall2 (requested_detail gym)
              (CustomWorkoutRequest.exercises (custom_request "yoga" [1; 3]))
              (WorkoutGenerateResponse.exercises r)
    ∧ Forall2 (prescribed_row 50) (WorkoutGenerateResponse.exercises r) rows
    ∧ WorkoutGenerateResponse.estimated_duration r
      = sum_Z ((fun spec =>
                  field_or (ExerciseSpec.target_sets spec) 3
                  * (field_or (ExerciseSpec.target_reps spec) 10 * 3
                     + field_or (ExerciseSpec.rest_seconds spec) 90))
               <$> CustomWorkoutRequest.exercises (custom_request "yoga" [1; 3]))
        / 60.
Proof.
  apply (create_custom_succeeds gym (custom_request "yoga" [1; 3]) 50
           gym_primary_keys).
  - by eexists.
  - done.
  - by apply (bool_decide_unpack _).
  - intros spec Hspec. simpl in Hspec.
    repeat (apply elem_of_cons in Hspec as [->|Hspec]);
      [exists 1|exists 3|by apply elem_of_nil in Hspec];
      (split; [done|by eexists]).
  - by apply (bool_decide_unpack _).
  - by apply (bool_decide_unpack _).
Defined.

(** X8. [create_custom_workout] fails in three ways only. With 404 or 400,
    and then nothing is written. With a [DataError], when the prescription
    of an item does not fit the 32-bit columns: the commit is refused and
    nothing is written. Or with a [TypeError], which needs an item with a
    null prescription key and is raised after the commit, so that the
    workout and one row per item are stored. *)
Theorem create_custom_failures st request new_workout_id st' e :
  primary_keys st →
  run (create_custom_workout request new_workout_id) st = (st', Raise e) →
  ((e = NotFound ∨ e = InvalidArgument) ∧ st' = st)
  ∨ (e = DataError ∧ st' = st
     ∧ ¬ Forall storable (CustomWorkoutRequest.exercises request))
  ∨ (e = TypeError
     ∧ Forall storable (CustomWorkoutRequest.exercises request)
     ∧ ¬ Forall prescription_given (CustomWorkoutRequest.exercises request)
     ∧ ∃ rows,
         length rows = length (CustomWorkoutRequest.exercises request)
         ∧ st' = with_workout_exercises
                   (with_workout st
                      (Workout.mk new_workout_id
                         (Some (CustomWorkoutRequest.user_id request))
                         (Some (CustomWorkoutRequest.goal request)))) rows).
Proof.
  intros Hpk. rewrite run_eq.
  destruct (find_user (CustomWorkoutRequest.user_id request) st) as [u|] eqn:Hu.
  2: { rewrite create_custom_no_user by done. simpl. intros [= <- <-]. left. tauto. }
  destruct (decide (CustomWorkoutRequest.exercises request = [])) as [He|He].
  { rewrite (create_custom_no_exercises _ _ _ u) by done. simpl.
    intros [= <- <-]. left. tauto. }
  destruct (decide (length (resolved (requested_ids request) st)
                    = length (requested_ids request))) as [Hlen|Hlen].
  2: { rewrite create_custom_count_mismatch by done. simpl.
       intros [= <- <-]. left. tauto. }
  pose proof (create_custom_checked st request new_workout_id u Hpk Hu He Hlen)
    as Hrun.
  destruct (decide (Forall storable (CustomWorkoutRequest.exercises request)))
    as [Hfits|Hfits].
  2: { destruct Hrun as (s' & -> & Hc). simpl. intros [= <- <-].
       right. left. by split_and!. }
  destruct Hrun as (rows & details & Hdetails & Hrows & Hrun). cbv zeta in Hrun.
  rewrite Hrun. simpl.
  destruct (decide (Forall prescription_given
                      (CustomWorkoutRequest.exercises request))) as [Hgiven|Hnull].
  { by rewrite (sum_duration_terms_given st _ _ Hdetails Hgiven). }
  rewrite (sum_duration_terms_null st _ _ Hdetails Hnull).
  intros [= <- <-]. right. right. split_and!; [done|done|done|].
  exists rows. split; [|done].
  apply Forall2_length in Hdetails, Hrows. lia.
Qed.

(** X8 at a request for 2147483648 sets. *)
Lemma create_custom_failures_witness :
  run (create_custom_workout oversized_request 50) gym = (gym, Raise DataError)
  ∧ (((DataError = NotFound ∨ DataError = InvalidArgument) ∧ gym = gym)
     ∨ (DataError = DataError ∧ gym = gym
        ∧ ¬ Forall storable (CustomWorkoutRequest.exercises oversized_request))
     ∨ (DataError = TypeError
        ∧ Forall storable (CustomWorkoutRequest.exercises oversized_request)
        ∧ ¬ Forall prescription_given
              (CustomWorkoutRequest.exercises oversized_request)
        ∧ ∃ rows,
            length rows = length (CustomWorkoutRequest.exercises oversized_request)
            ∧ gym = with_workout_exercises
                      (with_workout gym
                         (Workout.mk 50 (Some 1) (Some "general"%string))) rows)).
Proof.
  split; [by vm_compute|].
  eapply (create_custom_failures gym oversized_request 50 _ DataError
            gym_primary_keys).
  by vm_compute.
Defined.

(** X9. When the user and all exercises of a custom workout are known and
    every integer sent fits its column, but an item sends a null
    [target_sets], [target_reps] or [rest_seconds], the call ends with a
    [TypeError] and still stores the workout and one row per item: the
    duration is computed after [db.commit()]. *)
Theorem create_custom_null_prescription st request new_workout_id :
  primary_keys st →
  is_Some (find_user (CustomWorkoutRequest.user_id request) st) →
  NoDup (requested_ids request) →
  (∀ spec, spec ∈ CustomWorkoutRequest.exercises request →
           ∃ i, ExerciseSpec.exercise_id spec = Some (Some i)
                ∧ is_Some (find_exercise i st)) →
  Forall storable (CustomWorkoutRequest.exercises request) →
  (∃ spec, spec ∈ CustomWorkoutRequest.exercises request
           ∧ ¬ prescription_given spec) →
  ∃ st',
    run (create_custom_workout request new_workout_id) st = (st', Raise TypeError)
    ∧ workouts st'
      = workouts st
        ++ [Workout.mk new_workout_id
              (Some (CustomWorkoutRequest.user_id request))
              (Some (CustomWorkoutRequest.goal request))]
    ∧ length (workout_exercises st')
      = (length (workout_exercises st)
         + length (CustomWorkoutRequest.exercises request))%nat.
Proof.
  intros Hpk [u Hu] Hnd Hall Hfits (spec0 & Hspec0 & Hnull0).
  assert (CustomWorkoutRequest.exercises request ≠ []) as Hne.
  { intros He. rewrite He in Hspec0. by apply elem_of_nil in Hspec0. }
  assert (length (resolved (requested_ids request) st)
          = length (requested_ids request)) as Hlen.
  { apply resolved_length_eq; [done|done|]. intros k Hk.
    apply list_elem_of_fmap in Hk as (spec & -> & Hspec).
    destruct (Hall spec Hspec) as (i & Hi & Hfound). exists i. by rewrite Hi. }
  pose proof (create_custom_checked st request new_workout_id u Hpk Hu Hne Hlen)
    as Hrun.
  rewrite decide_True in Hrun by done.
  destruct Hrun as (rows & details & Hdetails & Hrows & Hrun). cbv zeta in Hrun.
  rewrite (sum_duration_terms_null st _ _ Hdetails) in Hrun.
  2: { intros Hgiven. apply Hnull0.
       by apply (proj1 (Forall_forall _ _) Hgiven spec0). }
  eexists. rewrite run_eq, Hrun. simpl. split_and!; [done|done|].
  unfold with_workout_exercises. simpl. rewrite length_app.
  apply Forall2_length in Hdetails, Hrows. lia.
Qed.

(** X9 at a request with a null [target_sets]. *)
Lemma create_custom_null_prescription_witness :
  ∃ st',
    run (create_custom_workout null_request 50) gym = (st', Raise TypeError)
    ∧ workouts st'
      = workouts gym ++ [Workout.mk 50 (Some 1) (Some "general"%string)]
    ∧ length (workout_exercises st')
      = (length (workout_exercises gym)
         + length (CustomWorkoutRequest.exercises null_request))%nat.
Proof.
  apply (create_custom_null_prescription gym null_request 50 gym_primary_keys).
  - by eexists.
  - by apply (bool_decide_unpack _).
  - intros spec Hspec. simpl in Hspec.
    repeat (apply elem_of_cons in Hspec as [->|Hspec]);
      [exists 1|exists 3|by apply elem_of_nil in Hspec];
      (split; [done|by eexists]).
  - by apply (bool_decide_unpack _).
  - eexists. split; [left|]. by apply (bool_decide_unpack _).
Defined.

(** ** Sorted results *)

Lemma insert_desc_sorted {A} (key : A → Z) x l :
  StronglySorted (fun a b => key b <= key a) l →
  StronglySorted (fun a b => key b <= key a) (insert_desc key x l).
Proof.
  induction 1 as [|y l Hl IH Hy]; simpl.
  { repeat constructor. }
  destruct (key x <? key y) eqn:Hlt.
  - apply Z.ltb_lt in Hlt. constructor; [done|].
    rewrite insert_desc_perm. constructor; [lia|done].
  - apply Z.ltb_ge in Hlt. constructor; [by constructor|].
    constructor; [done|]. eapply Forall_impl; [exact Hy|]. simpl. lia.
Qed.

Lemma sort_desc_sorted {A} (key : A → Z) l :
  StronglySorted (fun a b => key b <= key a) (sort_desc key l).
Proof.
  induction l as [|x l IH]; simpl; [constructor|]. by apply insert_desc_sorted.
Qed.



(** A row performed after all the others sorts first. *)
Lemma sort_desc_snoc_latest {A} (key : A → Z) l x :
  (∀ y, y ∈ l → key y < key x) →
  sort_desc key (l ++ [x]) = x :: sort_desc key l.
Proof.
  induction l as [|a l IH]; intros Hlt; [done|].
  simpl. rewrite IH.
  - simpl. assert (key a < key x) as Ha by (apply Hlt; left).
    by rewrite (proj2 (Z.ltb_lt _ _) Ha).
  - intros y Hy. apply Hlt. by right.
Qed.

(** ** log_workout *)

Lemma log_workout_eq workout_id duration_minutes new_log_id now s :
  log_workout workout_id duration_minutes new_log_id now s
  = if duration_minutes <? 1 then (s, Raise RequestValidationError)
    else
      match find_workout workout_id (working s) with
      | None => (s, Raise NotFound)
      | Some _ =>
          if int4 duration_minutes
          then
            let l := WorkoutLog.mk new_log_id (Some workout_id) now duration_minutes in
            let st' := with_workout_log (working s) l in
            (mkSession st' st',
             Return (WorkoutLogDetailResponse.mk new_log_id (Some workout_id) now
                       duration_minutes []))
          else (s, Raise DataError)
      end.
Proof.
  unfold log_workout. destruct (duration_minutes <? 1) eqn:Hd; [done|].
  rewrite handler_bind_eq. unfold query at 1.
  destruct (find_workout workout_id (working s)); [|done].
  rewrite handler_bind_eq. unfold db_add_workout_log. simpl.
  by destruct (int4 duration_minutes).
Qed.

Lemma int4_spec z : int4 z = true ↔ -2147483648 <= z <= 2147483647.
Proof. unfold int4. rewrite andb_true_iff, !Z.leb_le. done. Qed.

Lemma log_workout_succeeds st workout_id duration_minutes new_log_id now :
  is_Some (find_workout workout_id st) →
  1 <= duration_minutes <= 2147483647 →
  run (log_workout workout_id duration_minutes new_log_id now) st
  = (with_workout_log st
       (WorkoutLog.mk new_log_id (Some workout_id) now duration_minutes),
     Return (WorkoutLogDetailResponse.mk new_log_id (Some workout_id) now
               duration_minutes [])).
Proof.
  intros [w Hw] Hd. rewrite run_eq, log_workout_eq.
  change (working (mkSession st st)) with st. rewrite Hw.
  rewrite (proj2 (Z.ltb_ge _ _)) by lia.
  by rewrite (proj2 (int4_spec _)) by lia.
Qed.

(** X10. [log_workout] fails in three ways, and a failing call writes nothing:
    the request is refused before the handler is entered when the duration
    is below one minute (so the 400 the handler has for that case is never
    answered); 404 when the workout is unknown; and a [DataError] when the
    duration does not fit the 32-bit column. *)
Theorem log_workout_rejects st workout_id duration_minutes new_log_id now st' e :
  run (log_workout workout_id duration_minutes new_log_id now) st = (st', Raise e) →
  st' = st
  ∧ e ≠ InvalidArgument
  ∧ ((e = RequestValidationError ∧ duration_minutes < 1)
     ∨ (e = NotFound ∧ 1 <= duration_minutes ∧ find_workout workout_id st = None)
     ∨ (e = DataError ∧ is_Some (find_workout workout_id st)
        ∧ 2147483647 < duration_minutes)).
Proof.
  rewrite run_eq, log_workout_eq.
  change (working (mkSession st st)) with st.
  destruct (duration_minutes <? 1) eqn:Hd.
  { apply Z.ltb_lt in Hd. simpl. intros [= <- <-]. split_and!; [done|done|]. by left. }
  apply Z.ltb_ge in Hd.
  destruct (find_workout workout_id st) as [w|] eqn:Hw.
  - destruct (int4 duration_minutes) eqn:Hfits; simpl; [done|].
    intros [= <- <-]. split_and!; [done|done|]. right. right.
    split_and!; [done|by eexists|].
    destruct (decide (duration_minutes <= 2147483647)) as [Hle|]; [|lia].
    rewrite (proj2 (int4_spec _)) in Hfits by lia. done.
  - simpl. intros [= <- <-]. split_and!; [done|done|]. right. left. by split_and!.
Qed.

(** X10 at a session of 2147483648 minutes. *)
Lemma log_workout_rejects_witness :
  run (log_workout 10 2147483648 22 today) gym = (gym, Raise DataError)
  ∧ gym = gym
  ∧ DataError ≠ InvalidArgument
  ∧ ((DataError = RequestValidationError ∧ 2147483648 < 1)
     ∨ (DataError = NotFound ∧ 1 <= 2147483648 ∧ find_workout 10 gym = None)
     ∨ (DataError = DataError ∧ is_Some (find_workout 10 gym)
        ∧ 2147483647 < 2147483648)).
Proof.
  split; [by vm_compute|].
  apply (log_workout_rejects gym 10 2147483648 22 today). by vm_compute.
Defined.

(** ** log_exercise_sets, path by path *)

(** X12. A failing [log_exercise_sets] writes nothing. It fails with 404 when the
    workout, its link to the exercise, or the exercise is missing; otherwise
    with 400, when the batch is empty or the workout has no log yet;
    otherwise with a [DataError], when an item does not fit the columns. *)
Theorem log_exercise_sets_rejects st workout_id exercise_id sets st' e :
  run (log_exercise_sets workout_id exercise_id sets) st = (st', Raise e) →
  st' = st
  ∧ ((e = NotFound
      ∧ (find_workout workout_id st = None
         ∨ find_workout_exercise workout_id exercise_id st = None
         ∨ find_exercise exercise_id st = None))
     ∨ (e = InvalidArgument
        ∧ is_Some (find_workout workout_id st)
        ∧ is_Some (find_workout_exercise workout_id exercise_id st)
        ∧ is_Some (find_exercise exercise_id st)
        ∧ (sets = [] ∨ logs_of_workout workout_id st = []))
     ∨ (e = DataError
        ∧ is_Some (find_workout workout_id st)
        ∧ is_Some (find_workout_exercise workout_id exercise_id st)
        ∧ is_Some (find_exercise exercise_id st)
        ∧ sets ≠ [] ∧ logs_of_workout workout_id st ≠ []
        ∧ ¬ batch_fits sets)).
Proof.
  intros Hrun. pose proof Hrun as Hrun'. revert Hrun'.
  rewrite run_eq, log_exercise_sets_eq.
  change (working (mkSession st st)) with st.
  destruct (find_workout workout_id st) as [w|] eqn:Hw.
  2: { simpl. intros [= <- <-]. split; [done|]. left. tauto. }
  destruct (find_workout_exercise workout_id exercise_id st) as [we|] eqn:Hwe.
  2: { simpl. intros [= <- <-]. split; [done|]. left. tauto. }
  destruct (find_exercise exercise_id st) as [ex|] eqn:Hex.
  2: { simpl. intros [= <- <-]. split; [done|]. left. tauto. }
  destruct sets as [|x xs] eqn:Hsets.
  { simpl. intros [= <- <-]. split; [done|]. right. left. split_and!; eauto. }
  rewrite <- Hsets in *.
  destruct (logs_of_workout workout_id st) as [|l ls] eqn:Hlogs.
  { rewrite Hsets. simpl. intros [= <- <-]. split; [done|]. right. left.
    split_and!; eauto. }
  intros _.
  pose proof (log_exercise_sets_checked st workout_id exercise_id sets l) as Hchecked.
  rewrite Hrun in Hchecked.
  destruct Hchecked as (-> & -> & Hno);
    [by eexists|by eexists|by eexists|by rewrite Hsets|by rewrite Hlogs|].
  split; [done|]. right. right.
  split_and!; [done|by eexists|by eexists|by eexists|by rewrite Hsets|done|done].
Qed.

(** X12 at an exercise that is not part of the workout. *)
Lemma log_exercise_sets_rejects_witness :
  run (log_exercise_sets 10 3 batch) gym = (gym, Raise NotFound)
  ∧ gym = gym
  ∧ ((NotFound = NotFound
      ∧ (find_workout 10 gym = None
         ∨ find_workout_exercise 10 3 gym = None
         ∨ find_exercise 3 gym = None))
     ∨ (NotFound = InvalidArgument
        ∧ is_Some (find_workout 10 gym)
        ∧ is_Some (find_workout_exercise 10 3 gym)
        ∧ is_Some (find_exercise 3 gym)
        ∧ (batch = [] ∨ logs_of_workout 10 gym = []))
     ∨ (NotFound = DataError
        ∧ is_Some (find_workout 10 gym)
        ∧ is_Some (find_workout_exercise 10 3 gym)
        ∧ is_Some (find_exercise 3 gym)
        ∧ batch ≠ [] ∧ logs_of_workout 10 gym ≠ []
        ∧ ¬ batch_fits batch)).
Proof.
  split; [by vm_compute|].
  apply (log_exercise_sets_rejects gym 10 3 batch). by vm_compute.
Defined.

(** ** A logged session, then its sets *)

Lemma find_workout_with_workout_log workout_id st l :
  find_workout workout_id (with_workout_log st l) = find_workout workout_id st.
Proof. done. Qed.

Lemma logs_of_workout_with_workout_log workout_id st l :
  WorkoutLog.workout_id l = Some workout_id →
  (∀ l', l' ∈ workout_logs st → WorkoutLog.workout_id l' = Some workout_id →
         WorkoutLog.performed_at l' < WorkoutLog.performed_at l) →
  logs_of_workout workout_id (with_workout_log st l)
  = l :: logs_of_workout workout_id st.
Proof.
  intros Hl Hlatest. unfold logs_of_workout, with_workout_log. simpl.
  rewrite filter_app, filter_cons_True, filter_nil by done.
  apply sort_desc_snoc_latest. intros y Hy.
  apply list_elem_of_filter in Hy as [Hy Hin]. by apply Hlatest.
Qed.

(** X11. Logging a session and then sets: after [log_workout] has succeeded at a
    time later than every earlier log of the workout, [log_exercise_sets] for
    an exercise of that workout and a batch that fits the columns succeeds
    with one row per item, and every row belongs to the log just created. *)
Theorem log_workout_then_sets st workout_id duration_minutes new_log_id now
    exercise_id sets :
  is_Some (find_workout workout_id st) →
  1 <= duration_minutes <= 2147483647 →
  (∀ l, l ∈ workout_logs st → WorkoutLog.workout_id l = Some workout_id →
        WorkoutLog.performed_at l < now) →
  is_Some (find_workout_exercise workout_id exercise_id st) →
  is_Some (find_exercise exercise_id st) →
  sets ≠ [] →
  batch_fits sets →
  ∃ st1 response created,
    run (log_workout workout_id duration_minutes new_log_id now) st
      = (st1, Return response)
    ∧ run (log_exercise_sets workout_id exercise_id sets) st1
      = (with_exercise_sets st1 created, Return created)
    ∧ length created = length sets
    ∧ Forall (fun row =>
                ExerciseSet.workout_log_id row
                = Some (WorkoutLogDetailResponse.log_id response)) created.
Proof.
  intros Hw Hd Hlatest Hwe Hex Hne Hfits.
  set (l := WorkoutLog.mk new_log_id (Some workout_id) now duration_minutes).
  pose proof (log_workout_succeeds st workout_id duration_minutes new_log_id now
                Hw Hd) as Hrun.
  destruct (log_exercise_sets_succeeds (with_workout_log st l) workout_id
              exercise_id sets l) as (created & Hsets & Hrows).
  { by rewrite find_workout_with_workout_log. }
  { exact Hwe. }
  { exact Hex. }
  { exact Hne. }
  { by rewrite logs_of_workout_with_workout_log. }
  { exact Hfits. }
  eexists _, _, created. split_and!; [exact Hrun|exact Hsets| |].
  - apply Forall2_length in Hrows. by rewrite enumerate_length in Hrows.
  - apply Forall_forall. intros row Hrow.
    apply list_elem_of_lookup in Hrow as [i Hi].
    destruct (Forall2_lookup_r _ _ _ _ _ Hrows Hi) as (item & _ & Hlogged).
    by destruct Hlogged as (Hid & _).
Qed.

(** X11 at the gym's workout, logged today. *)
Lemma log_workout_then_sets_witness :
  ∃ st1 response created,
    run (log_workout 10 40 22 today) gym = (st1, Return response)
    ∧ run (log_exercise_sets 10 1 batch) st1
      = (with_exercise_sets st1 created, Return created)
    ∧ length created = length batch
    ∧ Forall (fun row =>
                ExerciseSet.workout_log_id row
                = Some (WorkoutLogDetailResponse.log_id response)) created.
Proof.
  apply (log_workout_then_sets gym 10 40 22 today 1 batch).
  - by eexists.
  - lia.
  - apply (proj1 (Forall_forall
                    (fun l => WorkoutLog.workout_id l = Some 10 →
                              WorkoutLog.performed_at l < today) (workout_logs gym))).
    by apply (bool_decide_unpack _).
  - by eexists.
  - by eexists.
  - done.
  - by apply (bool_decide_unpack _).
Defined.

Lemma for_each_log_detail logs s :
  for_each log_detail logs s = (s, Return (log_entry (working s) <$> logs)).
Proof.
  induction logs as [|l logs IH]; [done|].
  rewrite for_each_cons. unfold log_detail at 1.
  rewrite handler_bind_eq. unfold query at 1.
  unfold mret at 1, handler_ret at 1. cbv beta iota.
  by rewrite IH.
Qed.

Lemma get_workout_logs_eq workout_id s :
  get_workout_logs workout_id s
  = match find_workout workout_id (working s) with
    | None => (s, Raise NotFound)
    | Some _ =>
        (s, Return (log_entry (working s) <$> logs_of_workout workout_id (working s)))
    end.
Proof.
  unfold get_workout_logs. rewrite handler_bind_eq. unfold query at 1.
  destruct (find_workout workout_id (working s)); [|done].
  rewrite handler_bind_eq. unfold query at 1. by rewrite for_each_log_detail.
Qed.

(** X13. For a known workout [get_workout_logs] answers one entry per log of the
    workout, each log once, most recently performed first, and changes
    nothing. *)
Theorem get_workout_logs_lists st workout_id :
  is_Some (find_workout workout_id st) →
  ∃ result,
    run (get_workout_logs workout_id) st = (st, Return result)
    ∧ WorkoutLogDetailResponse.log_id <$> result
      ≡ₚ WorkoutLog.id <$> filter (fun l => WorkoutLog.workout_id l = Some workout_id)
                                  (workout_logs st)
    ∧ StronglySorted (fun a b => WorkoutLogDetailResponse.performed_at b
                                 <= WorkoutLogDetailResponse.performed_at a) result
    ∧ Forall (fun r => WorkoutLogDetailResponse.workout_id r = Some workout_id) result.
Proof.
  intros [w Hw]. eexists. split.
  { rewrite run_eq, get_workout_logs_eq.
    change (working (mkSession st st)) with st. by rewrite Hw. }
  split_and!.
  - rewrite <- list_fmap_compose. unfold logs_of_workout.
    change (WorkoutLogDetailResponse.log_id ∘ log_entry st) with WorkoutLog.id.
    by rewrite sort_desc_perm.
  - apply (StronglySorted_fmap _
             (fun a b => WorkoutLog.performed_at b <= WorkoutLog.performed_at a));
      [done|]. apply sort_desc_sorted.
  - apply Forall_fmap, Forall_forall. intros l Hl. simpl.
    unfold logs_of_workout in Hl. rewrite sort_desc_perm in Hl.
    by apply list_elem_of_filter in Hl as [Hl _].
Qed.

(** X13 at the gym's workout: the log of day 90 comes before that of day 60. *)
Lemma get_workout_logs_lists_witness :
  ∃ result,
    run (get_workout_logs 10) gym = (gym, Return result)
    ∧ WorkoutLogDetailResponse.log_id <$> result = [20; 21]
    ∧ WorkoutLogDetailResponse.log_id <$> result
      ≡ₚ WorkoutLog.id <$> filter (fun l => WorkoutLog.workout_id l = Some 10)
                                  (workout_logs gym)
    ∧ StronglySorted (fun a b => WorkoutLogDetailResponse.performed_at b
                                 <= WorkoutLogDetailResponse.performed_at a) result
    ∧ Forall (fun r => WorkoutLogDetailResponse.workout_id r = Some 10) result.
Proof.
  destruct (get_workout_logs_lists gym 10) as (result & Hrun & Hprops);
    [by eexists|].
  exists result. split; [exact Hrun|]. split; [|exact Hprops].
  assert (run (get_workout_logs 10) gym = (gym, Return (log_entry gym <$> logs_of_workout 10 gym)))
    as Hrun' by by vm_compute.
  rewrite Hrun in Hrun'. by inversion Hrun'.
Defined.

(** ** The join of a log's sets with their exercises *)

Lemma filter_none {A} (P : A → Prop) `{∀ y, Decision (P y)} (l : list A) :
  (∀ x, x ∈ l → ¬ P x) → filter P l = [].
Proof.
  induction l as [|a l IH]; intros Hl; [done|].
  rewrite filter_cons_False by (apply Hl; left).
  apply IH. intros x Hx. apply Hl. by right.
Qed.

Lemma join_exercise_found st s ex :
  NoDup (Exercise.id <$> exercises st) →
  ex ∈ exercises st →
  ExerciseSet.exercise_id s = Some (Exercise.id ex) →
  filter (fun e => ExerciseSet.exercise_id s = Some (Exercise.id e)) (exercises st)
  = [ex].
Proof.
  intros Hpk Hex Hs.
  apply (filter_unique_key Exercise.id); [|done|done].
  intros y. rewrite Hs. split; [by intros [= ->]|by intros ->].
Qed.

Lemma join_exercise_missing st s :
  ¬ joined st s →
  filter (fun e => ExerciseSet.exercise_id s = Some (Exercise.id e)) (exercises st)
  = [].
Proof.
  intros Hs. apply filter_none. intros e He Heq.
  apply Hs. unfold joined. rewrite Heq.
  by apply list_elem_of_fmap_2, list_elem_of_fmap_2.
Qed.

Lemma sets_of_log_sets log_id st :
  NoDup (Exercise.id <$> exercises st) →
  (sets_of_log log_id st).*1
  = filter (fun s => ExerciseSet.workout_log_id s = Some log_id ∧ joined st s)
           (exercise_sets st).
Proof.
  intros Hpk. unfold sets_of_log.
  induction (exercise_sets st) as [|s ss IH]; [done|].
  change ((s :: ss) ≫= ?f) with (f s ++ (ss ≫= f)).
  rewrite filter_app, fmap_app, IH. clear IH.
  destruct (decide (joined st s)) as [Hj|Hj].
  - pose proof Hj as Hj'. unfold joined in Hj'.
    apply list_elem_of_fmap in Hj' as (i & Hi & Hin).
    apply list_elem_of_fmap in Hin as (ex & -> & Hex).
    rewrite (join_exercise_found st s ex Hpk Hex Hi). simpl.
    destruct (decide (ExerciseSet.workout_log_id s = Some log_id)) as [Hl|Hl].
    + rewrite (filter_cons_True _ s ss) by done.
      by rewrite filter_cons_True, filter_nil by done.
    + rewrite (filter_cons_False _ s ss) by tauto.
      by rewrite filter_cons_False, filter_nil by done.
  - rewrite (join_exercise_missing st s Hj). simpl.
    by rewrite (filter_cons_False _ s ss) by tauto.
Qed.

(** X15. An entry of [get_workout_logs] lists each set of its log that refers to
    an exercise of the catalog exactly once; a set without exercise, or with
    an exercise id no catalog row has, is left out by the join. *)
Theorem get_workout_logs_sets st workout_id result :
  primary_keys st →
  run (get_workout_logs workout_id) st = (st, Return result) →
  Forall (fun r =>
    LoggedSet.set_id <$> WorkoutLogDetailResponse.exercise_sets r
    ≡ₚ ExerciseSet.id <$>
         filter (fun s => ExerciseSet.workout_log_id s
                          = Some (WorkoutLogDetailResponse.log_id r)
                          ∧ joined st s) (exercise_sets st)) result.
Proof.
  intros [Hpk _]. rewrite run_eq, get_workout_logs_eq.
  change (working (mkSession st st)) with st.
  destruct (find_workout workout_id st); [|done].
  simpl. intros [= <-]. apply Forall_fmap, Forall_forall. intros l _. simpl.
  rewrite <- (sets_of_log_sets _ _ Hpk), <- !list_fmap_compose.
  apply reflexive_eq, list_fmap_ext. by intros _ [s e] _.
Qed.

(** X15 at the gym's workout. *)
Lemma get_workout_logs_sets_witness :
  ∃ result,
    run (get_workout_logs 10) gym = (gym, Return result)
    ∧ Forall (fun r =>
        LoggedSet.set_id <$> WorkoutLogDetailResponse.exercise_sets r
        ≡ₚ ExerciseSet.id <$>
             filter (fun s => ExerciseSet.workout_log_id s
                              = Some (WorkoutLogDetailResponse.log_id r)
                              ∧ joined gym s) (exercise_sets gym)) result.
Proof.
  eexists. split; [by vm_compute|].
  eapply (get_workout_logs_sets gym 10 _ gym_primary_keys). by vm_compute.
Defined.

(** ** Logged sets are listed *)

Lemma sets_of_log_with_exercise_sets log_id st rows :
  sets_of_log log_id (with_exercise_sets st rows)
  = sets_of_log log_id st
    ++ filter (fun r => ExerciseSet.workout_log_id r.1 = Some log_id)
         (s ← rows;
          e ← filter (fun e => ExerciseSet.exercise_id s = Some (Exercise.id e))
                     (exercises st);
          [(s, e)]).
Proof.
  unfold sets_of_log, with_exercise_sets. simpl.
  by rewrite bind_app, filter_app.
Qed.

Lemma sets_of_log_created log_id st rows exercise_id ex target :
  NoDup (Exercise.id <$> exercises st) →
  find_exercise exercise_id st = Some ex →
  Forall (fun row => ExerciseSet.workout_log_id row = Some target
                     ∧ ExerciseSet.exercise_id row = Some exercise_id) rows →
  filter (fun r => ExerciseSet.workout_log_id r.1 = Some log_id)
    (s ← rows;
     e ← filter (fun e => ExerciseSet.exercise_id s = Some (Exercise.id e))
                (exercises st);
     [(s, e)])
  = if decide (log_id = target) then (fun row => (row, ex)) <$> rows else [].
Proof.
  intros Hpk Hex Hrows.
  unfold find_exercise in Hex. apply head_Some_elem_of in Hex.
  apply list_elem_of_filter in Hex as [Hid Hex].
  induction Hrows as [|s rows [Hl He] _ IH].
  { by destruct (decide _). }
  change ((s :: rows) ≫= ?f) with (f s ++ (rows ≫= f)).
  rewrite filter_app, IH. clear IH.
  rewrite (join_exercise_found st s ex Hpk Hex) by by rewrite He, Hid.
  simpl. destruct (decide (log_id = target)) as [->|Hne].
  - by rewrite filter_cons_True, filter_nil by done.
  - rewrite filter_cons_False, filter_nil; [done|].
    simpl. rewrite Hl. by intros [= ->].
Qed.

(** X14. What [log_exercise_sets] stores, [get_workout_logs] shows: after a
    successful call the listing of the workout has the same logs as before;
    the entry of a most recently performed log, to which the created rows
    belong, lists the sets it listed before and the created sets, under
    the exercise's name, and every other entry lists the sets it listed
    before. The order of the sets within an entry is left open. *)
Theorem logged_sets_are_listed st workout_id exercise_id sets st' created :
  primary_keys st →
  run (log_exercise_sets workout_id exercise_id sets) st = (st', Return created) →
  ∃ workout_log exercise before after,
    workout_log ∈ workout_logs st
    ∧ WorkoutLog.workout_id workout_log = Some workout_id
    ∧ (∀ l, l ∈ workout_logs st → WorkoutLog.workout_id l = Some workout_id →
            WorkoutLog.performed_at l <= WorkoutLog.performed_at workout_log)
    ∧ Forall (fun row => ExerciseSet.workout_log_id row
                         = Some (WorkoutLog.id workout_log)) created
    ∧ find_exercise exercise_id st = Some exercise
    ∧ run (get_workout_logs workout_id) st = (st, Return before)
    ∧ run (get_workout_logs workout_id) st' = (st', Return after)
    ∧ WorkoutLogDetailResponse.log_id <$> after
      ≡ₚ WorkoutLogDetailResponse.log_id <$> before
    ∧ ∀ a, a ∈ after →
        ∃ b, b ∈ before
          ∧ WorkoutLogDetailResponse.log_id a = WorkoutLogDetailResponse.log_id b
          ∧ WorkoutLogDetailResponse.workout_id a
            = WorkoutLogDetailResponse.workout_id b
          ∧ WorkoutLogDetailResponse.performed_at a
            = WorkoutLogDetailResponse.performed_at b
          ∧ WorkoutLogDetailResponse.duration_minutes a
            = WorkoutLogDetailResponse.duration_minutes b
          ∧ WorkoutLogDetailResponse.exercise_sets a
            ≡ₚ WorkoutLogDetailResponse.exercise_sets b
               ++ if decide (WorkoutLogDetailResponse.log_id b
                             = WorkoutLog.id workout_log)
                  then (fun row => logged_set (row, exercise)) <$> created
                  else [].
Proof.
  intros [Hpk _] Hrun.
  destruct (log_exercise_sets_returns _ _ _ _ _ _ Hrun)
    as (workout_log & Hlog & Hne & -> & Hrows).
  assert (Forall (fun row => ExerciseSet.workout_log_id row
                             = Some (WorkoutLog.id workout_log)
                             ∧ ExerciseSet.exercise_id row = Some exercise_id)
                 created) as Hcreated.
  { apply Forall_forall. intros row Hrow.
    apply list_elem_of_lookup in Hrow as [i Hi].
    destruct (Forall2_lookup_r _ _ _ _ _ Hrows Hi) as (item & _ & Hlogged).
    by destruct Hlogged as (? & ? & _). }
  revert Hrun. rewrite run_eq, log_exercise_sets_eq.
  change (working (mkSession st st)) with st.
  destruct (find_workout workout_id st) as [w|] eqn:Hw; [|done].
  destruct (find_workout_exercise workout_id exercise_id st); [|done].
  destruct (find_exercise exercise_id st) as [ex|] eqn:Hex; [|done].
  intros _.
  pose proof Hlog as Hlog'. unfold logs_of_workout in Hlog'.
  apply sort_desc_head in Hlog' as [Hin Hmax].
  apply list_elem_of_filter in Hin as [Hlw Hin].
  exists workout_log, ex,
    (log_entry st <$> logs_of_workout workout_id st),
    (log_entry (with_exercise_sets st created) <$> logs_of_workout workout_id st).
  split_and!; [done|done| | |done| | | |].
  - intros l Hl Hlw'. apply Hmax. by apply list_elem_of_filter.
  - eapply Forall_impl; [exact Hcreated|]. by intros row [? _].
  - rewrite run_eq, get_workout_logs_eq.
    change (working (mkSession st st)) with st. by rewrite Hw.
  - rewrite run_eq, get_workout_logs_eq.
    change (working (mkSession ?a ?a)) with a.
    change (find_workout workout_id (with_exercise_sets st created))
      with (find_workout workout_id st). by rewrite Hw.
  - by rewrite <- !list_fmap_compose.
  - intros a Ha. apply list_elem_of_fmap in Ha as (l & -> & Hl).
    exists (log_entry st l). split; [by apply list_elem_of_fmap_2|].
    split_and!; try done.
    unfold log_entry. simpl.
    rewrite sets_of_log_with_exercise_sets, fmap_app.
    rewrite (sets_of_log_created _ st created exercise_id ex (WorkoutLog.id workout_log))
      by done.
    destruct (decide _); [|done]. by rewrite <- list_fmap_compose.
Qed.

(** X14 at two sets of bench press. *)
Lemma logged_sets_are_listed_witness :
  ∃ st' created workout_log exercise before after,
    run (log_exercise_sets 10 1 batch) gym = (st', Return created)
    ∧ workout_log ∈ workout_logs gym
    ∧ WorkoutLog.workout_id workout_log = Some 10
    ∧ (∀ l, l ∈ workout_logs gym → WorkoutLog.workout_id l = Some 10 →
            WorkoutLog.performed_at l <= WorkoutLog.performed_at workout_log)
    ∧ Forall (fun row => ExerciseSet.workout_log_id row
                         = Some (WorkoutLog.id workout_log)) created
    ∧ find_exercise 1 gym = Some exercise
    ∧ run (get_workout_logs 10) gym = (gym, Return before)
    ∧ run (get_workout_logs 10) st' = (st', Return after)
    ∧ WorkoutLogDetailResponse.log_id <$> after
      ≡ₚ WorkoutLogDetailResponse.log_id <$> before
    ∧ ∀ a, a ∈ after →
        ∃ b, b ∈ before
          ∧ WorkoutLogDetailResponse.log_id a = WorkoutLogDetailResponse.log_id b
          ∧ WorkoutLogDetailResponse.workout_id a
            = WorkoutLogDetailResponse.workout_id b
          ∧ WorkoutLogDetailResponse.performed_at a
            = WorkoutLogDetailResponse.performed_at b
          ∧ WorkoutLogDetailResponse.duration_minutes a
            = WorkoutLogDetailResponse.duration_minutes b
          ∧ WorkoutLogDetailResponse.exercise_sets a
            ≡ₚ WorkoutLogDetailResponse.exercise_sets b
               ++ if decide (WorkoutLogDetailResponse.log_id b
                             = WorkoutLog.id workout_log)
                  then (fun row => logged_set (row, exercise)) <$> created
                  else [].
Proof.
  eexists _, _.
  assert (run (log_exercise_sets 10 1 batch) gym
          = (with_exercise_sets gym logged_batch, Return logged_batch)) as Hrun
    by by vm_compute.
  destruct (logged_sets_are_listed gym 10 1 batch _ _ gym_primary_keys Hrun)
    as (workout_log & exercise & before & after & Hprops).
  exists workout_log, exercise, before, after. split; [exact Hrun|exact Hprops].
Defined.

(** ** get_exercise_by_id *)

Lemma get_exercise_by_id_eq exercise_id s :
  get_exercise_by_id exercise_id s
  = match find_exercise exercise_id (working s) with
    | Some exercise => (s, Return exercise)
    | None => (s, Raise NotFound)
    end.
Proof.
  unfold get_exercise_by_id. rewrite handler_bind_eq. unfold query at 1.
  by destruct (find_exercise exercise_id (working s)).
Qed.

(** X16. [get_exercise_by_id] answers the catalog row that has the id, and 404
    when no row has it. *)
Theorem get_exercise_by_id_found st exercise_id :
  primary_keys st →
  (∀ ex, ex ∈ exercises st → Exercise.id ex = exercise_id →
         run (get_exercise_by_id exercise_id) st = (st, Return ex))
  ∧ (exercise_id ∉ Exercise.id <$> exercises st →
     run (get_exercise_by_id exercise_id) st = (st, Raise NotFound)).
Proof.
  intros [Hpk _]. split.
  - intros ex Hex Hid. rewrite run_eq, get_exercise_by_id_eq.
    change (working (mkSession st st)) with st. unfold find_exercise.
    rewrite (filter_unique_key Exercise.id _ (exercises st) ex); [done|..].
    + intros y. rewrite Hid. split; congruence.
    + exact Hpk.
    + exact Hex.
  - intros Hid. rewrite run_eq, get_exercise_by_id_eq.
    change (working (mkSession st st)) with st. unfold find_exercise.
    rewrite filter_none; [done|]. intros e He Heq.
    apply Hid. rewrite <- Heq. by apply list_elem_of_fmap_2.
Qed.

(** X16 at the back squat and at an id the catalog does not have. *)
Lemma get_exercise_by_id_found_witness :
  run (get_exercise_by_id 3) gym
    = (gym, Return (Exercise.mk 3 "Back Squat" (Some "legs"%string) None (Some 1)
                      (Some 8%Q)))
  ∧ run (get_exercise_by_id 9) gym = (gym, Raise NotFound).
Proof.
  split.
  - apply (get_exercise_by_id_found gym 3 gym_primary_keys); [|done].
    simpl. rewrite !elem_of_cons. by do 2 right; left.
  - apply (get_exercise_by_id_found gym 9 gym_primary_keys).
    by apply (bool_decide_unpack _).
Defined.

(** ** get_progress_summary: its three outcomes *)



(** ** get_exercise_progress: the progression *)




(** ** From one handler to the next *)



(** X24. What [log_workout] stores, [get_workout_logs] shows: for a known
    workout and a duration of at least one minute that fits the 32-bit
    column the call answers the new log without sets, and the listing of
    the workout afterwards has the entries of before and one more, the new
    log with its time and duration. *)
Theorem logged_workout_is_listed st workout_id minutes new_log_id now :
  is_Some (find_workout workout_id st) →
  1 <= minutes <= 2147483647 →
  ∃ st1 response before after,
    run (log_workout workout_id minutes new_log_id now) st = (st1, Return response)
    ∧ response = WorkoutLogDetailResponse.mk new_log_id (Some workout_id) now minutes []
    ∧ run (get_workout_logs workout_id) st = (st, Return before)
    ∧ run (get_workout_logs workout_id) st1 = (st1, Return after)
    ∧ WorkoutLogDetailResponse.log_id <$> after
      ≡ₚ new_log_id :: (WorkoutLogDetailResponse.log_id <$> before)
    ∧ ∃ entry, entry ∈ after
        ∧ WorkoutLogDetailResponse.log_id entry = new_log_id
        ∧ WorkoutLogDetailResponse.performed_at entry = now
        ∧ WorkoutLogDetailResponse.duration_minutes entry = minutes.
Proof.
  intros Hfound Hd. pose proof Hfound as [w Hw].
  set (l := WorkoutLog.mk new_log_id (Some workout_id) now minutes).
  assert (logs_of_workout workout_id (with_workout_log st l)
          ≡ₚ l :: logs_of_workout workout_id st) as Hperm.
  { unfold logs_of_workout, with_workout_log. simpl.
    rewrite !sort_desc_perm, filter_app, filter_cons_True, filter_nil by done.
    by rewrite Permutation_app_comm. }
  exists (with_workout_log st l). eexists _, _, _. split_and!.
  - by apply log_workout_succeeds.
  - done.
  - rewrite run_eq, get_workout_logs_eq.
    change (working (mkSession st st)) with st. by rewrite Hw.
  - rewrite run_eq, get_workout_logs_eq.
    change (working (mkSession ?a ?a)) with a.
    rewrite find_workout_with_workout_log. by rewrite Hw.
  - rewrite <- !list_fmap_compose.
    change (WorkoutLogDetailResponse.log_id ∘ log_entry ?s) with WorkoutLog.id.
    by rewrite Hperm.
  - exists (log_entry (with_workout_log st l) l). split_and!; try done.
    apply list_elem_of_fmap_2. rewrite Hperm. left.
Qed.

(** X24 at the gym's workout, logged today. *)
Lemma logged_workout_is_listed_witness :
  ∃ st1 response before after,
    run (log_workout 10 40 22 today) gym = (st1, Return response)
    ∧ response = WorkoutLogDetailResponse.mk 22 (Some 10) today 40 []
    ∧ run (get_workout_logs 10) gym = (gym, Return before)
    ∧ run (get_workout_logs 10) st1 = (st1, Return after)
    ∧ WorkoutLogDetailResponse.log_id <$> after
      ≡ₚ 22 :: (WorkoutLogDetailResponse.log_id <$> before)
    ∧ ∃ entry, entry ∈ after
        ∧ WorkoutLogDetailResponse.log_id entry = 22
        ∧ WorkoutLogDetailResponse.performed_at entry = today
        ∧ WorkoutLogDetailResponse.duration_minutes entry = 40.
Proof.
  apply (logged_workout_is_listed gym 10 40 22 today); [by eexists|lia].
Defined.

(** What a successful [generate_workout] leaves behind for the loggers. *)
Lemma generate_committed st request g new_workout_id st' r :
  run (generate_workout request g new_workout_id) st = (st', Return r) →
  WorkoutGenerateResponse.workout_id r = new_workout_id
  ∧ (∃ rows,
       st' = with_workout_exercises
               (with_workout st
                  (Workout.mk new_workout_id
                     (Some (WorkoutGenerateRequest.user_id request))
                     (Some (WorkoutGenerateResponse.goal r)))) rows
       ∧ ∀ d, d ∈ WorkoutGenerateResponse.exercises r →
           ∃ row, row ∈ rows
             ∧ WorkoutExercise.workout_id row = Some new_workout_id
             ∧ WorkoutExercise.exercise_id row = Some (ExerciseDetail.exercise_id d))
  ∧ ∀ d, d ∈ WorkoutGenerateResponse.exercises r →
      ∃ ex, ex ∈ exercises st ∧ Exercise.id ex = ExerciseDetail.exercise_id d.
Proof.
  intros Hrun. split_and!.
  - apply generate_returns in Hrun
      as (sel & rows & ts & tr & rs & _ & _ & _ & _ & _ & _ & ->). done.
  - revert Hrun. rewrite run_eq.
    destruct (generate_workout request g new_workout_id (mkSession st st))
      as [s3 o] eqn:Hh.
    simpl. intros Hrun. inversion Hrun; subst. clear Hrun. revert Hh.
    unfold generate_workout.
    rewrite handler_bind_eq. unfold query at 1.
    change (working (mkSession st st)) with st.
    destruct (find_user (WorkoutGenerateRequest.user_id request) st);
      [|by (unfold raise; inversion 1)].
    case_bool_decide; [by (unfold raise; inversion 1)|].
    rewrite handler_bind_eq. unfold query at 1.
    change (working (mkSession st st)) with st.
    destruct (exercise_query _ st) as [|ex0 exs]; [by (unfold raise; inversion 1)|].
    destruct (prescription _) as [[ts tr] rs] eqn:Hp.
    destruct (prescription_fits _ _ _ _ Hp) as (Hts & Htr & Hrs).
    rewrite handler_bind_eq. unfold lift at 1.
    destruct (select_exercises _ _ g) as [selected|e]; [|by inversion 1].
    rewrite handler_bind_eq. unfold db_add_workout, update at 1. cbv beta iota.
    rewrite handler_bind_eq. simpl Workout.id.
    match goal with
    | |- context [for_each (add_selected ?w ?a ?b ?c) ?xs ?s1] =>
        destruct (for_each_add_selected_rows w a b c xs s1 Hts Htr Hrs)
          as (rows & -> & Hrows)
    end.
    rewrite handler_bind_eq. unfold db_commit at 1. cbv beta iota.
    unfold mret, handler_ret. intros Hrun. inversion Hrun; subst. simpl.
    exists rows. split; [done|]. intros d Hd.
    apply list_elem_of_lookup in Hd as [i Hi].
    destruct (Forall2_lookup_l _ _ _ _ _ Hrows Hi) as (row & Hrow & Hp').
    exists row. split; [by eapply list_elem_of_lookup_2|].
    by destruct Hp' as (? & ? & _).
  - intros d Hd.
    apply generate_returns in Hrun
      as (sel & rows & ts & tr & rs & _ & _ & Hsel & _ & _ & _ & ->).
    simpl in Hd. apply list_elem_of_fmap in Hd as (ex & -> & Hex).
    destruct (WorkoutGenerateRequest.duration_minutes request) as [dur|].
    2: { by rewrite select_exercises_no_duration in Hsel. }
    destruct (select_exercises_spec
                (exercise_query (WorkoutGenerateRequest.equipment request) st) dur g)
      as (sel' & Hsel' & Hin & _).
    rewrite Hsel in Hsel'. inversion Hsel'; subst sel'.
    apply Hin, exercise_query_elem_of in Hex as [Hex _].
    by exists ex.
Qed.

(** X25. A generated workout can be used as it is: for every exercise of the
    answer, [log_workout] on the answered workout id succeeds for a
    duration of at least one minute that fits its column, and then
    [log_exercise_sets] for that exercise and a batch that fits the columns
    stores one row per item under the new log. *)
Theorem generated_workout_can_be_logged st request g new_workout_id st1 r
    d minutes new_log_id now sets :
  run (generate_workout request g new_workout_id) st = (st1, Return r) →
  d ∈ WorkoutGenerateResponse.exercises r →
  1 <= minutes <= 2147483647 →
  sets ≠ [] →
  batch_fits sets →
  (∀ l, l ∈ workout_logs st →
        WorkoutLog.workout_id l = Some (WorkoutGenerateResponse.workout_id r) →
        WorkoutLog.performed_at l < now) →
  ∃ st2 response created,
    run (log_workout (WorkoutGenerateResponse.workout_id r) minutes new_log_id now) st1
      = (st2, Return response)
    ∧ run (log_exercise_sets (WorkoutGenerateResponse.workout_id r)
             (ExerciseDetail.exercise_id d) sets) st2
      = (with_exercise_sets st2 created, Return created)
    ∧ length created = length sets
    ∧ Forall (fun row =>
                ExerciseSet.workout_log_id row = Some new_log_id
                ∧ ExerciseSet.exercise_id row = Some (ExerciseDetail.exercise_id d))
             created.
Proof.
  intros Hrun Hd Hmin Hne Hfits Hlatest.
  destruct (generate_committed _ _ _ _ _ _ Hrun) as (Hwid & (rows & -> & Hrows) & Hcat).
  rewrite Hwid in *. clear Hwid.
  destruct (Hrows d Hd) as (row & Hrow & Hrw & Hre).
  destruct (Hcat d Hd) as (ex & Hex & Hid).
  set (st1 := with_workout_exercises _ rows).
  set (l := WorkoutLog.mk new_log_id (Some new_workout_id) now minutes).
  assert (is_Some (find_workout new_workout_id st1)) as Hw.
  { unfold find_workout, st1. simpl. apply head_filter_is_Some.
    eexists. split; [|apply elem_of_app; right; left]. done. }
  assert (is_Some (find_workout_exercise new_workout_id (ExerciseDetail.exercise_id d)
                     st1)) as Hwe.
  { unfold find_workout_exercise, st1. simpl. apply head_filter_is_Some.
    exists row. split; [done|apply elem_of_app; by right]. }
  assert (is_Some (find_exercise (ExerciseDetail.exercise_id d) st1)) as Hfe.
  { unfold find_exercise, st1. simpl. apply head_filter_is_Some. by exists ex. }
  destruct (log_exercise_sets_succeeds (with_workout_log st1 l) new_workout_id
              (ExerciseDetail.exercise_id d) sets l) as (created & Hsets & Hlogged).
  { by rewrite find_workout_with_workout_log. }
  { exact Hwe. }
  { exact Hfe. }
  { exact Hne. }
  { by rewrite logs_of_workout_with_workout_log. }
  { exact Hfits. }
  exists (with_workout_log st1 l). eexists _, created. split_and!.
  - by apply log_workout_succeeds.
  - exact Hsets.
  - apply Forall2_length in Hlogged. by rewrite enumerate_length in Hlogged.
  - apply Forall_forall. intros s Hs.
    apply list_elem_of_lookup in Hs as [i Hi].
    destruct (Forall2_lookup_r _ _ _ _ _ Hlogged Hi) as (item & _ & Hp).
    by destruct Hp as (? & ? & _).
Qed.

(** X25 at a strength request with a barbell. *)
Lemma generated_workout_can_be_logged_witness :
  ∃ st1 r,
    run (generate_workout (generate_request 1 "Strength" (Some 45)) draws 50) gym
      = (st1, Return r)
    ∧ WorkoutGenerateResponse.exercises r ≠ []
    ∧ ∀ d, d ∈ WorkoutGenerateResponse.exercises r →
        ∃ st2 response created,
          run (log_workout (WorkoutGenerateResponse.workout_id r) 40 22 today) st1
            = (st2, Return response)
          ∧ run (log_exercise_sets (WorkoutGenerateResponse.workout_id r)
                   (ExerciseDetail.exercise_id d) batch) st2
            = (with_exercise_sets st2 created, Return created)
          ∧ length created = length batch
          ∧ Forall (fun row =>
                      ExerciseSet.workout_log_id row = Some 22
                      ∧ ExerciseSet.exercise_id row
                        = Some (ExerciseDetail.exercise_id d))
                   created.
Proof.
  eexists _, _. split; [by vm_compute|]. split; [by vm_compute|].
  intros d Hd.
  eapply (generated_workout_can_be_logged gym
            (generate_request 1 "Strength" (Some 45)) draws 50 _ _ d 40 22 today batch);
    [by vm_compute|exact Hd|lia|done|by apply (bool_decide_unpack _)|].
  apply (proj1 (Forall_forall
                  (fun l => WorkoutLog.workout_id l = Some 50 →
                            WorkoutLog.performed_at l < today) (workout_logs gym))).
  by apply (bool_decide_unpack _).
Defined.






